(** * licitacao: the extraction script (extract.py) and the browsing tool (app.py)

    A shallow embedding of the two Python sources and of the fragment of
    pandas, requests and re they call, followed by the properties of the
    specification that were checked against it.

    Layout: Part I holds the definitions (Python values, the pandas
    fragment, [extract.py], [app.py]); Part II holds the lemmas. *)

From Stdlib Require Import ZArith NArith Ascii String List Bool Lia.
From stdpp Require Import base option list strings gmap.

Set Warnings "-register-all".

Local Open Scope string_scope.
Local Open Scope list_scope.
Local Open Scope Z_scope.

(* ===================================================================== *)
(** * Part I - definitions                                                *)
(* ===================================================================== *)

(** ** Python values *)

Module Py.

(** A Python [str] is a sequence of Unicode code points. *)
Definition char := N.
Definition str := list char.

(** [cp "abc"] is the Python string with the code points of the literal. *)
Fixpoint cp (s : string) : str :=
  match s with
  | EmptyString => []
  | String a s' => N_of_ascii a :: cp s'
  end.

Definition str_eqb (a b : str) : bool := bool_decide (a = b).

(** Exceptions that the modelled statements raise. *)
Inductive exn :=
| KeyError (k : string)
| TypeError
| ValueError
| AttributeError
| InvalidIndexError
| RequestException
| HTTPError (status : Z)
| JSONDecodeError
| IllegalCharacterError.

(** The outcome of a statement that may raise. *)
Inductive result (A : Type) :=
| Ok (a : A)
| Raise (e : exn).
Arguments Ok {A} a.
Arguments Raise {A} e.

#[global] Instance result_ret : MRet result := fun A a => Ok a.

#[global] Instance result_bind : MBind result := fun A B k m =>
  match m with
  | Ok a => k a
  | Raise e => Raise e
  end.

End Py.
Export Py.

(** ** The pandas fragment *)

Module Pandas.

(** A cell of a frame.  [NaN] stands for the missing value of a column
    that is not a datetime column ([None] or [float('nan')]), [NaT] for the
    missing value of a datetime column.  [Dict] is a JSON object kept in an
    object column, its items in insertion order.  [Num] is a whole number,
    kept exact: pandas stores a column of integers that holds a missing
    value as 64-bit floating point numbers, which changes an integer beyond
    2^53 in absolute value, so what is stated of the numbers of a column
    that was built with, or has received, a missing value is stated for
    numbers up to 2^53 ([float_safe]). *)
Inductive cell :=
| NaN
| NaT
| Num (n : Z)
| Str (s : str)
| Timestamp (t : Z)
| Dict (items : list (string * cell)).

Fixpoint cell_eqb (a b : cell) {struct a} : bool :=
  match a, b with
  | NaN, NaN => true
  | NaT, NaT => true
  | Num x, Num y => Z.eqb x y
  | Str x, Str y => str_eqb x y
  | Timestamp x, Timestamp y => Z.eqb x y
  | Dict xs, Dict ys =>
      (fix items_eqb (xs ys : list (string * cell)) {struct xs} : bool :=
         match xs, ys with
         | [], [] => true
         | (k, v) :: xs', (k', v') :: ys' =>
             String.eqb k k' && cell_eqb v v' && items_eqb xs' ys'
         | _, _ => false
         end) xs ys
  | _, _ => false
  end.

Definition is_dict (c : cell) : bool :=
  match c with Dict _ => true | _ => false end.

(** A Python [dict] with string keys: items in insertion order.
    [d[k] = v] keeps the position of a key that is already there. *)
Definition pydict := list (string * cell).

Fixpoint dict_set (k : string) (v : cell) (d : pydict) : pydict :=
  match d with
  | [] => [(k, v)]
  | (k', v') :: d' =>
      if String.eqb k k' then (k, v) :: d' else (k', v') :: dict_set k v d'
  end.

Fixpoint dict_get (k : string) (d : pydict) : option cell :=
  match d with
  | [] => None
  | (k', v) :: d' => if String.eqb k k' then Some v else dict_get k d'
  end.

(** [{**a, **b}] *)
Definition dict_merge (a b : pydict) : pydict :=
  fold_left (fun acc kv => dict_set (fst kv) (snd kv) acc) b a.

(** A Series: index labels and values, position by position. *)
Record Series := mkSeries { s_index : list Z; s_values : list cell }.

(** A DataFrame, column by column as pandas stores it: the row labels and,
    for every column in display order, its label and its cells. *)
Record DataFrame := mkDF { index : list Z; data : list (string * list cell) }.

Definition columns (df : DataFrame) : list string := map fst (data df).

(** [len(df)] *)
Definition len (df : DataFrame) : nat := length (index df).

(** Every column has one cell per row label. *)
Definition wf (df : DataFrame) : Prop :=
  Forall (fun c => length (snd c) = length (index df)) (data df).

(** [pd.RangeIndex(n)] *)
Definition RangeIndex (n : nat) : list Z := map Z.of_nat (seq 0 n).

(** [pd.DataFrame()] *)
Definition empty_frame : DataFrame := mkDF [] [].

(** The cells of one row, in column order ([NaN] where a column is short). *)
Definition row_at (df : DataFrame) (i : nat) : list cell :=
  map (fun c => nth i (snd c) NaN) (data df).

(** *** Selection and assignment *)

Definition count_label (c : string) (df : DataFrame) : nat :=
  length (List.filter (String.eqb c) (columns df)).

(** The cells of the first column labelled [c]. *)
Fixpoint find_column (c : string) (d : list (string * list cell)) : option (list cell) :=
  match d with
  | [] => None
  | (c', v) :: d' => if String.eqb c c' then Some v else find_column c d'
  end.

(** [df[c]] read as a Series: [KeyError] when no column has the label.
    When the label is repeated pandas hands back a sub-frame instead of a
    Series, and the statements of [process_data] that read a Series this
    way raise on a sub-frame: [ValueError] from [pd.to_datetime] and from
    the assignment to [valor], [TypeError] or [AttributeError], by the
    version, from [map].  The model raises [ValueError] for all of them;
    nothing is stated about which exception it is. *)
Definition getitem (df : DataFrame) (c : string) : result Series :=
  match find_column c (data df) with
  | None => Raise (KeyError c)
  | Some v =>
      if (count_label c df =? 1)%nat then Ok (mkSeries (index df) v)
      else Raise ValueError
  end.

Fixpoint has_dup (l : list Z) : bool :=
  match l with
  | [] => false
  | x :: l' => existsb (Z.eqb x) l' || has_dup l'
  end.

(** Position of the first occurrence of a label. *)
Fixpoint index_of (x : Z) (l : list Z) : option nat :=
  match l with
  | [] => None
  | y :: l' => if Z.eqb x y then Some O else option_map S (index_of x l')
  end.

(** The missing value pandas fills a column with when a row is added to
    it: [NaT] for a datetime column, [NaN] otherwise.  A column is a
    datetime column when all its cells are timestamps or [NaT]. *)
Definition is_datetime_column (v : list cell) : bool :=
  forallb (fun c => match c with Timestamp _ | NaT => true | _ => false end) v.

Definition na_value (v : list cell) : cell :=
  if is_datetime_column v then NaT else NaN.

(** [reindex]: the cells of [v] (labelled by [old]) laid out along [new];
    a label of [new] that [old] lacks gets the column's missing value.
    The cells that stay are kept exact (see [cell] for a column of integers
    that is recast). *)
Definition reindex_cells (old new : list Z) (v : list cell) : list cell :=
  map (fun l => match index_of l old with
                | Some i => nth i v (na_value v)
                | None => na_value v
                end) new.

Definition index_eqb (a b : list Z) : bool := bool_decide (a = b).

(** A Series aligned on the frame's index before it is stored: as it is
    when the two indexes are equal, reindexed otherwise (which pandas
    refuses when the Series has a repeated label). *)
Definition align_to (idx : list Z) (s : Series) : result (list cell) :=
  if index_eqb (s_index s) idx then Ok (s_values s)
  else if has_dup (s_index s) then Raise ValueError
  else Ok (reindex_cells (s_index s) idx (s_values s)).

(** [df[c] = s]: every column labelled [c] takes the aligned values where
    it stands; when there is none the column is appended. *)
Definition setitem (df : DataFrame) (c : string) (s : Series) : result DataFrame :=
  v ← align_to (index df) s;
  Ok (mkDF (index df)
        (if (count_label c df =? 0)%nat then data df ++ [(c, v)]
         else map (fun kv => if String.eqb c (fst kv) then (c, v) else kv) (data df))).

(** [df.drop(c, axis=1)]: every column labelled [c] goes; [KeyError] when
    there is none. *)
Definition drop (df : DataFrame) (c : string) : result DataFrame :=
  if (count_label c df =? 0)%nat then Raise (KeyError c)
  else Ok (mkDF (index df)
             (List.filter (fun kv => negb (String.eqb c (fst kv))) (data df))).

(** [df[mask]]: the rows whose mask entry is true, labels kept. *)
Fixpoint select {A} (mask : list bool) (l : list A) : list A :=
  match mask, l with
  | b :: mask', x :: l' => if b then x :: select mask' l' else select mask' l'
  | _, _ => []
  end.

Definition boolean_index (df : DataFrame) (mask : list bool) : DataFrame :=
  mkDF (select mask (index df))
       (map (fun kv => (fst kv, select mask (snd kv))) (data df)).

(** *** [drop_duplicates] *)

(** The columns whose label is in [subset], and the key of each of the
    first [n] rows: its cells in those columns. *)
Definition key_columns (subset : list string) (df : DataFrame) : list (list cell) :=
  map snd (List.filter (fun kv => existsb (String.eqb (fst kv)) subset) (data df)).

Definition row_keys (n : nat) (cols : list (list cell)) : list (list cell) :=
  map (fun i => map (fun v => nth i v NaN) cols) (seq 0 n).

Definition key_eqb (a b : list cell) : bool :=
  (length a =? length b)%nat && forallb (fun p => cell_eqb (fst p) (snd p)) (combine a b).

(** [duplicated(keep='first')] negated: entry [i] is true when no earlier
    row has the key of row [i]. *)
Fixpoint first_seen (seen : list (list cell)) (keys : list (list cell)) : list bool :=
  match keys with
  | [] => []
  | k :: keys' =>
      if existsb (key_eqb k) seen then false :: first_seen seen keys'
      else true :: first_seen (k :: seen) keys'
  end.

(** [df.drop_duplicates(subset=subset)] with the default [keep='first'].
    A frame without rows is returned as it is, before any label is looked
    up.  Otherwise: [KeyError] when a label of [subset] is no column,
    [TypeError] when a key cell is a dict (not hashable); the surviving
    rows keep their labels. *)
Definition drop_duplicates (df : DataFrame) (subset : list string) : result DataFrame :=
  if (len df =? 0)%nat then Ok df
  else
    match List.filter (fun c => (count_label c df =? 0)%nat) subset with
    | c :: _ => Raise (KeyError c)
    | [] =>
        let cols := key_columns subset df in
        if existsb (existsb is_dict) cols then Raise TypeError
        else Ok (boolean_index df (first_seen [] (row_keys (len df) cols)))
    end.

(** The values rows hold in the columns labelled [a] or [b], row by row. *)
Definition pairs (a b : string) (df : DataFrame) : list (list cell) :=
  row_keys (len df) (key_columns [a; b] df).

(** *** [pd.to_datetime(..., errors='coerce')] *)

(** The parser of the library is a parameter: [parse col c] is the
    instant cell [c] of column [col] denotes ([col] is there because the
    format is inferred from the column), or [None] when it denotes none.
    With [errors='coerce'] the latter becomes [NaT]. *)
Definition to_datetime (parse : list cell -> cell -> option Z) (s : Series) : Series :=
  mkSeries (s_index s)
    (map (fun c => match parse (s_values s) c with
                   | Some t => Timestamp t
                   | None => NaT
                   end) (s_values s)).

(** *** [pd.json_normalize] *)

(** The key of a nested item: [f"{key_string}.{key}"], without the leading
    separator at the top. *)
Definition new_key (key_string key : string) : string :=
  if String.eqb key_string "" then key else key_string ++ "." ++ key.

(** [_normalise_json]: the leaves of [data] stored under their dotted path. *)
Fixpoint _normalise_json (data : cell) (key_string : string) (normalized_dict : pydict)
  : pydict :=
  match data with
  | Dict items =>
      (fix walk (items : list (string * cell)) (acc : pydict) : pydict :=
         match items with
         | [] => acc
         | (key, value) :: rest =>
             walk rest (_normalise_json value (new_key key_string key) acc)
         end) items normalized_dict
  | _ => dict_set key_string data normalized_dict
  end.

(** [_normalise_json_ordered]: the top-level leaves first, then the nested
    ones. *)
Definition _normalise_json_ordered (d : pydict) : pydict :=
  let top_dict_ := List.filter (fun kv => negb (is_dict (snd kv))) d in
  let nested_dict_ :=
    _normalise_json (Dict (List.filter (fun kv => is_dict (snd kv)) d)) "" [] in
  dict_merge top_dict_ nested_dict_.

(** [_simple_json_normalize] on one element: a record for a dict, the empty
    record for anything else. *)
Definition _simple_json_normalize (c : cell) : pydict :=
  match c with
  | Dict d => _normalise_json_ordered d
  | _ => []
  end.

(** [pd.DataFrame(records)] for a list of dicts: the columns are the keys in
    order of first appearance, a record without a key has [NaN] there, and
    the index is a fresh [RangeIndex].  The numbers are kept exact (see
    [cell] for integers next to a missing value). *)
Definition all_keys (records : list pydict) : list string :=
  fold_left (fun acc r =>
               fold_left (fun acc k =>
                            if existsb (String.eqb k) acc then acc else acc ++ [k])
                         (map fst r) acc)
            records [].

Definition DataFrame_of_records (records : list pydict) : DataFrame :=
  mkDF (RangeIndex (length records))
       (map (fun k => (k, map (fun r => default NaN (dict_get k r)) records))
            (all_keys records)).

(** [pd.json_normalize(s)] for a Series: one record per element, numbered
    from 0; the index of [s] is not carried over (pandas 1 and 2, the
    versions that still have [applymap], which [app.py] calls). *)
Definition json_normalize (s : Series) : DataFrame :=
  DataFrame_of_records (map _simple_json_normalize (s_values s)).

(** [pd.json_normalize(df[c])].  When the label is repeated [df[c]] is a
    sub-frame, iterating it yields its column labels, and the outcome is a
    frame without columns that has one row per such column. *)
Definition json_normalize_column (df : DataFrame) (c : string) : result DataFrame :=
  match find_column c (data df) with
  | None => Raise (KeyError c)
  | Some v =>
      if (count_label c df =? 1)%nat then Ok (json_normalize (mkSeries (index df) v))
      else Ok (mkDF (RangeIndex (count_label c df)) [])
  end.

(** *** [pd.concat([a, b], axis=1)] *)

(** The outer join of the two indexes: the labels of [a], then those of
    [b] that [a] lacks. *)
Definition union_index (a b : list Z) : list Z :=
  a ++ List.filter (fun l => negb (existsb (Z.eqb l) a)) b.

Definition reindex (new : list Z) (df : DataFrame) : DataFrame :=
  mkDF new (map (fun kv => (fst kv, reindex_cells (index df) new (snd kv))) (data df)).

(** Rows are matched by label, not by position.  Equal indexes need no
    alignment; otherwise both frames are reindexed on the union, which
    pandas refuses when a label is repeated. *)
Definition concat_axis1 (a b : DataFrame) : result DataFrame :=
  if index_eqb (index a) (index b) then Ok (mkDF (index a) (data a ++ data b))
  else if has_dup (index a) || has_dup (index b) then Raise InvalidIndexError
  else let idx := union_index (index a) (index b) in
       Ok (mkDF idx (data (reindex idx a) ++ data (reindex idx b))).

(** *** [pd.concat(frames, ignore_index=True)] *)

(** Frames stacked one under the other: the columns are the labels of all
    frames in order of first appearance, a frame without a column
    contributes missing values, and the rows are numbered afresh. *)
Definition all_labels (frames : list DataFrame) : list string :=
  fold_left (fun acc f =>
               fold_left (fun acc k =>
                            if existsb (String.eqb k) acc then acc else acc ++ [k])
                         (columns f) acc)
            frames [].

Definition stacked_column (c : string) (frames : list DataFrame) : list cell :=
  let present := flat_map (fun f => default [] (find_column c (data f))) frames in
  flat_map (fun f => match find_column c (data f) with
                     | Some v => v
                     | None => repeat (na_value present) (len f)
                     end) frames.

Definition concat_rows (frames : list DataFrame) : DataFrame :=
  mkDF (RangeIndex (length (flat_map index frames)))
       (map (fun c => (c, stacked_column c frames)) (all_labels frames)).

(** *** [Series.map(dict)] *)

(** A value that is no key of the dict maps to [NaN]; looking up a dict
    cell raises (not hashable). *)
Definition series_map (table : list (str * cell)) (s : Series) : result Series :=
  if existsb is_dict (s_values s) then Raise TypeError
  else Ok (mkSeries (s_index s)
             (map (fun c => match c with
                            | Str k => default NaN (snd <$> List.find (fun kv => str_eqb k (fst kv)) table)
                            | _ => NaN
                            end) (s_values s))).

End Pandas.

(** ** extract.py *)

Module Extract.
Import Pandas.

Definition PAGE_SIZE : Z := 50.

Definition date_columns : list string :=
  [ "dataAberturaProposta"; "dataEncerramentoProposta"; "dataInclusao";
    "dataPublicacaoPncp"; "dataAtualizacao"; "dataAtualizacaoGlobal" ].

Definition poder_map : list (str * cell) :=
  [ (cp "E", Str (cp "Estadual"));
    (cp "M", Str (cp "Municipal"));
    (cp "N", Str (cp "Nacional")) ].

Section ProcessData.

Variable parse : list cell -> cell -> option Z.

(** [df[c] = pd.to_datetime(df[c], errors='coerce')] *)
Definition coerce_date (df : DataFrame) (c : string) : result DataFrame :=
  s ← getitem df c;
  setitem df c (to_datetime parse s).

(** [process_data]: the statements of the source, one bind each. *)
Definition process_data (df : DataFrame) : result DataFrame :=
  df ← drop_duplicates df ["valorTotalHomologado"; "objetoCompra"];
  df ← coerce_date df "dataAberturaProposta";
  df ← coerce_date df "dataEncerramentoProposta";
  df ← coerce_date df "dataInclusao";
  df ← coerce_date df "dataPublicacaoPncp";
  df ← coerce_date df "dataAtualizacao";
  df ← coerce_date df "dataAtualizacaoGlobal";
  valor ← getitem df "valorTotalEstimado";
  df ← setitem df "valor" valor;
  orgao_entidade_df ← json_normalize_column df "orgaoEntidade";
  rest ← drop df "orgaoEntidade";
  df ← concat_axis1 rest orgao_entidade_df;
  poderId ← getitem df "poderId";
  poder ← series_map poder_map poderId;
  df ← setitem df "poder" poder;
  unidade_orgao_df ← json_normalize_column df "unidadeOrgao";
  rest ← drop df "unidadeOrgao";
  df ← concat_axis1 rest unidade_orgao_df;
  Ok df.

End ProcessData.

(** *** The parameter bag and the store it lives in *)

(** Values of the request parameters. *)
Inductive pyval :=
| VInt (n : Z)
| VStr (s : string).

(** Python dicts are objects: the store maps references to their present
    contents, so that [copy] and item assignment can be told apart from
    updates of the caller's dict. *)
Abbreviation query_dict := (gmap string pyval).
Abbreviation ref := positive.
Abbreviation store := (gmap positive (gmap string pyval)).

(** [d.copy()]: a new object with the items of [d]. *)
Definition dict_copy (h : store) (d : ref) : option (ref * store) :=
  match h !! d with
  | Some items => let r := fresh (dom h) in Some (r, <[r := items]> h)
  | None => None
  end.

(** [d[k] = v] *)
Definition dict_setitem (h : store) (d : ref) (k : string) (v : pyval) : store :=
  alter (fun items => <[k := v]> items) d h.

(** *** The endpoint *)

(** The decoded body of a response, a JSON object: what it holds under the
    three keys the script reads, [None] for a key it lacks. *)
Record api_body := mkBody {
  body_data : option (list pydict);
  body_paginasRestantes : option Z;
  body_totalPaginas : option Z
}.

(** What [requests.get] meets: no response at all (time-out, name
    resolution, refused connection: a [RequestException]), or a response
    with its status code and its body, [None] when the body does not decode
    to a JSON object. *)
Inductive http_reply :=
| NoResponse
| Response (status_code : Z) (json : option api_body).

(** The server: its reply to a request, given the requests before it. *)
Definition endpoint := list query_dict -> query_dict -> http_reply.

(** [requests.get(url, params=...)] *)
Definition requests_get (reply : http_reply) : result (Z * option api_body) :=
  match reply with
  | NoResponse => Raise RequestException
  | Response status_code json => Ok (status_code, json)
  end.

(** [response.raise_for_status()]: raises for 4xx and 5xx. *)
Definition raise_for_status (status_code : Z) : result unit :=
  if ((400 <=? status_code) && (status_code <? 600))%Z then Raise (HTTPError status_code)
  else Ok tt.

(** [response.json()] *)
Definition response_json (json : option api_body) : result api_body :=
  match json with
  | Some body => Ok body
  | None => Raise JSONDecodeError
  end.

(** [data[k]] *)
Definition subscript {A} (k : string) (field : option A) : result A :=
  match field with
  | Some v => Ok v
  | None => Raise (KeyError k)
  end.

(** What [_fetch_page] returns on success: the frame of the page,
    [paginasRestantes] and [totalPaginas]. *)
Definition fetched_page := (DataFrame * Z * Z)%type.

(** The [try] block of [_fetch_page]. *)
Definition _fetch_page_try (reply : http_reply) : result (option fetched_page) :=
  response ← requests_get reply;
  _ ← raise_for_status (fst response);
  data ← response_json (snd response);
  match body_data data with
  | Some records =>
      paginasRestantes ← subscript "paginasRestantes" (body_paginasRestantes data);
      totalPaginas ← subscript "totalPaginas" (body_totalPaginas data);
      Ok (Some (DataFrame_of_records records, paginasRestantes, totalPaginas))
  | None => Ok None
  end.

(** [_fetch_page]: both [except] clauses return [None]. *)
Definition _fetch_page (reply : http_reply) : option fetched_page :=
  match _fetch_page_try reply with
  | Ok r => r
  | Raise _ => None
  end.

(** *** [query_all_contracts] *)

(** One call of [_fetch_page] as seen from outside: the query string sent
    and what came back. *)
Record fetch_event := mkEvent {
  ev_query : query_dict;
  ev_result : option fetched_page
}.

(** How a call ends: it returns a frame or [None], an exception leaves it,
    or it is still in its loop when the fuel of the model runs out. *)
Inductive outcome :=
| Returned (r : option DataFrame)
| Escaped (e : exn)
| Running.

Record run := mkRun {
  final_store : store;
  events : list fetch_event;
  out : outcome
}.

(** [df, paginasRestantes, totalPaginas = _fetch_page(...)]: unpacking
    [None] raises [TypeError], so the test [df is None] that follows is
    never reached with [None]. *)
Definition unpack (r : option fetched_page) : result fetched_page :=
  match r with
  | Some t => Ok t
  | None => Raise TypeError
  end.

(** The statements after the loop. *)
Definition finish (all_data : list DataFrame) : DataFrame :=
  match all_data with
  | [] => empty_frame
  | _ => concat_rows all_data
  end.

Section Fetcher.

Variable server : endpoint.

(** The [while True] loop, one iteration per unit of fuel.  [total_pages]
    only feeds the progress bar. *)
Fixpoint fetch_loop (fuel : nat) (h : store) (params : ref) (page : Z)
    (total_pages : option Z) (all_data : list DataFrame) (log : list fetch_event) : run :=
  match fuel with
  | O => mkRun h log Running
  | S fuel' =>
      match dict_copy h params with
      | None => mkRun h log (Escaped AttributeError)
      | Some (query_params, h) =>
          let h := dict_setitem h query_params "pagina" (VInt page) in
          let h := dict_setitem h query_params "tamanhoPagina" (VInt PAGE_SIZE) in
          let query := default ∅ (h !! query_params) in
          let fetched := _fetch_page (server (map ev_query log) query) in
          let log := log ++ [mkEvent query fetched] in
          match unpack fetched with
          | Raise _ => mkRun h log (Returned None)
          | Ok (df, paginasRestantes, totalPaginas) =>
              let total_pages :=
                match total_pages with None => Some totalPaginas | _ => total_pages end in
              let all_data := all_data ++ [df] in
              if (paginasRestantes =? 0)%Z
              then mkRun h log (Returned (Some (finish all_data)))
              else fetch_loop fuel' h params (page + 1) total_pages all_data log
          end
      end
  end.

Definition query_all_contracts (fuel : nat) (h : store) (params : ref) : run :=
  fetch_loop fuel h params 1 None [] [].

End Fetcher.

End Extract.

(** ** app.py *)

Module App.
Import Pandas.

(** *** [parse_keywords] *)

(** [str.isspace] on one code point. *)
Definition isspace (c : char) : bool :=
  ((9 <=? c) && (c <=? 13) || (28 <=? c) && (c <=? 32)
   || (c =? 133) || (c =? 160) || (c =? 5760)
   || (8192 <=? c) && (c <=? 8202)
   || (c =? 8232) || (c =? 8233) || (c =? 8239) || (c =? 8287) || (c =? 12288))%N.

Fixpoint lstrip (s : str) : str :=
  match s with
  | [] => []
  | c :: s' => if isspace c then lstrip s' else s
  end.

Definition rstrip (s : str) : str := rev (lstrip (rev s)).

(** [s.strip()] *)
Definition strip (s : str) : str := rstrip (lstrip s).

(** [s.split(sep)] for a separator of one character. *)
Fixpoint split (sep : char) (s : str) : list str :=
  match s with
  | [] => [[]]
  | c :: s' =>
      if N.eqb c sep then [] :: split sep s'
      else match split sep s' with
           | [] => [[c]]
           | piece :: pieces => (c :: piece) :: pieces
           end
  end.

Definition semicolon : char := 59%N.

Definition truthy (s : str) : bool :=
  match s with [] => false | _ => true end.

Definition truthy_list (l : list str) : bool :=
  match l with [] => false | _ => true end.

Definition parse_keywords (text : str) : list str :=
  if negb (truthy text) then []
  else map strip (List.filter (fun token => truthy (strip token)) (split semicolon text)).

(** *** The fragment of [re] the search uses *)

Definition backslash : char := 92%N.
Definition bar : char := 124%N.

(** [re.escape]: the characters of [_special_chars_map],
    [()[]{}?*+-|^$\.&~# \t\n\r\v\f], get a backslash. *)
Definition escaped_by_re_escape : list char :=
  [40; 41; 91; 93; 123; 125; 63; 42; 43; 45; 124; 94; 36; 92; 46; 38; 126; 35;
   32; 9; 10; 13; 11; 12]%N.

Definition re_escape (term : str) : str :=
  flat_map (fun c => if existsb (N.eqb c) escaped_by_re_escape then [backslash; c] else [c])
           term.

(** [sep.join(parts)] *)
Fixpoint join (sep : str) (parts : list str) : str :=
  match parts with
  | [] => []
  | [x] => x
  | x :: rest => x ++ sep ++ join sep rest
  end.

(** The parser's [SPECIAL_CHARS], [.\[{()*+?^$|]. *)
Definition special_chars : list char :=
  [46; 92; 91; 123; 40; 41; 42; 43; 63; 94; 36; 124]%N.

Definition is_ascii_alnum (c : char) : bool :=
  ((48 <=? c) && (c <=? 57) || (65 <=? c) && (c <=? 90) || (97 <=? c) && (c <=? 122))%N.

(** The alternatives of a pattern of the fragment, each a sequence of
    literal characters. *)
Definition branches := list str.

Definition add_literal (c : char) (b : branches) : branches :=
  match b with
  | [] => [[c]]
  | alt :: alts => (c :: alt) :: alts
  end.

(** The parser of [re] on the fragment: a character that is not special
    stands for itself, so does a backslash followed by a character that is
    no ASCII letter or digit, and [|] starts a new alternative.  [None] for
    every other pattern (repetition, classes, groups, anchors, class
    escapes and the patterns [re] rejects). *)
Fixpoint parse_alternatives (pattern : str) : option branches :=
  match pattern with
  | [] => Some [[]]
  | c :: rest =>
      if N.eqb c backslash then
        match rest with
        | [] => None
        | e :: rest' =>
            if is_ascii_alnum e then None
            else add_literal e <$> parse_alternatives rest'
        end
      else if N.eqb c bar then cons [] <$> parse_alternatives rest
      else if existsb (N.eqb c) special_chars then None
      else add_literal c <$> parse_alternatives rest
  end.

(** What the parser makes of the alternatives: a branch, or a common prefix
    followed by a character set. *)
Inductive pattern :=
| Branch (alts : branches)
| Charset (prefix : str) (set : list char).

(** The character every alternative starts with, when there is one. *)
Definition shared_head (items : branches) : option char :=
  match items with
  | (c :: _) :: rest =>
      if forallb (fun item => match item with
                              | d :: _ => N.eqb d c
                              | [] => false
                              end) rest
      then Some c else None
  | _ => None
  end.

(** The characters all alternatives start with, moved out of them one at a
    time, and what is left of each. *)
Fixpoint common_prefix (fuel : nat) (items : branches) : str * branches :=
  match fuel with
  | O => ([], items)
  | S fuel' =>
      match shared_head items with
      | Some c =>
          let (prefix, rest) := common_prefix fuel' (map (@tl char) items) in
          (c :: prefix, rest)
      | None => ([], items)
      end
  end.

(** [_parse_sub] of [re]: a single alternative stays as it is; of several,
    the common prefix is moved out, and when one character is left of each
    they are stored as a character set.  In every other case the pattern
    is the branch of the alternatives as written, which matches what the
    prefix followed by the branch of the rests matches. *)
Definition _parse_sub (items : branches) : pattern :=
  match items with
  | [item] => Branch [item]
  | _ =>
      let (prefix, rest) := common_prefix (length (hd [] items)) items in
      if forallb (fun item => (length item =? 1)%nat) rest
      then Charset prefix (map (hd 0%N) rest)
      else Branch items
  end.

(** [re.compile] on the fragment. *)
Definition re_compile (pat : str) : option pattern :=
  _parse_sub <$> parse_alternatives pat.

Section Search.

(** [re.IGNORECASE]: a literal [c] of the pattern matches a character [d]
    of the text when both fold to the same character. *)
Variable fold : char -> char.

Fixpoint match_here (alt text : str) : bool :=
  match alt, text with
  | [], _ => true
  | c :: alt', d :: text' => N.eqb (fold c) (fold d) && match_here alt' text'
  | _ :: _, [] => false
  end.

(** A character set under [re.IGNORECASE]: the character of the text is
    folded and looked up.  A member up to U+FFFF was folded when the set
    was compiled; a member beyond it was stored as written, so that one
    which folding changes is never found. *)
Definition in_charset (set : list char) (d : char) : bool :=
  existsb (fun m => if (65536 <=? m)%N then N.eqb m (fold d)
                    else N.eqb (fold m) (fold d)) set.

Fixpoint match_charset (prefix : str) (set : list char) (text : str) : bool :=
  match prefix, text with
  | [], d :: _ => in_charset set d
  | c :: prefix', d :: text' => N.eqb (fold c) (fold d) && match_charset prefix' set text'
  | _, [] => false
  end.

Definition match_at (p : pattern) (text : str) : bool :=
  match p with
  | Branch alts => existsb (fun alt => match_here alt text) alts
  | Charset prefix set => match_charset prefix set text
  end.

(** [pattern.search(text) is not None] *)
Fixpoint re_search (p : pattern) (text : str) : bool :=
  match_at p text
  || match text with
     | [] => false
     | _ :: text' => re_search p text'
     end.

(** [s.str]: the accessor is there for a column that holds a text, a dict
    or values of several kinds, and raises [AttributeError] for one whose
    values are all numbers or all instants.  [None] for a column without a
    value (no row, or missing values only), where it depends on the type
    the column was given and not on its cells. *)
Definition str_accessor (s : Series) : option (result (list cell)) :=
  match List.filter (fun c => match c with NaN | NaT => false | _ => true end)
                    (s_values s) with
  | [] => None
  | present =>
      if forallb (fun c => match c with Num _ => true | _ => false end) present
         || forallb (fun c => match c with Timestamp _ => true | _ => false end) present
      then Some (Raise AttributeError)
      else Some (Ok (s_values s))
  end.

(** [s.str.contains(pat, case=False, na=False, regex=True)]: a cell that
    is no string gives [False].  [None] when the pattern is outside the
    fragment of [re_compile]. *)
Definition str_contains (pat : str) (s : Series) : option (result (list bool)) :=
  match str_accessor s with
  | Some (Ok values) =>
      p ← re_compile pat;
      Some (Ok (map (fun c => match c with
                              | Str text => re_search p text
                              | _ => false
                              end) values))
  | Some (Raise e) => Some (Raise e)
  | None => None
  end.

(** Lines 175-179 of [main_interface]: the keyword filter.  When the
    label is repeated [df['objetoCompra']] is a sub-frame, which has no
    [.str]. *)
Definition keyword_filter (df : DataFrame) (keyword : str) : option (result DataFrame) :=
  let keywords := parse_keywords keyword in
  if truthy_list keywords then
    let pattern := join [bar] (map re_escape keywords) in
    match getitem df "objetoCompra" with
    | Raise (KeyError k) => Some (Raise (KeyError k))
    | Raise _ => Some (Raise AttributeError)
    | Ok objetoCompra =>
        match str_contains pattern objetoCompra with
        | Some (Ok mask) => Some (Ok (boolean_index df mask))
        | Some (Raise e) => Some (Raise e)
        | None => None
        end
    end
  else Some (Ok df).

End Search.

(** *** Column selection *)

(** [df[labels]]: for every requested label the columns that carry it;
    [KeyError] for a label that is no column. *)
Definition getitem_list (df : DataFrame) (labels : list string) : result DataFrame :=
  match List.filter (fun c => (count_label c df =? 0)%nat) labels with
  | c :: _ => Raise (KeyError c)
  | [] =>
      Ok (mkDF (index df)
            (flat_map (fun c => List.filter (fun kv => String.eqb c (fst kv)) (data df))
                      labels))
  end.

(** Lines 181-188 of [main_interface]. *)
Definition display_columns (selected_columns : list string) (df : DataFrame) : list string :=
  let display_columns :=
    List.filter (fun col => existsb (String.eqb col) (columns df)) selected_columns in
  match display_columns with
  | [] => columns df
  | _ => display_columns
  end.

Definition df_display (selected_columns : list string) (df : DataFrame) : result DataFrame :=
  getitem_list df (display_columns selected_columns df).

(** *** [to_excel] *)

(** The character class of [illegal_char_re], range by range. *)
Definition illegal_char_re : list (char * char) :=
  [(0, 8); (11, 11); (12, 12); (14, 31)]%N.

Definition illegal (c : char) : bool :=
  existsb (fun r => (fst r <=? c) && (c <=? snd r))%N illegal_char_re.

(** [illegal_char_re.sub("", x)] *)
Definition sub_illegal (x : str) : str :=
  List.filter (fun c => negb (illegal c)) x.

Definition _clean_value (x : cell) : cell :=
  match x with
  | Str s => Str (sub_illegal s)
  | _ => x
  end.

(** [df.applymap(f)] *)
Definition applymap (f : cell -> cell) (df : DataFrame) : DataFrame :=
  mkDF (index df) (map (fun kv => (fst kv, map f (snd kv))) (data df)).

(** What the writer puts on a sheet. *)
Inductive xl_value :=
| Header (label : string)
| RowLabel (l : Z)
| Blank
| Value (c : cell).

Record sheet := mkSheet { sheet_name : string; grid : list (list xl_value) }.

(** A workbook: its sheets, in order. *)
Definition workbook := list sheet.

(** The openpyxl writer refuses a text with an illegal character; the
    header labels reach it as they are. *)
Definition legal_label (label : string) : bool :=
  forallb (fun c => negb (illegal c)) (cp label).

(** [df.to_excel(writer, index=..., sheet_name=...)]: a header row, then one
    row per record; with [index=True] the row labels come first. *)
Definition DataFrame_to_excel (wb : workbook) (df : DataFrame) (with_index : bool)
    (name : string) : result workbook :=
  if negb (forallb legal_label (columns df)) then Raise IllegalCharacterError
  else
    let header := map Header (columns df) in
    let body :=
      map (fun i => map Value (row_at df i)) (seq 0 (len df)) in
    let labelled :=
      map (fun lr => RowLabel (fst lr) :: snd lr) (combine (index df) body) in
    Ok (wb ++ [mkSheet name (if with_index then (Blank :: header) :: labelled
                              else header :: body)]).

(** [to_excel]: the workbook held by the bytes it returns. *)
Definition to_excel (df : DataFrame) : result workbook :=
  let df_clean := applymap _clean_value df in
  DataFrame_to_excel [] df_clean false "Biddings".

End App.

(** ** Sample data *)

Module Samples.
Import Pandas Extract.

(** A parser that knows one instant, written the way the endpoint writes
    it. *)
Definition iso_parse (col : list cell) (c : cell) : option Z :=
  match c with
  | Str s => if str_eqb s (cp "2027-06-18T17:30:00") then Some 1813339800 else None
  | _ => None
  end.

Definition orgao (cnpj poderId : string) : cell :=
  Dict [("cnpj", Str (cp cnpj)); ("poderId", Str (cp poderId))].

Definition unidade (ufSigla : string) : cell :=
  Dict [("ufSigla", Str (cp ufSigla))].

(** A raw snapshot with the columns [process_data] reads, rows numbered
    from 0. *)
Definition raw_frame (homologado objeto estimado abertura orgaos unidades : list cell)
  : DataFrame :=
  let n := length objeto in
  mkDF (RangeIndex n)
    ([ ("valorTotalHomologado", homologado);
       ("objetoCompra", objeto);
       ("valorTotalEstimado", estimado);
       ("dataAberturaProposta", abertura) ]
     ++ map (fun c => (c, repeat NaN n)) (tl date_columns)
     ++ [ ("orgaoEntidade", orgaos); ("unidadeOrgao", unidades) ]).

(** Two notices with the same estimate and the same description, awarded
    at different values. *)
Definition same_estimate : DataFrame :=
  raw_frame [Num 100; Num 200]
            [Str (cp "papel"); Str (cp "papel")]
            [Num 500; Num 500]
            [Str (cp "2027-06-18T17:30:00"); Str (cp "amanha")]
            [orgao "01" "E"; orgao "02" "M"]
            [unidade "SC"; unidade "SP"].

(** Three notices, none awarded yet; the second repeats the description of
    the first. *)
Definition repeated_notice : DataFrame :=
  raw_frame [NaN; NaN; NaN]
            [Str (cp "papel"); Str (cp "papel"); Str (cp "tinta")]
            [Num 500; Num 500; Num 900]
            [Str (cp "2027-06-18T17:30:00"); Str (cp "2027-06-18T17:30:00"); Str (cp "amanha")]
            [orgao "01" "E"; orgao "02" "M"; orgao "03" "N"]
            [unidade "SC"; unidade "SP"; unidade "RJ"].

(** Five notices, none awarded yet; the second and the third repeat the
    description of the first. *)
Definition twice_repeated_notice : DataFrame :=
  raw_frame [NaN; NaN; NaN; NaN; NaN]
            [Str (cp "papel"); Str (cp "papel"); Str (cp "papel"); Str (cp "tinta");
             Str (cp "cola")]
            [Num 500; Num 500; Num 500; Num 900; Num 70]
            [NaN; NaN; NaN; NaN; NaN]
            [orgao "01" "E"; orgao "02" "M"; orgao "03" "N"; orgao "04" "E"; orgao "05" "M"]
            [unidade "SC"; unidade "SP"; unidade "RJ"; unidade "PR"; unidade "RS"].

(** Case folding on the ASCII letters. *)
Definition ascii_fold (c : char) : char :=
  if ((65 <=? c) && (c <=? 90))%N then (c + 32)%N else c.

(** A clean dataset of three notices, the last without a description. *)
Definition notices : DataFrame :=
  mkDF [0; 1; 2]
    [ ("numeroControlePNCP", [Str (cp "001"); Str (cp "002"); Str (cp "003")]);
      ("objetoCompra", [Str (cp "Medicamento hospitalar"); Str (cp "Papel A4 (resma)"); NaN]);
      ("valor", [Num 1000; Num 250; Num 10]) ].

(** A table with a vertical tab (0x0B) and a bell (0x07) in a description. *)
Definition with_control_characters : DataFrame :=
  mkDF [0; 1]
    [ ("objetoCompra", [Str ([112; 11; 97; 7] ++ cp "pel")%N; NaN]);
      ("valor", [Num 1000; Num 250]) ].

(** Case folding on the ASCII letters and on the Deseret letters
    (U+10400 to U+10427 fold to U+10428 to U+1044F). *)
Definition deseret_fold (c : char) : char :=
  if ((65 <=? c) && (c <=? 90))%N then (c + 32)%N
  else if ((66560 <=? c) && (c <=? 66599))%N then (c + 40)%N
  else c.

(** One notice whose description is the Deseret capital letter long I,
    U+10400. *)
Definition deseret_notice : DataFrame :=
  mkDF [0] [ ("objetoCompra", [Str [66560%N]]); ("valor", [Num 10]) ].

(** A dataset whose descriptions are numbers. *)
Definition numbered_notices : DataFrame :=
  mkDF [0; 1] [ ("objetoCompra", [Num 1; Num 2]); ("valor", [Num 10; Num 20]) ].

(** The caller's parameter bag, as [main] builds it, at reference 1. *)
Definition caller_params : gmap string pyval := {[ "dataFinal" := VStr "20400618" ]}.
Definition caller_store : gmap positive (gmap string pyval) := {[ 1%positive := caller_params ]}.

Definition notice (objeto : string) : pydict := [("objetoCompra", Str (cp objeto))].

Definition body (records : list pydict) (paginasRestantes totalPaginas : Z) : api_body :=
  mkBody (Some records) (Some paginasRestantes) (Some totalPaginas).

(** A server with two pages. *)
Definition two_pages : endpoint := fun _ query =>
  match query !! "pagina" with
  | Some (VInt 1) => Response 200 (Some (body [notice "papel"] 1 2))
  | Some (VInt 2) => Response 200 (Some (body [notice "tinta"] 0 2))
  | _ => Response 404 None
  end.

(** The same server, out of service when the second page is asked for. *)
Definition second_page_down : endpoint := fun _ query =>
  match query !! "pagina" with
  | Some (VInt 1) => Response 200 (Some (body [notice "papel"] 1 2))
  | _ => Response 503 None
  end.

(** A server that answers 300 Multiple Choices, with the listing as body. *)
Definition multiple_choices : endpoint := fun _ _ =>
  Response 300 (Some (body [notice "papel"] 0 1)).

End Samples.

(** ** Notions the properties are stated with *)

Module Notions.
Import Pandas Extract App.

(** *** Frames *)

(** Two labels under which a frame holds the same cells. *)
Definition same_column (a b : string) (df : DataFrame) : Prop :=
  exists v, find_column a (data df) = Some v /\ find_column b (data df) = Some v.

(** A cell of a datetime column. *)
Definition timestamp_or_null (c : cell) : Prop :=
  (exists t, c = Timestamp t) \/ c = NaT.

(** A column that holds nothing but timestamps and [NaT]. *)
Definition datetime_col (c : string) (df : DataFrame) : Prop :=
  exists v, find_column c (data df) = Some v /\ is_datetime_column v = true.

(** Two frames that differ at most in what their datetime columns hold. *)
Definition cells_sim (v1 v2 : list cell) : Prop :=
  length v1 = length v2 /\
  (v1 = v2 \/ (is_datetime_column v1 = true /\ is_datetime_column v2 = true)).

Definition col_sim (kv1 kv2 : string * list cell) : Prop :=
  fst kv1 = fst kv2 /\ cells_sim (snd kv1) (snd kv2).

Definition sim (a b : DataFrame) : Prop :=
  index a = index b /\ Forall2 col_sim (data a) (data b).

Definition series_sim (s1 s2 : Series) : Prop :=
  s_index s1 = s_index s2 /\ cells_sim (s_values s1) (s_values s2).

(** Two outcomes of the same kind: related results, or the same exception. *)
Definition res_sim {A} (R : A -> A -> Prop) (r1 r2 : result A) : Prop :=
  match r1, r2 with
  | Ok x, Ok y => R x y
  | Raise e1, Raise e2 => e1 = e2
  | _, _ => False
  end.

(** *** Runs of the fetcher *)

(** The query string of page [n]: the caller's parameters with [pagina]
    and [tamanhoPagina] set. *)
Definition request_for (d : gmap string pyval) (n : Z) : gmap string pyval :=
  <["tamanhoPagina" := VInt 50]> (<["pagina" := VInt n]> d).

(** The first [n] requests of a run. *)
Definition history (d : gmap string pyval) (n : nat) : list (gmap string pyval) :=
  map (fun i => request_for d (Z.of_nat i + 1)) (seq 0 n).

(** What [_fetch_page] returns for page [i + 1], after pages 1 to [i]. *)
Definition fetch_nth (server : endpoint) (d : gmap string pyval) (i : nat)
  : option fetched_page :=
  _fetch_page (server (history d i) (request_for d (Z.of_nat i + 1))).

Definition nth_event (server : endpoint) (d : gmap string pyval) (i : nat) : fetch_event :=
  mkEvent (request_for d (Z.of_nat i + 1)) (fetch_nth server d i).

(** A page that came back with more pages to fetch. *)
Definition continuing (r : option fetched_page) : Prop :=
  exists f pr tp, r = Some (f, pr, tp) /\ (pr ≠ 0).

(** The frame of a page ([pd.DataFrame()] when there is none). *)
Definition frame_of (r : option fetched_page) : DataFrame :=
  match r with
  | Some (f, _, _) => f
  | None => empty_frame
  end.

(** *** Patterns and texts *)

(** The literals of [k] put in front of the first alternative. *)
Definition add_literals (k : str) (b : branches) : branches :=
  fold_right add_literal b k.

(** [k] occurs in [text], letter case apart. *)
Definition ci_substring (fold : char -> char) (k text : str) : Prop :=
  exists pre mid post, text = pre ++ mid ++ post /\ map fold mid = map fold k.

(** A character that the compiled pattern treats like any other: one up
    to U+FFFF, or one that case folding leaves as it is. *)
Definition plain_case (fold : char -> char) (c : char) : Prop :=
  (c < 65536)%N \/ fold c = c.

(** A missing value. *)
Definition null (c : cell) : Prop := c = NaN \/ c = NaT.

(** A column that holds a number and, besides numbers, missing values
    only; the same for instants. *)
Definition numbers_only (v : list cell) : Prop :=
  (exists n, In (Num n) v) /\ Forall (fun c => null c \/ exists n, c = Num n) v.

Definition instants_only (v : list cell) : Prop :=
  (exists t, In (Timestamp t) v) /\ Forall (fun c => null c \/ exists t, c = Timestamp t) v.

(** A cell that a column of 64-bit floating point numbers holds as it is:
    a number is at most 2^53 in absolute value. *)
Definition float_safe (c : cell) : Prop :=
  match c with
  | Num n => Z.abs n <= 2 ^ 53
  | _ => True
  end.

(** The code points the specification lists. *)
Definition control_character (c : char) : Prop :=
  (c <= 8 \/ c = 11 \/ c = 12 \/ (14 <= c /\ c <= 31))%N.

End Notions.

(** ** pandas, further *)

Module PandasMore.
Import Py Pandas.

(** [df.empty]: no row, or no column. *)
Definition empty (df : DataFrame) : bool :=
  (len df =? 0)%nat || (length (columns df) =? 0)%nat.

(** [df[c]] where it is a Series: [KeyError] when no column carries the
    label; [None] when the label is repeated and [df[c]] is a sub-frame,
    which the statements below are not modelled on. *)
Definition column (df : DataFrame) (c : string) : option (result Series) :=
  match find_column c (data df) with
  | None => Some (Raise (KeyError c))
  | Some v =>
      if (count_label c df =? 1)%nat then Some (Ok (mkSeries (index df) v)) else None
  end.

(** [s.isin(values)]: cell by cell, whether it is one of [values].  [None]
    for a column or a choice with a dict, which the model leaves out. *)
Definition isin (s : Series) (values : list cell) : option (list bool) :=
  if existsb is_dict (s_values s) || existsb is_dict values then None
  else Some (map (fun c => existsb (cell_eqb c) values) (s_values s)).

(** A number or a missing number. *)
Definition numeric (c : cell) : bool :=
  match c with Num _ | NaN => true | _ => false end.

(** The size of a number, 0 for any other cell. *)
Definition magnitude (c : cell) : Z :=
  match c with Num v => Z.abs v | _ => 0 end.

(** [s >= n] for a number [n]: [False] where the number is missing.  [None]
    for a column that holds something else than numbers, and for numbers
    beyond 2^53, which 64-bit floating point numbers do not tell apart:
    the model leaves both out. *)
Definition ge (s : Series) (n : Z) : option (list bool) :=
  if forallb numeric (s_values s)
     && forallb (fun c => magnitude c <=? 2 ^ 53) (s_values s)
     && (Z.abs n <=? 2 ^ 53)
  then Some (map (fun c => match c with Num v => (n <=? v)%Z | _ => false end) (s_values s))
  else None.

(** [s.sum()]: missing numbers are skipped.  [None] for a column that holds
    something else than numbers, and when the sizes of the numbers add up
    to more than 2^53: up to there every partial sum is a whole number that
    64-bit integers and floating point numbers hold exactly, in whatever
    order the library adds. *)
Definition Series_sum (s : Series) : option Z :=
  if forallb numeric (s_values s)
     && (fold_right Z.add 0 (map magnitude (s_values s)) <=? 2 ^ 53)
  then Some (fold_right Z.add 0
               (map (fun c => match c with Num v => v | _ => 0 end) (s_values s)))
  else None.

(** [s.dropna()]: the cells that are not missing. *)
Definition dropna (v : list cell) : list cell :=
  List.filter (fun c => match c with NaN | NaT => false | _ => true end) v.

(** [s.unique()]: the distinct cells, in the order of their first
    appearance. *)
Fixpoint unique (v : list cell) : list cell :=
  match v with
  | [] => []
  | c :: v' => c :: List.filter (fun x => negb (cell_eqb x c)) (unique v')
  end.

End PandasMore.

(** ** extract.py: files *)

Module Script.
Import Py Pandas PandasMore Extract.

(** What a file holds: the header and the records of a CSV written without
    the row labels, or the object of a pickle ([None] or a frame). *)
Inductive file :=
| CsvFile (header : list string) (records : list (list cell))
| PickleFile (obj : option DataFrame).

(** A file is found by its directory and its name; a relative name is taken
    in the working directory. *)
Abbreviation files := (gmap (string * string) file).

(** What leaves a call that does not catch it. *)
Inductive error :=
| FileNotFoundError (directory name : string)
| UnpicklingError
| Uncaught (e : exn).

(** [df.to_csv(filename, index=False)] *)
Definition to_csv (cwd : string) (fs : files) (df : DataFrame) (filename : string) : files :=
  <[(cwd, filename) := CsvFile (columns df) (map (row_at df) (seq 0 (len df)))]> fs.

(** [df.to_pickle(filename)] *)
Definition to_pickle (cwd : string) (fs : files) (df : DataFrame) (filename : string)
  : files :=
  <[(cwd, filename) := PickleFile (Some df)]> fs.

(** [pd.read_pickle(path)] *)
Definition read_pickle (fs : files) (directory name : string) : error + option DataFrame :=
  match fs !! (directory, name) with
  | None => inl (FileNotFoundError directory name)
  | Some (CsvFile _ _) => inl UnpicklingError
  | Some (PickleFile obj) => inr obj
  end.

(** [save_to_csv]; what it prints is left out, here and below. *)
Definition save_to_csv (cwd : string) (fs : files) (df : option DataFrame)
    (filename : string) : files :=
  match df with
  | Some df => if negb (empty df) then to_csv cwd fs df filename else fs
  | None => fs
  end.

(** [save_to_pickle] *)
Definition save_to_pickle (cwd : string) (fs : files) (df : option DataFrame)
    (filename : string) : files :=
  match df with
  | Some df => if negb (empty df) then to_pickle cwd fs df filename else fs
  | None => fs
  end.

(** How [main] ends: it completes, an exception leaves it, or (in the
    model) the fetch is still going when the fuel runs out. *)
Inductive ending :=
| Completed
| Failed (e : error)
| Unfinished.

(** A run of [main]: the files it leaves, the requests it sent and how it
    ended. *)
Record main_run := mkMain {
  files_after : files;
  requests : list fetch_event;
  ended : ending
}.

Definition full_load : bool := false.

Definition parameters : gmap string pyval := {[ "dataFinal" := VStr "20400618" ]}.

Section Main.

Variable parse : list cell -> cell -> option Z.
Variable server : endpoint.

(** Lines 177-183 of [main]. *)
Definition clean_and_save (cwd : string) (fs : files) (sent : list fetch_event)
    (contracts_data : option DataFrame) : main_run :=
  match contracts_data with
  | Some raw =>
      match process_data parse raw with
      | Raise e => mkMain fs sent (Failed (Uncaught e))
      | Ok contracts_data =>
          let fs := save_to_csv cwd fs (Some contracts_data) "contracts_clean.csv" in
          let fs := save_to_pickle cwd fs (Some contracts_data) "contracts_clean.pkl" in
          mkMain fs sent Completed
      end
  | None => mkMain fs sent Completed
  end.

(** [main], run in the directory [cwd]. *)
Definition main (fuel : nat) (cwd : string) (fs : files) : main_run :=
  if full_load then
    let r := query_all_contracts server fuel {[ 1%positive := parameters ]} 1%positive in
    match out r with
    | Returned contracts_data =>
        let fs := save_to_csv cwd fs contracts_data "contracts.csv" in
        let fs := save_to_pickle cwd fs contracts_data "contracts.pkl" in
        clean_and_save cwd fs (events r) contracts_data
    | Escaped e => mkMain fs (events r) (Failed (Uncaught e))
    | Running => mkMain fs (events r) Unfinished
    end
  else
    match read_pickle fs cwd "contracts.pkl" with
    | inl e => mkMain fs [] (Failed e)
    | inr contracts_data => clean_and_save cwd fs [] contracts_data
    end.

End Main.

End Script.

(** ** app.py: loading, defaults and the search *)

Module Panel.
Import Py Pandas PandasMore Script App.

(** [load_data], decorated with [st.cache_data]: the pickle beside
    [app.py] is read on the first call and the value is kept for the later
    ones.  [cache] is what the decorator holds. *)
Definition load_data (app_dir : string) (fs : files) (cache : option (option DataFrame))
  : error + (option DataFrame * option (option DataFrame)) :=
  match cache with
  | Some value => inr (value, cache)
  | None =>
      match read_pickle fs app_dir "contracts_clean.pkl" with
      | inl e => inl e
      | inr value => inr (value, Some value)
      end
  end.

(** *** The login gate *)

(** What a visitor does on the login form in one run of the script: the two
    fields and whether Entrar was pressed. *)
Record attempt := mkAttempt {
  username : str;
  password : str;
  submitted : bool
}.

(** What a run of the script puts on the page. *)
Inductive shown :=
| LoginForm
| LoginError
| MainInterface.

(** [login_page]: the new value of [st.session_state.logged_in].  On a
    submission with the credentials of the source it is set and
    [st.rerun()] starts the script again. *)
Definition login_page (a : attempt) : bool * shown :=
  if submitted a then
    if str_eqb (username a) (cp "Renato") && str_eqb (password a) (cp "12345678")
    then (true, MainInterface)
    else (false, LoginError)
  else (false, LoginForm).

(** Lines 213-216: one run of the script in a session. *)
Definition script_run (logged_in : bool) (a : attempt) : bool * shown :=
  if logged_in then (logged_in, MainInterface) else login_page a.

(** A session: [logged_in] starts as [False] (line 19); the pages shown,
    run after run. *)
Fixpoint session_pages (logged_in : bool) (runs : list attempt) : list shown :=
  match runs with
  | [] => []
  | a :: runs' =>
      let (logged_in, page) := script_run logged_in a in
      page :: session_pages logged_in runs'
  end.

(** [st.session_state.selected_columns] when the session starts. *)
Definition initial_selected_columns : list string :=
  [ "numeroControlePNCP"; "dataAberturaProposta"; "dataEncerramentoProposta";
    "objetoCompra"; "valor"; "situacaoCompraNome"; "tipoIntrumentoConvocatorioNome";
    "poder" ].

Definition truthy_labels (l : list string) : bool :=
  match l with [] => false | _ => true end.

(** Lines 104-112 of [main_interface]: the defaults of the column picker. *)
Definition default_cols (selected_columns : list string) (df_full : DataFrame)
  : list string :=
  let available_columns := columns df_full in
  let default_cols :=
    List.filter (fun col => existsb (String.eqb col) available_columns) selected_columns in
  if negb (truthy_labels default_cols) && truthy_labels available_columns
  then firstn 5 available_columns
  else default_cols.

(** [a < b] on Python strings: code point by code point, a proper prefix
    first. *)
Fixpoint str_ltb (a b : str) : bool :=
  match a, b with
  | [], [] => false
  | [], _ :: _ => true
  | _ :: _, [] => false
  | x :: a', y :: b' => (x <? y)%N || ((x =? y)%N && str_ltb a' b')
  end.

(** [sorted(values)] for strings: an equal element stays behind the ones
    that came before it. *)
Fixpoint insort (x : str) (l : list str) : list str :=
  match l with
  | [] => [x]
  | y :: l' => if str_ltb x y then x :: l else y :: insort x l'
  end.

Definition sorted (values : list str) : list str :=
  fold_left (fun acc x => insort x acc) values [].

(** The texts among the cells; [None] when a cell is something else. *)
Fixpoint texts (v : list cell) : option (list str) :=
  match v with
  | [] => Some []
  | Str x :: v' => cons x <$> texts v'
  | _ :: _ => None
  end.

(** Lines 130-143 of [main_interface]: the choices a filter offers,
    [sorted(df_full[c].dropna().unique())].  The model covers a column of
    texts and missing values; [None] for any other. *)
Definition filter_options (df_full : DataFrame) (c : string) : option (result (list str)) :=
  match column df_full c with
  | Some (Ok s) =>
      match texts (unique (dropna (s_values s))) with
      | Some values => Some (Ok (sorted values))
      | None => None
      end
  | Some (Raise e) => Some (Raise e)
  | None => None
  end.

(** What the search reads from [st.session_state]; [None] for a key that
    is not set. *)
Record session := mkSession {
  selected_columns : option (list string);
  status_filter : option (list cell);
  uf_filter : option (list cell);
  city_filter : option (list cell);
  type_filter : option (list cell);
  min_value : option Z
}.

(** What the search puts on the page: the table, the two figures and, when
    there is one, the workbook behind the download button.  The total is
    kept as a number, its display format is left out. *)
Record page := mkPage {
  table : DataFrame;
  num_rows : nat;
  total_valor : Z;
  excel_data : option workbook
}.

(** A statement that returns, raises, or is outside the model, followed by
    the rest. *)
Definition and_then {A B} (m : option (result A)) (k : A -> option (result B))
  : option (result B) :=
  match m with
  | Some (Ok a) => k a
  | Some (Raise e) => Some (Raise e)
  | None => None
  end.

Definition truthy_cells (l : list cell) : bool :=
  match l with [] => false | _ => true end.

(** [if chosen: df = df[df[c].isin(chosen)]] *)
Definition isin_filter (df : DataFrame) (c : string) (chosen : list cell)
  : option (result DataFrame) :=
  if truthy_cells chosen then
    and_then (column df c) (fun s =>
    match isin s chosen with
    | Some mask => Some (Ok (boolean_index df mask))
    | None => None
    end)
  else Some (Ok df).

(** [if min_value: df = df[df['valor'] >= min_value]] *)
Definition min_value_filter (df : DataFrame) (min_value : Z) : option (result DataFrame) :=
  if negb (min_value =? 0)%Z then
    and_then (column df "valor") (fun s =>
    match ge s min_value with
    | Some mask => Some (Ok (boolean_index df mask))
    | None => None
    end)
  else Some (Ok df).

(** [df['valor'].sum()] *)
Definition valor_sum (df : DataFrame) : option (result Z) :=
  and_then (column df "valor") (fun s =>
  match Series_sum s with
  | Some total => Some (Ok total)
  | None => None
  end).

Section Buscar.

Variable fold : char -> char.

(** Lines 155-210 of [main_interface]: what the button Buscar does. *)
Definition buscar (df_full : DataFrame) (st : session) (keyword : str)
  : option (result page) :=
  let df := df_full in
  and_then (isin_filter df "situacaoCompraNome" (default [] (status_filter st))) (fun df =>
  and_then (isin_filter df "ufSigla" (default [] (uf_filter st))) (fun df =>
  and_then (isin_filter df "municipioNome" (default [] (city_filter st))) (fun df =>
  and_then (isin_filter df "modalidadeNome" (default [] (type_filter st))) (fun df =>
  and_then (min_value_filter df (default 0 (min_value st))) (fun df =>
  and_then (keyword_filter fold df keyword) (fun df =>
  and_then (Some (df_display (default [] (selected_columns st)) df)) (fun df_display =>
  let num_rows := len df in
  and_then (valor_sum df) (fun total_valor =>
  if negb (empty df) then
    and_then (Some (to_excel df_display)) (fun excel_data =>
    Some (Ok (mkPage df_display num_rows total_valor (Some excel_data))))
  else Some (Ok (mkPage df_display num_rows total_valor None)))))))))).

End Buscar.

End Panel.

(** ** Further sample data *)

Module MoreSamples.
Import Py Pandas Extract Script Panel Samples.

(** A raw snapshot without rows. *)
Definition no_rows : DataFrame := raw_frame [] [] [] [] [] [].

(** A directory with the raw snapshot [repeated_notice] and an old
    export. *)
Definition workdir : gmap (string * string) file :=
  {[ ("/srv", "contracts.pkl") := PickleFile (Some repeated_notice);
     ("/srv", "contracts.csv") := CsvFile ["objetoCompra"] [[Str (cp "papel")]] ]}.

(** The same directory with a snapshot that has no rows, and an older clean
    dataset. *)
Definition stale_workdir : gmap (string * string) file :=
  {[ ("/srv", "contracts.pkl") := PickleFile (Some no_rows);
     ("/srv", "contracts_clean.pkl") := PickleFile (Some notices) ]}.

(** A clean dataset with the columns the filters read. *)
Definition catalogue : DataFrame :=
  mkDF [0; 1; 2; 3]
    [ ("objetoCompra", [Str (cp "Medicamento hospitalar"); Str (cp "Papel A4 (resma)");
                        NaN; Str (cp "medicamentos")]);
      ("valor", [Num 1000; Num 250; Num 10; NaN]);
      ("situacaoCompraNome", [Str (cp "Divulgada"); Str (cp "Divulgada");
                              Str (cp "Revogada"); Str (cp "Divulgada")]);
      ("ufSigla", [Str (cp "SC"); Str (cp "SP"); Str (cp "SC"); Str (cp "SC")]);
      ("municipioNome", [Str (cp "Lages"); Str (cp "Santos"); Str (cp "Lages"); NaN]);
      ("modalidadeNome", [Str (cp "Pregao"); Str (cp "Pregao"); Str (cp "Dispensa");
                          Str (cp "Pregao")]) ].

(** A session in which a status, a state and a floor were chosen. *)
Definition chosen_session : session :=
  mkSession (Some ["objetoCompra"; "valor"])
            (Some [Str (cp "Divulgada")]) (Some [Str (cp "SC")]) None (Some [])
            (Some 500).

End MoreSamples.

(** ** Further notions *)

Module MoreNotions.
Import Py Pandas PandasMore Extract Script App Panel Notions.

(** What [poder_map] makes of a code: the label of E, M or N, a missing
    value for anything else. *)
Definition poder_label (code label : cell) : Prop :=
  match code with
  | Str k =>
      if str_eqb k (cp "E") then label = Str (cp "Estadual")
      else if str_eqb k (cp "M") then label = Str (cp "Municipal")
      else if str_eqb k (cp "N") then label = Str (cp "Nacional")
      else null label
  | _ => null label
  end.

(** The columns [process_data] reads from the frame it is given. *)
Definition read_columns : list string :=
  date_columns ++ ["valorTotalEstimado"; "orgaoEntidade"].

(** The columns [process_data] writes, replaces or removes. *)
Definition touched_columns : list string :=
  date_columns ++ ["valor"; "orgaoEntidade"; "poder"; "unidadeOrgao"].

(** The columns rows are compared on when duplicates are dropped. *)
Definition dedup_key : list string := ["valorTotalHomologado"; "objetoCompra"].

(** The labels [acc] followed by those of [ks] that are new, each once: how
    the columns of stacked frames are collected. *)
Definition add_labels (acc ks : list string) : list string :=
  fold_left (fun acc k => if existsb (String.eqb k) acc then acc else acc ++ [k]) ks acc.

(** *** The search *)

(** The rows of [df] at the given positions, in that order. *)
Definition rows_at (df : DataFrame) (positions : list nat) : DataFrame :=
  mkDF (map (fun i => nth i (index df) 0) positions)
       (map (fun kv => (fst kv, map (fun i => nth i (snd kv) NaN) positions)) (data df)).

(** The cell of row [i] under the label [c]. *)
Definition cell_of (df : DataFrame) (c : string) (i : nat) : cell :=
  nth i (default [] (find_column c (data df))) NaN.

(** A choice list lets a cell pass when nothing was chosen or the cell is
    one of the choices. *)
Definition chosen (choices : list cell) (c : cell) : bool :=
  match choices with
  | [] => true
  | _ => existsb (cell_eqb c) choices
  end.

(** A floor lets a cell pass when it is 0 or the cell is a number that is
    not below it. *)
Definition at_least (floor : Z) (c : cell) : bool :=
  (floor =? 0)%Z || match c with Num v => (floor <=? v)%Z | _ => false end.

(** The keywords let a cell pass when there is none or the cell is a text
    which the pattern made of them finds. *)
Definition mentions (fold : char -> char) (keywords : list str) (c : cell) : bool :=
  match keywords with
  | [] => true
  | _ => match c with Str text => re_search fold (_parse_sub keywords) text | _ => false end
  end.

(** Row [i] of the dataset meets every criterion of the search. *)
Definition passes (fold : char -> char) (df : DataFrame) (st : session) (keyword : str)
    (i : nat) : bool :=
  chosen (default [] (status_filter st)) (cell_of df "situacaoCompraNome" i)
  && chosen (default [] (uf_filter st)) (cell_of df "ufSigla" i)
  && chosen (default [] (city_filter st)) (cell_of df "municipioNome" i)
  && chosen (default [] (type_filter st)) (cell_of df "modalidadeNome" i)
  && at_least (default 0 (min_value st)) (cell_of df "valor" i)
  && mentions fold (parse_keywords keyword) (cell_of df "objetoCompra" i).

(** A list of strings that goes up strictly, in the order of Python: each
    one is below all that follow. *)
Fixpoint ascending (l : list str) : Prop :=
  match l with
  | [] => True
  | x :: l' => Forall (fun y => str_ltb x y = true) l' /\ ascending l'
  end.

(** An attempt that presses Entrar with the user name and the password of
    the source. *)
Definition valid_login (a : attempt) : Prop :=
  submitted a = true /\ username a = cp "Renato" /\ password a = cp "12345678".

(** The total of the numbers in a list of cells. *)
Definition total (v : list cell) : Z :=
  fold_right Z.add 0 (map (fun c => match c with Num n => n | _ => 0 end) v).

End MoreNotions.

(* ===================================================================== *)
(** * Part II - properties                                                *)
(* ===================================================================== *)

(** ** Statements that may raise *)

Lemma bind_Ok {A B} (m : result A) (k : A -> result B) (b : B) :
  (m ≫= k) = Ok b -> exists a, m = Ok a /\ k a = Ok b.
Proof.
  destruct m as [a|e]; simpl; intros H; [eauto | discriminate].
Qed.

(** Peels the first statement off a sequence that is known to succeed. *)
Tactic Notation "step" hyp(H) ident(x) ident(Hx) :=
  apply bind_Ok in H; destruct H as (x & Hx & H).

(** ** Cells and keys *)

Module PandasFacts.
Import Pandas.

(** Induction on cells that reaches the values of a [Dict]. *)
Lemma cell_nested_ind (P : cell -> Prop) :
  P NaN -> P NaT -> (forall n, P (Num n)) -> (forall s, P (Str s)) ->
  (forall t, P (Timestamp t)) ->
  (forall items, Forall (fun kv => P (snd kv)) items -> P (Dict items)) ->
  forall c, P c.
Proof.
  intros HNaN HNaT HNum HStr HTs HDict. fix IH 1.
  intros [| | n | s | t | items];
    [exact HNaN | exact HNaT | apply HNum | apply HStr | apply HTs |].
  apply HDict. induction items as [|kv items IHitems]; constructor; [apply IH | exact IHitems].
Qed.

Lemma cell_eqb_eq (a b : cell) : cell_eqb a b = true <-> a = b.
Proof.
  revert b. induction a as [| | n | s | t | items IH] using cell_nested_ind;
    intros [| | n' | s' | t' | items']; simpl; try (split; congruence).
  - rewrite Z.eqb_eq. split; congruence.
  - unfold str_eqb. rewrite bool_decide_eq_true. split; congruence.
  - rewrite Z.eqb_eq. split; congruence.
  - revert items'. induction IH as [| [k v] items Hv _ IHitems]; intros [| [k' v'] items'];
      try (split; congruence).
    rewrite !andb_true_iff, String.eqb_eq. simpl in Hv.
    rewrite (Hv v'). rewrite (IHitems items').
    split.
    + intros [[-> ->] E]. congruence.
    + intros E. injection E as -> -> ->. auto.
Qed.



(** *** [first_seen]: which rows [drop_duplicates] keeps *)






(** *** Rows of a frame after boolean indexing *)


Lemma select_length_le {A} (mask : list bool) (l : list A) :
  (length (select mask l) <= length l)%nat.
Proof.
  revert l. induction mask as [|b mask IH]; intros [|x l]; simpl; try lia.
  destruct b; simpl; specialize (IH l); lia.
Qed.

Lemma select_length {A B} (mask : list bool) (l : list A) (l' : list B) :
  length l = length l' -> length (select mask l) = length (select mask l').
Proof.
  revert l l'. induction mask as [|b mask IH]; intros [|x l] [|y l']; simpl;
    try reflexivity; try discriminate.
  intros [= H]. destruct b; simpl; now rewrite (IH l l').
Qed.




(** *** Looking a column up after a statement *)

Lemma count_label_0 (c : string) (df : DataFrame) :
  count_label c df = O <-> find_column c (data df) = None.
Proof.
  unfold count_label, columns. induction (data df) as [|[c' v] d IH]; simpl; [tauto|].
  destruct (String.eqb c c'); simpl; [split; discriminate | exact IH].
Qed.

Lemma find_column_app (c : string) (d d' : list (string * list cell)) :
  find_column c (d ++ d') =
  match find_column c d with Some v => Some v | None => find_column c d' end.
Proof.
  induction d as [|[c' v] d IH]; simpl; [reflexivity|].
  destruct (String.eqb c c'); [reflexivity | exact IH].
Qed.

Lemma find_column_map_cells (f : list cell -> list cell) (c : string)
    (d : list (string * list cell)) :
  find_column c (map (fun kv => (fst kv, f (snd kv))) d) = f <$> find_column c d.
Proof.
  induction d as [|[c' v] d IH]; simpl; [reflexivity|].
  destruct (String.eqb c c'); [reflexivity | exact IH].
Qed.

Lemma align_to_same (idx : list Z) (s : Series) :
  s_index s = idx -> align_to idx s = Ok (s_values s).
Proof.
  intros <-. unfold align_to, index_eqb. now rewrite bool_decide_eq_true_2.
Qed.

Lemma setitem_index (df df' : DataFrame) (c : string) (s : Series) :
  setitem df c s = Ok df' -> index df' = index df.
Proof.
  unfold setitem. intros H. step H v Hv. now injection H as <-.
Qed.

Lemma find_column_setitem_ne (df df' : DataFrame) (c c0 : string) (s : Series) :
  setitem df c s = Ok df' -> c0 ≠ c ->
  find_column c0 (data df') = find_column c0 (data df).
Proof.
  unfold setitem. intros H Hne. step H v Hv. injection H as <-. simpl.
  apply String.eqb_neq in Hne.
  destruct (count_label c df =? 0)%nat.
  - rewrite find_column_app. simpl. rewrite Hne. now destruct (find_column c0 (data df)).
  - induction (data df) as [|[c' v'] d IH]; simpl; [reflexivity|].
    destruct (String.eqb c c') eqn:E; simpl.
    + apply String.eqb_eq in E. subst c'. rewrite Hne. exact IH.
    + destruct (String.eqb c0 c'); [reflexivity | exact IH].
Qed.

Lemma find_column_setitem_eq (df df' : DataFrame) (c : string) (s : Series) :
  setitem df c s = Ok df' -> s_index s = index df ->
  find_column c (data df') = Some (s_values s).
Proof.
  unfold setitem. intros H Hidx. rewrite (align_to_same _ _ Hidx) in H. simpl in H.
  injection H as <-. simpl.
  destruct (count_label c df =? 0)%nat eqn:E.
  - apply Nat.eqb_eq, count_label_0 in E. rewrite find_column_app, E. simpl.
    now rewrite String.eqb_refl.
  - apply Nat.eqb_neq in E. rewrite count_label_0 in E.
    induction (data df) as [|[c' v'] d IH]; simpl in *; [congruence|].
    destruct (String.eqb c c') eqn:E'; simpl.
    + now rewrite String.eqb_refl.
    + rewrite E'. now apply IH.
Qed.

Lemma getitem_Ok (df : DataFrame) (c : string) (s : Series) :
  getitem df c = Ok s ->
  s_index s = index df /\ find_column c (data df) = Some (s_values s).
Proof.
  unfold getitem. destruct (find_column c (data df)) as [v|]; [|discriminate].
  destruct (count_label c df =? 1)%nat; [|discriminate].
  intros [= <-]. split; reflexivity.
Qed.

Lemma drop_index (df df' : DataFrame) (c : string) :
  drop df c = Ok df' -> index df' = index df.
Proof.
  unfold drop. destruct (count_label c df =? 0)%nat; [discriminate|]. now intros [= <-].
Qed.

Lemma find_column_drop_ne (df df' : DataFrame) (c c0 : string) :
  drop df c = Ok df' -> c0 ≠ c ->
  find_column c0 (data df') = find_column c0 (data df).
Proof.
  unfold drop. destruct (count_label c df =? 0)%nat; [discriminate|].
  intros [= <-] Hne. simpl.
  induction (data df) as [|[c' v'] d IH]; simpl; [reflexivity|].
  destruct (String.eqb c c') eqn:E; simpl.
  - apply String.eqb_eq in E. subst c'. apply String.eqb_neq in Hne. now rewrite Hne.
  - destruct (String.eqb c0 c'); [reflexivity | exact IH].
Qed.

(** A column of the left frame is still found under its label after
    [concat]: as it was, or laid out along the joined index. *)
Lemma find_column_concat_left (a b r : DataFrame) (c : string) (v : list cell) :
  concat_axis1 a b = Ok r ->
  find_column c (data a) = Some v ->
  find_column c (data r) = Some v \/
  find_column c (data r) = Some (reindex_cells (index a) (index r) v).
Proof.
  unfold concat_axis1. intros H Hv.
  destruct (index_eqb (index a) (index b)).
  - injection H as <-. left. simpl. now rewrite find_column_app, Hv.
  - destruct (has_dup (index a) || has_dup (index b)); [discriminate|].
    injection H as <-. right. simpl.
    rewrite find_column_app.
    rewrite (find_column_map_cells
               (reindex_cells (index a) (union_index (index a) (index b)))).
    now rewrite Hv.
Qed.

Lemma reindex_cells_datetime (old new : list Z) (v : list cell) :
  is_datetime_column v = true -> is_datetime_column (reindex_cells old new v) = true.
Proof.
  intros Hv. unfold reindex_cells, is_datetime_column. apply forallb_forall.
  intros x Hx. apply in_map_iff in Hx. destruct Hx as (l & <- & _).
  assert (Hna : na_value v = NaT) by (unfold na_value; now rewrite Hv).
  rewrite Hna. destruct (index_of l old) as [i|]; [|reflexivity].
  destruct (nth_in_or_default i v NaT) as [Hin | ->]; [|reflexivity].
  unfold is_datetime_column in Hv. rewrite forallb_forall in Hv. now apply Hv.
Qed.

Lemma concat_axis1_left_columns (a b r : DataFrame) :
  concat_axis1 a b = Ok r ->
  exists f : list cell -> list cell,
    (forall c v, find_column c (data a) = Some v -> find_column c (data r) = Some (f v)) /\
    (forall v, is_datetime_column v = true -> is_datetime_column (f v) = true).
Proof.
  unfold concat_axis1. intros H.
  destruct (index_eqb (index a) (index b)).
  - injection H as <-. exists (fun v => v). split; [|auto].
    intros c v Hv. simpl. now rewrite find_column_app, Hv.
  - destruct (has_dup (index a) || has_dup (index b)); [discriminate|].
    injection H as <-.
    exists (reindex_cells (index a) (union_index (index a) (index b))). split.
    + intros c v Hv. simpl. rewrite find_column_app.
      rewrite (find_column_map_cells
                 (reindex_cells (index a) (union_index (index a) (index b)))).
      now rewrite Hv.
    + intros v. apply reindex_cells_datetime.
Qed.


Lemma select_sublist {A} (mask : list bool) (l : list A) : sublist (select mask l) l.
Proof.
  revert l. induction mask as [|b mask IH]; intros [|x l]; simpl;
    try apply sublist_nil_l.
  destruct b; [apply sublist_skip | apply sublist_cons]; apply IH.
Qed.

End PandasFacts.

(** ** The normalizer *)

Module ExtractFacts.
Import Pandas Extract Samples Notions PandasFacts.

(** *** Deduplication *)



Lemma same_estimate_wf : wf same_estimate.
Proof. unfold wf. repeat constructor. Qed.


(** *** Flattening *)

(** C2 fails on a snapshot from which the deduplication removes a row that
    is not the last one.  In [repeated_notice] the second notice goes, the
    survivors keep the labels 0 and 2, the unpacked sub-objects are
    numbered 0 and 1, and [concat] joins the two by label: the clean dataset
    has three rows instead of two, the notice labelled 2 has lost the
    fields of its own sub-objects, and they sit in a row of missing values
    labelled 1. *)
Theorem repeated_notice_misaligned :
  exists dedup out,
    drop_duplicates repeated_notice ["valorTotalHomologado"; "objetoCompra"] = Ok dedup /\
    index dedup = [0; 2] /\
    process_data iso_parse repeated_notice = Ok out /\
    index out = [0; 2; 1] /\
    find_column "objetoCompra" (data out)
      = Some [Str (cp "papel"); Str (cp "tinta"); NaN] /\
    find_column "cnpj" (data out)
      = Some [Str (cp "01"); NaN; Str (cp "03")] /\
    find_column "poder" (data out)
      = Some [Str (cp "Estadual"); NaN; Str (cp "Nacional")] /\
    find_column "ufSigla" (data out)
      = Some [Str (cp "SC"); NaN; Str (cp "RJ")].
Proof.
  do 2 eexists. split; [vm_compute; reflexivity|]. split; [reflexivity|].
  split; [vm_compute; reflexivity|]. repeat split.
Qed.

(** The rows that the join by label adds hold missing values in every
    column of the deduplicated frame, the two key columns among them: when it
    adds two, they share their key.  This is why the statement on
    deduplication above is about the frame [drop_duplicates] leaves. *)
Lemma twice_repeated_notice_fillers :
  exists out,
    process_data iso_parse twice_repeated_notice = Ok out /\
    index out = [0; 3; 4; 1; 2] /\
    pairs "valorTotalHomologado" "objetoCompra" out
      = [ [NaN; Str (cp "papel")]; [NaN; Str (cp "tinta")]; [NaN; Str (cp "cola")];
          [NaN; NaN]; [NaN; NaN] ].
Proof.
  eexists. split; [vm_compute; reflexivity|]. split; reflexivity.
Qed.

(** On a well-formed frame whose rows are labelled 0, 1, 2, ... the three
    statements that flatten a column line up: the unpacked fields are put
    next to the other columns, row by row. *)
Lemma flatten_lines_up_on_default_labels (a flat rest : DataFrame) (c : string) :
  wf a -> index a = RangeIndex (len a) -> count_label c a = 1%nat ->
  json_normalize_column a c = Ok flat ->
  drop a c = Ok rest ->
  concat_axis1 rest flat = Ok (mkDF (index a) (data rest ++ data flat)).
Proof.
  intros Hwf Hidx Hc Hflat Hrest.
  unfold json_normalize_column in Hflat. rewrite Hc in Hflat.
  destruct (find_column c (data a)) as [v|] eqn:Hv; [|discriminate]. simpl in Hflat.
  injection Hflat as <-.
  assert (Hlen : length v = len a).
  { unfold wf in Hwf. clear Hidx Hc Hrest.
    induction Hwf as [|[c' v'] d Hv' _ IH]; simpl in Hv; [discriminate|].
    destruct (String.eqb c c'); [injection Hv as <-; exact Hv' | now apply IH]. }
  assert (Hirest : index rest = index a) by (now apply (drop_index a rest c)).
  unfold concat_axis1, json_normalize, DataFrame_of_records. simpl.
  rewrite length_map, Hlen, Hirest, <- Hidx.
  unfold index_eqb. now rewrite bool_decide_eq_true_2.
Qed.

(** *** The derived value column *)

Lemma same_column_setitem (a b c : string) (df df' : DataFrame) (s : Series) :
  setitem df c s = Ok df' -> a ≠ c -> b ≠ c -> same_column a b df -> same_column a b df'.
Proof.
  intros H Ha Hb (v & H1 & H2). exists v.
  rewrite (find_column_setitem_ne _ _ _ _ _ H Ha), (find_column_setitem_ne _ _ _ _ _ H Hb).
  auto.
Qed.

Lemma same_column_drop (a b c : string) (df df' : DataFrame) :
  drop df c = Ok df' -> a ≠ c -> b ≠ c -> same_column a b df -> same_column a b df'.
Proof.
  intros H Ha Hb (v & H1 & H2). exists v.
  rewrite (find_column_drop_ne _ _ _ _ H Ha), (find_column_drop_ne _ _ _ _ H Hb). auto.
Qed.

Lemma same_column_concat (a b : string) (df other df' : DataFrame) :
  concat_axis1 df other = Ok df' -> same_column a b df -> same_column a b df'.
Proof.
  intros H (v & H1 & H2). destruct (concat_axis1_left_columns _ _ _ H) as (f & Hf & _).
  exists (f v). auto.
Qed.

(** In every frame [process_data] returns, the column [valor] holds, row
    for row, what the column [valorTotalEstimado] holds. *)
Lemma valor_and_estimate_agree
    (parse : list cell -> cell -> option Z) (df out : DataFrame) :
  process_data parse df = Ok out ->
  exists v,
    find_column "valor" (data out) = Some v /\
    find_column "valorTotalEstimado" (data out) = Some v.
Proof.
  intros H. unfold process_data in H.
  step H d0 H0. step H d1 H1. step H d2 H2. step H d3 H3. step H d4 H4.
  step H d5 H5. step H d6 H6. step H valor Hvalor. step H d7 H7.
  step H orgao Horgao. step H r1 Hr1. step H d8 H8.
  step H poderId HpoderId. step H poder Hpoder. step H d9 H9.
  step H unid Hunid. step H r2 Hr2. step H d10 H10.
  injection H as <-.
  apply getitem_Ok in Hvalor. destruct Hvalor as [Hidx Hest].
  assert (S7 : same_column "valor" "valorTotalEstimado" d7).
  { exists (s_values valor). split.
    - now apply (find_column_setitem_eq _ _ _ _ H7).
    - rewrite (find_column_setitem_ne _ _ _ _ _ H7); [exact Hest | discriminate]. }
  apply (same_column_concat _ _ _ _ _ H10).
  apply (same_column_drop _ _ _ _ _ Hr2); [discriminate..|].
  apply (same_column_setitem _ _ _ _ _ _ H9); [discriminate..|].
  apply (same_column_concat _ _ _ _ _ H8).
  apply (same_column_drop _ _ _ _ _ Hr1); [discriminate..|].
  exact S7.
Qed.

(** *** Dates *)

Lemma res_sim_bind {A B} (R : A -> A -> Prop) (S : B -> B -> Prop)
    (m1 m2 : result A) (k1 k2 : A -> result B) :
  res_sim R m1 m2 ->
  (forall x y, m1 = Ok x -> m2 = Ok y -> R x y -> res_sim S (k1 x) (k2 y)) ->
  res_sim S (m1 ≫= k1) (m2 ≫= k2).
Proof.
  destruct m1 as [x|e1], m2 as [y|e2]; simpl; try tauto. intros HR Hk. now apply Hk.
Qed.

Lemma cells_sim_refl (v : list cell) : cells_sim v v.
Proof. split; auto. Qed.

Lemma sim_refl (a : DataFrame) : sim a a.
Proof.
  split; [reflexivity|]. apply Forall2_same_length_lookup_2; [reflexivity|].
  intros i x y Hx Hy. assert (x = y) by congruence. subst y.
  split; [reflexivity | apply cells_sim_refl].
Qed.

Lemma sim_columns (a b : DataFrame) : sim a b -> columns a = columns b.
Proof.
  intros [_ H]. unfold columns. induction H as [|x y l l' [Hxy _] _ IH]; simpl; congruence.
Qed.

Lemma sim_count_label (a b : DataFrame) (c : string) :
  sim a b -> count_label c a = count_label c b.
Proof. intros H. unfold count_label. now rewrite (sim_columns _ _ H). Qed.

Lemma sim_find_column (a b : DataFrame) (c : string) :
  sim a b ->
  match find_column c (data a), find_column c (data b) with
  | Some v1, Some v2 => cells_sim v1 v2
  | None, None => True
  | _, _ => False
  end.
Proof.
  intros [_ H]. induction H as [|[c1 v1] [c2 v2] l l' [Hc Hv] _ IH]; simpl; [exact I|].
  simpl in Hc, Hv. subst c2. destruct (String.eqb c c1); [exact Hv | exact IH].
Qed.

Lemma sim_getitem (a b : DataFrame) (c : string) :
  sim a b ->
  res_sim (fun s1 s2 => series_sim s1 s2 /\ s_index s1 = index a)
          (getitem a c) (getitem b c).
Proof.
  intros H. unfold getitem. rewrite <- (sim_count_label _ _ c H).
  pose proof (sim_find_column a b c H) as Hf.
  destruct (find_column c (data a)) as [v1|], (find_column c (data b)) as [v2|];
    simpl; try tauto.
  destruct (count_label c a =? 1)%nat; simpl; [|reflexivity].
  split; [|reflexivity]. split; [exact (proj1 H) | exact Hf].
Qed.

Lemma to_datetime_is_datetime (parse : list cell -> cell -> option Z) (s : Series) :
  is_datetime_column (s_values (to_datetime parse s)) = true.
Proof.
  unfold to_datetime, is_datetime_column. simpl. apply forallb_forall.
  intros x Hx. apply in_map_iff in Hx. destruct Hx as (c & <- & _).
  now destruct (parse (s_values s) c).
Qed.

Lemma to_datetime_sim (p p' : list cell -> cell -> option Z) (s1 s2 : Series) :
  series_sim s1 s2 -> series_sim (to_datetime p s1) (to_datetime p' s2).
Proof.
  intros [Hi [Hl _]]. split; [exact Hi|]. split.
  - unfold to_datetime. simpl. now rewrite !length_map.
  - right. split; apply to_datetime_is_datetime.
Qed.

Lemma sim_setitem (a b : DataFrame) (c : string) (s1 s2 : Series) :
  sim a b -> series_sim s1 s2 -> s_index s1 = index a ->
  res_sim sim (setitem a c s1) (setitem b c s2).
Proof.
  intros H [Hi Hv] Ha. unfold setitem.
  rewrite (align_to_same (index a) s1 Ha).
  rewrite (align_to_same (index b) s2) by (rewrite <- Hi, Ha; exact (proj1 H)).
  simpl. rewrite <- (sim_count_label _ _ c H).
  split; [exact (proj1 H)|]. simpl.
  destruct H as [_ H]. destruct (count_label c a =? 0)%nat.
  - apply Forall2_app; [exact H|]. constructor; [|constructor]. split; [reflexivity | exact Hv].
  - induction H as [|[c1 v1] [c2 v2] l l' [Hc Hcv] _ IH]; simpl; [constructor|].
    simpl in Hc. subst c2. constructor; [|exact IH].
    destruct (String.eqb c c1); split; simpl; auto.
Qed.

Lemma sim_coerce_date (p p' : list cell -> cell -> option Z) (a b : DataFrame) (c : string) :
  sim a b -> res_sim sim (coerce_date p a c) (coerce_date p' b c).
Proof.
  intros H. unfold coerce_date.
  apply res_sim_bind with (R := fun s1 s2 => series_sim s1 s2 /\ s_index s1 = index a).
  - now apply sim_getitem.
  - intros s1 s2 _ _ [Hs Hi]. apply sim_setitem; [exact H | now apply to_datetime_sim | exact Hi].
Qed.

Lemma datetime_no_dict (v : list cell) :
  is_datetime_column v = true -> Forall (fun c => is_dict c = false /\ forall s, c ≠ Str s) v.
Proof.
  unfold is_datetime_column. rewrite forallb_forall. intros H.
  apply Forall_forall. intros c Hc. apply list_elem_of_In in Hc. specialize (H c Hc).
  destruct c; try discriminate; split; auto; discriminate.
Qed.

Lemma sim_json_normalize_column (a b : DataFrame) (c : string) :
  sim a b -> res_sim eq (json_normalize_column a c) (json_normalize_column b c).
Proof.
  intros H. unfold json_normalize_column. rewrite <- (sim_count_label _ _ c H).
  pose proof (sim_find_column a b c H) as Hf.
  destruct (find_column c (data a)) as [v1|], (find_column c (data b)) as [v2|];
    simpl; try tauto.
  destruct (count_label c a =? 1)%nat; simpl; [|reflexivity].
  destruct Hf as [Hl [-> | [H1 H2]]]; [reflexivity|].
  unfold json_normalize. simpl. f_equal.
  assert (Hempty : forall v, is_datetime_column v = true ->
                             map _simple_json_normalize v = repeat [] (length v)).
  { intros v Hv. apply datetime_no_dict in Hv.
    induction Hv as [|x v [Hx _] _ IH]; simpl; [reflexivity|].
    rewrite IH. now destruct x. }
  now rewrite (Hempty v1 H1), (Hempty v2 H2), Hl.
Qed.

Lemma sim_drop (a b : DataFrame) (c : string) :
  sim a b -> res_sim sim (drop a c) (drop b c).
Proof.
  intros H. unfold drop. rewrite <- (sim_count_label _ _ c H).
  destruct (count_label c a =? 0)%nat; simpl; [reflexivity|].
  split; [exact (proj1 H)|]. simpl. destruct H as [_ H].
  induction H as [|[c1 v1] [c2 v2] l l' [Hc Hcv] _ IH]; simpl; [constructor|].
  simpl in Hc. subst c2. destruct (String.eqb c c1); simpl; [exact IH|].
  constructor; [split; auto | exact IH].
Qed.

Lemma reindex_cells_length (old new : list Z) (v : list cell) :
  length (reindex_cells old new v) = length new.
Proof. unfold reindex_cells. apply length_map. Qed.

Lemma sim_concat (a b other : DataFrame) :
  sim a b -> res_sim sim (concat_axis1 a other) (concat_axis1 b other).
Proof.
  intros [Hi H]. unfold concat_axis1. rewrite <- Hi.
  destruct (index_eqb (index a) (index other)); simpl.
  - split; [reflexivity|]. simpl. apply Forall2_app; [exact H|].
    apply (proj2 (sim_refl other)).
  - destruct (has_dup (index a) || has_dup (index other)); simpl; [reflexivity|].
    split; [reflexivity|]. simpl. rewrite <- Hi. apply Forall2_app.
    + clear Hi.
      induction H as [|[c1 v1] [c2 v2] l l' [Hc [Hl Hcv]] _ IH]; simpl; [constructor|].
      simpl in Hc, Hl, Hcv. subst c2. constructor; [|exact IH].
      split; [reflexivity|]. simpl. split; [now rewrite !reindex_cells_length|].
      destruct Hcv as [-> | [H1 H2]]; [now left|].
      right. split; now apply reindex_cells_datetime.
    + apply Forall2_same_length_lookup_2; [reflexivity|].
      intros i x y Hx Hy. assert (x = y) by congruence. subst y.
      split; [reflexivity | apply cells_sim_refl].
Qed.

Lemma sim_series_map (table : list (str * cell)) (s1 s2 : Series) :
  series_sim s1 s2 ->
  res_sim (fun r1 r2 => series_sim r1 r2 /\ s_index r1 = s_index s1)
          (series_map table s1) (series_map table s2).
Proof.
  intros [Hi [Hl Hv]]. unfold series_map.
  destruct Hv as [Hv | [H1 H2]].
  - rewrite <- Hv. destruct (existsb is_dict (s_values s1)); simpl; [reflexivity|].
    split; [|reflexivity]. split; [exact Hi | apply cells_sim_refl].
  - assert (Hd : forall v, is_datetime_column v = true -> existsb is_dict v = false).
    { intros v Hv. apply datetime_no_dict in Hv.
      induction Hv as [|x v [Hx _] _ IH]; simpl; [reflexivity|]. now rewrite Hx, IH. }
    assert (Hm : forall v, is_datetime_column v = true ->
                 map (fun c => match c with
                               | Str k => default NaN (snd <$> List.find (fun kv => str_eqb k (fst kv)) table)
                               | _ => NaN
                               end) v = repeat NaN (length v)).
    { intros v Hv. apply datetime_no_dict in Hv.
      induction Hv as [|x v [_ Hx] _ IH]; simpl; [reflexivity|].
      rewrite IH. destruct x; try reflexivity. now destruct (Hx s). }
    rewrite (Hd _ H1), (Hd _ H2), (Hm _ H1), (Hm _ H2), Hl. simpl.
    split; [|reflexivity]. split; [exact Hi | apply cells_sim_refl].
Qed.

(** Whatever the parser makes of the date cells, [process_data] ends the
    same way, and when it returns a frame the rows and the columns are the
    same. *)
Lemma process_data_any_parser (p p' : list cell -> cell -> option Z) (df : DataFrame) :
  res_sim sim (process_data p df) (process_data p' df).
Proof.
  unfold process_data.
  apply res_sim_bind with (R := sim).
  { destruct (drop_duplicates _ _); simpl; [apply sim_refl | reflexivity]. }
  intros a0 b0 _ _ H0.
  apply res_sim_bind with (R := sim); [now apply sim_coerce_date|]. intros a1 b1 _ _ H1.
  apply res_sim_bind with (R := sim); [now apply sim_coerce_date|]. intros a2 b2 _ _ H2.
  apply res_sim_bind with (R := sim); [now apply sim_coerce_date|]. intros a3 b3 _ _ H3.
  apply res_sim_bind with (R := sim); [now apply sim_coerce_date|]. intros a4 b4 _ _ H4.
  apply res_sim_bind with (R := sim); [now apply sim_coerce_date|]. intros a5 b5 _ _ H5.
  apply res_sim_bind with (R := sim); [now apply sim_coerce_date|]. intros a6 b6 _ _ H6.
  apply res_sim_bind with (R := fun s1 s2 => series_sim s1 s2 /\ s_index s1 = index a6);
    [now apply sim_getitem|].
  intros s1 s2 _ _ [Hs Hi].
  apply res_sim_bind with (R := sim); [now apply sim_setitem|]. intros a7 b7 _ _ H7.
  apply res_sim_bind with (R := eq); [now apply sim_json_normalize_column|].
  intros o ? _ _ <-.
  apply res_sim_bind with (R := sim); [now apply sim_drop|]. intros a8 b8 _ _ H8.
  apply res_sim_bind with (R := sim); [now apply sim_concat|]. intros a9 b9 _ _ H9.
  apply res_sim_bind with (R := fun s1 s2 => series_sim s1 s2 /\ s_index s1 = index a9);
    [now apply sim_getitem|].
  intros t1 t2 _ _ [Ht Hti].
  apply res_sim_bind with (R := fun r1 r2 => series_sim r1 r2 /\ s_index r1 = s_index t1);
    [now apply sim_series_map|].
  intros r1 r2 _ _ [Hr Hri].
  apply res_sim_bind with (R := sim); [apply sim_setitem; [exact H9 | exact Hr | congruence]|].
  intros a10 b10 _ _ H10.
  apply res_sim_bind with (R := eq); [now apply sim_json_normalize_column|].
  intros u ? _ _ <-.
  apply res_sim_bind with (R := sim); [now apply sim_drop|]. intros a11 b11 _ _ H11.
  apply res_sim_bind with (R := sim); [now apply sim_concat|].
  intros x y _ _ Hxy. exact Hxy.
Qed.

Lemma coerce_date_self (parse : list cell -> cell -> option Z) (df df' : DataFrame)
    (c : string) :
  coerce_date parse df c = Ok df' -> datetime_col c df'.
Proof.
  unfold coerce_date. intros H. step H s Hs. apply getitem_Ok in Hs.
  exists (s_values (to_datetime parse s)). split.
  - apply (find_column_setitem_eq _ _ _ _ H). exact (proj1 Hs).
  - apply to_datetime_is_datetime.
Qed.

Lemma coerce_date_other (parse : list cell -> cell -> option Z) (df df' : DataFrame)
    (c c0 : string) :
  coerce_date parse df c = Ok df' -> c0 ≠ c -> datetime_col c0 df -> datetime_col c0 df'.
Proof.
  unfold coerce_date. intros H Hne (v & Hv & Hd). step H s Hs.
  exists v. split; [|exact Hd]. now rewrite (find_column_setitem_ne _ _ _ _ _ H Hne).
Qed.

Lemma datetime_col_setitem (c0 c : string) (df df' : DataFrame) (s : Series) :
  setitem df c s = Ok df' -> c0 ≠ c -> datetime_col c0 df -> datetime_col c0 df'.
Proof.
  intros H Hne (v & Hv & Hd). exists v.
  now rewrite (find_column_setitem_ne _ _ _ _ _ H Hne).
Qed.

Lemma datetime_col_drop (c0 c : string) (df df' : DataFrame) :
  drop df c = Ok df' -> c0 ≠ c -> datetime_col c0 df -> datetime_col c0 df'.
Proof.
  intros H Hne (v & Hv & Hd). exists v. now rewrite (find_column_drop_ne _ _ _ _ H Hne).
Qed.

Lemma datetime_col_concat (c0 : string) (df other df' : DataFrame) :
  concat_axis1 df other = Ok df' -> datetime_col c0 df -> datetime_col c0 df'.
Proof.
  intros H (v & Hv & Hd). destruct (concat_axis1_left_columns _ _ _ H) as (f & Hf & Hfd).
  exists (f v). auto.
Qed.

Lemma is_datetime_column_Forall (v : list cell) :
  is_datetime_column v = true -> Forall timestamp_or_null v.
Proof.
  unfold is_datetime_column. rewrite forallb_forall. intros H.
  apply Forall_forall. intros c Hc. apply list_elem_of_In in Hc. specialize (H c Hc).
  destruct c; try discriminate; [now right | left; eauto].
Qed.

(** C7: in every frame [process_data] returns, each of the six date columns
    holds nothing but timestamps and [NaT]; and what a date cell holds never
    decides how the pass ends: with any other verdict of the parser on the
    date cells, [process_data] raises the same exception or returns a frame
    with the same rows and the same columns. *)
Theorem date_columns_hold_timestamps_or_NaT
    (parse : list cell -> cell -> option Z) (df out : DataFrame) :
  process_data parse df = Ok out ->
  (forall c, c ∈ date_columns ->
     exists v, find_column c (data out) = Some v /\ Forall timestamp_or_null v) /\
  (forall parse', exists out',
     process_data parse' df = Ok out' /\
     index out' = index out /\ columns out' = columns out).
Proof.
  intros Hrun. split.
  - intros c Hc.
    assert (Hdt : datetime_col c out).
    { pose proof Hrun as H. unfold process_data in H.
      step H d0 H0. step H d1 H1. step H d2 H2. step H d3 H3. step H d4 H4.
      step H d5 H5. step H d6 H6. step H valor Hvalor. step H d7 H7.
      step H orgao' Horgao. step H r1 Hr1. step H d8 H8.
      step H poderId HpoderId. step H poder Hpoder. step H d9 H9.
      step H unid Hunid. step H r2 Hr2. step H d10 H10.
      injection H as <-.
      assert (Hne : c ≠ "valor" /\ c ≠ "orgaoEntidade" /\ c ≠ "poder" /\ c ≠ "unidadeOrgao").
      { unfold date_columns in Hc.
        repeat (apply elem_of_cons in Hc; destruct Hc as [-> | Hc]);
          [repeat split; discriminate.. | inversion Hc]. }
      destruct Hne as (Hn1 & Hn2 & Hn3 & Hn4).
      apply (datetime_col_concat _ _ _ _ H10).
      apply (datetime_col_drop _ _ _ _ Hr2 Hn4).
      apply (datetime_col_setitem _ _ _ _ _ H9 Hn3).
      apply (datetime_col_concat _ _ _ _ H8).
      apply (datetime_col_drop _ _ _ _ Hr1 Hn2).
      apply (datetime_col_setitem _ _ _ _ _ H7 Hn1).
      unfold date_columns in Hc.
      repeat (apply elem_of_cons in Hc; destruct Hc as [-> | Hc]); [..| inversion Hc];
        repeat first
          [ eapply coerce_date_self; eassumption
          | eapply coerce_date_other; [eassumption | discriminate |] ]. }
    destruct Hdt as (v & Hv & Hd). exists v. split; [exact Hv|].
    now apply is_datetime_column_Forall.
  - intros parse'. pose proof (process_data_any_parser parse parse' df) as H.
    rewrite Hrun in H. destruct (process_data parse' df) as [out'|e]; simpl in H; [|tauto].
    exists out'. split; [reflexivity|]. split.
    + symmetry. exact (proj1 H).
    + symmetry. now apply sim_columns.
Qed.

Lemma date_columns_hold_timestamps_or_NaT_witness :
  exists out,
    process_data iso_parse same_estimate = Ok out /\
    find_column "dataAberturaProposta" (data out) = Some [Timestamp 1813339800; NaT] /\
    (forall c, c ∈ date_columns ->
       exists v, find_column c (data out) = Some v /\ Forall timestamp_or_null v).
Proof.
  assert (Hrun : exists out, process_data iso_parse same_estimate = Ok out)
    by (eexists; vm_compute; reflexivity).
  destruct Hrun as [out Hout]. exists out. split; [exact Hout|]. split.
  - revert Hout. vm_compute. now intros [= <-].
  - exact (proj1 (date_columns_hold_timestamps_or_NaT iso_parse same_estimate out Hout)).
Defined.

End ExtractFacts.

(** ** The fetcher *)

Module FetcherFacts.
Import Pandas Extract Samples Notions.

(** *** One iteration and the store *)

Lemma dict_copy_Some (h h1 : gmap positive (gmap string pyval)) (p r : positive) :
  dict_copy h p = Some (r, h1) ->
  exists d, h !! p = Some d /\ (r ∉ dom h) /\ h1 = <[r := d]> h.
Proof.
  unfold dict_copy. destruct (h !! p) as [d|]; [|discriminate].
  intros [= <- <-]. exists d. split; [reflexivity|]. split; [apply is_fresh | reflexivity].
Qed.

Lemma query_params_built (h : gmap positive (gmap string pyval)) (r : positive)
    (d : gmap string pyval) (page : Z) :
  dict_setitem (dict_setitem (<[r := d]> h) r "pagina" (VInt page))
               r "tamanhoPagina" (VInt PAGE_SIZE) !! r
  = Some (request_for d page).
Proof.
  unfold dict_setitem. rewrite !lookup_alter_eq, lookup_insert_eq. reflexivity.
Qed.

Lemma query_params_frame (h : gmap positive (gmap string pyval)) (r l : positive)
    (d : gmap string pyval) (page : Z) :
  l ≠ r ->
  dict_setitem (dict_setitem (<[r := d]> h) r "pagina" (VInt page))
               r "tamanhoPagina" (VInt PAGE_SIZE) !! l
  = h !! l.
Proof.
  intros Hne. unfold dict_setitem.
  rewrite !lookup_alter_ne by congruence. now rewrite lookup_insert_ne by congruence.
Qed.

Section Run.

Variable server : endpoint.
Variable params : positive.
Variable d : gmap string pyval.

Lemma history_events (m : nat) :
  map ev_query (map (nth_event server d) (seq 0 m)) = history d m.
Proof. unfold history. rewrite map_map. reflexivity. Qed.

(** The loop, started after [m] pages that all asked for more: the requests
    it adds are those of the pages that follow, the store keeps what it
    held, and the way it ends is read off the last page. *)
Lemma fetch_loop_spec (fuel : nat) :
  forall (m : nat) (h : gmap positive (gmap string pyval)) (total_pages : option Z)
         (all_data : list DataFrame),
    h !! params = Some d ->
    let r := fetch_loop server fuel h params (Z.of_nat m + 1) total_pages all_data
               (map (nth_event server d) (seq 0 m)) in
    (forall l, l ∈ dom h -> final_store r !! l = h !! l) /\
    exists n,
      events r = map (nth_event server d) (seq 0 (m + n)) /\
      (n <= fuel)%nat /\
      (forall j, (m <= j)%nat -> (S j < m + n)%nat -> continuing (fetch_nth server d j)) /\
      match out r with
      | Running =>
          n = fuel /\
          (forall j, (m <= j)%nat -> (j < m + n)%nat -> continuing (fetch_nth server d j))
      | Returned None =>
          (1 <= n)%nat /\ fetch_nth server d (m + n - 1) = None
      | Returned (Some df) =>
          (1 <= n)%nat /\
          (exists f tp, fetch_nth server d (m + n - 1) = Some (f, 0, tp)) /\
          df = finish (all_data ++ map (fun j => frame_of (fetch_nth server d j)) (seq m n))
      | Escaped _ => False
      end.
Proof.
  induction fuel as [|fuel IH]; intros m h total_pages all_data Hp; simpl.
  - split; [auto|]. exists O. rewrite Nat.add_0_r. split; [reflexivity|].
    split; [lia|]. split; [intros; lia|]. split; [reflexivity | intros; lia].
  - destruct (dict_copy h params) as [[r h1]|] eqn:Hcopy.
    2:{ unfold dict_copy in Hcopy. rewrite Hp in Hcopy. discriminate. }
    apply dict_copy_Some in Hcopy. destruct Hcopy as (d' & Hd' & Hfresh & ->).
    assert (d' = d) by congruence. subst d'.
    rewrite query_params_built. simpl default.
    rewrite history_events.
    fold (fetch_nth server d m).
    change (mkEvent (request_for d (Z.of_nat m + 1)) (fetch_nth server d m))
      with (nth_event server d m).
    assert (Hlog : map (nth_event server d) (seq 0 m) ++ [nth_event server d m]
                   = map (nth_event server d) (seq 0 (S m))).
    { rewrite seq_S, map_app. reflexivity. }
    rewrite Hlog.
    set (h3 := dict_setitem _ r "tamanhoPagina" _).
    assert (Hframe : forall l, l ∈ dom h -> h3 !! l = h !! l).
    { intros l Hl. apply query_params_frame. intros ->. contradiction. }
    assert (Hp3 : h3 !! params = Some d).
    { rewrite Hframe; [exact Hp|]. apply elem_of_dom. now exists d. }
    destruct (fetch_nth server d m) as [[[f pr] tp]|] eqn:Hm; simpl.
    + destruct (pr =? 0)%Z eqn:Hpr; simpl.
      * apply Z.eqb_eq in Hpr. subst pr. split; [exact Hframe|].
        exists 1%nat. replace (m + 1)%nat with (S m) by lia.
        split; [reflexivity|]. split; [lia|]. split; [intros; lia|].
        split; [lia|]. replace (S m - 1)%nat with m by lia. split; [eauto|].
        simpl. now rewrite Hm.
      * apply Z.eqb_neq in Hpr.
        replace (Z.of_nat m + 1 + 1) with (Z.of_nat (S m) + 1) by lia.
        specialize (IH (S m) h3
                      (match total_pages with Some _ => total_pages | None => Some tp end)
                      (all_data ++ [f]) Hp3).
        simpl in IH. destruct IH as (Hfr & n & Hev & Hn & Hcont & Hout).
        split.
        { intros l Hl. rewrite Hfr; [now apply Hframe|].
          apply elem_of_dom. rewrite Hframe by exact Hl. now apply elem_of_dom. }
        exists (S n). replace (m + S n)%nat with (S m + n)%nat by lia.
        split; [exact Hev|]. split; [lia|].
        assert (Hcm : continuing (fetch_nth server d m)).
        { rewrite Hm. exists f, pr, tp. auto. }
        split.
        { intros j Hj1 Hj2. destruct (decide (j = m)) as [-> | Hne]; [exact Hcm|].
          apply Hcont; lia. }
        destruct (out _) as [[df|]| |].
        -- destruct Hout as (Hn1 & Hlast & Hdf). split; [lia|].
           replace (S m + n - 1)%nat with (S m + n - 1)%nat by lia. split; [exact Hlast|].
           rewrite Hdf. f_equal. rewrite <- app_assoc. simpl. now rewrite Hm.
        -- destruct Hout as (Hn1 & Hlast). split; [lia | exact Hlast].
        -- exact Hout.
        -- destruct Hout as (-> & Hall). split; [reflexivity|].
           intros j Hj1 Hj2. destruct (decide (j = m)) as [-> | Hne]; [exact Hcm|].
           apply Hall; lia.
    + split; [exact Hframe|]. exists 1%nat. replace (m + 1)%nat with (S m) by lia.
      split; [reflexivity|]. split; [lia|]. split; [intros; lia|].
      split; [lia|]. replace (S m - 1)%nat with m by lia. exact Hm.
Qed.

Lemma lookup_map_seq {A} (f : nat -> A) (n i : nat) (x : A) :
  map f (seq 0 n) !! i = Some x <-> (i < n)%nat /\ x = f i.
Proof.
  change (map f (seq 0 n)) with (f <$> seq 0 n). rewrite list_lookup_fmap.
  destruct (decide (i < n)%nat) as [Hlt | Hge].
  - rewrite lookup_seq_lt by exact Hlt. simpl. split.
    + intros [= <-]. auto.
    + intros [_ ->]. reflexivity.
  - rewrite lookup_seq_ge by lia. simpl. split; [discriminate | intros [? _]; lia].
Qed.

(** The run of [query_all_contracts]: [n] pages were asked for, all but
    the last came back asking for more, and the last one decides. *)
Lemma query_all_contracts_spec (fuel : nat) (h : gmap positive (gmap string pyval)) :
  h !! params = Some d ->
  let r := query_all_contracts server fuel h params in
  (forall l, l ∈ dom h -> final_store r !! l = h !! l) /\
  exists n,
    events r = map (nth_event server d) (seq 0 n) /\
    (n <= fuel)%nat /\
    (forall j, (S j < n)%nat -> continuing (fetch_nth server d j)) /\
    match out r with
    | Running => n = fuel /\ (forall j, (j < n)%nat -> continuing (fetch_nth server d j))
    | Returned None => (1 <= n)%nat /\ fetch_nth server d (n - 1) = None
    | Returned (Some df) =>
        (1 <= n)%nat /\
        (exists f tp, fetch_nth server d (n - 1) = Some (f, 0, tp)) /\
        df = finish (map (fun j => frame_of (fetch_nth server d j)) (seq 0 n))
    | Escaped _ => False
    end.
Proof.
  intros Hp. pose proof (fetch_loop_spec fuel O h None [] Hp) as H.
  simpl in H. destruct H as (Hfr & n & Hev & Hn & Hcont & Hout).
  split; [exact Hfr|]. exists n. split; [exact Hev|]. split; [exact Hn|].
  split; [intros j Hj; apply Hcont; lia|].
  unfold query_all_contracts. destruct (out _) as [[df|]| |]; try exact Hout.
  destruct Hout as [-> Hall]. split; [reflexivity|]. intros j Hj. apply Hall; lia.
Qed.

End Run.

Lemma continuing_not_zero (r : option fetched_page) (f : DataFrame) (tp : Z) :
  continuing r -> r ≠ Some (f, 0, tp).
Proof. intros (f' & pr & tp' & -> & Hpr) [= _ Hz _]. now apply Hpr. Qed.

Lemma continuing_not_None (r : option fetched_page) : continuing r -> r ≠ None.
Proof. intros (f' & pr & tp' & -> & _). discriminate. Qed.

(** *** Pagination *)

(** C4: the [i]-th request of a run (counting from 0) carries the caller's
    parameters with [pagina] = [i + 1] and [tamanhoPagina] = 50.  After a
    page that came back, the loop stops if and only if its
    [paginasRestantes] is 0: with 0 the page is the last one and the call
    returns a frame; with any other value the next page is asked for,
    however many pages went before (the model alone stops, when its fuel
    [fuel] is used up).  A server whose page [k + 1] is the first to report
    0 is asked for exactly [k + 1] pages. *)
Theorem pagination_stops_at_zero_remaining
    (server : endpoint) (fuel : nat) (h : gmap positive (gmap string pyval))
    (params : positive) (d : gmap string pyval) :
  h !! params = Some d ->
  let r := query_all_contracts server fuel h params in
  (forall i e, events r !! i = Some e ->
     ev_query e = <["tamanhoPagina" := VInt 50]> (<["pagina" := VInt (Z.of_nat i + 1)]> d)) /\
  (forall i e f pr tp,
     events r !! i = Some e -> ev_result e = Some (f, pr, tp) ->
     (pr = 0 -> S i = length (events r) /\ exists df, out r = Returned (Some df)) /\
     (pr ≠ 0 -> (S i < length (events r))%nat \/
                (S i = length (events r) /\ out r = Running /\ fuel = S i))) /\
  (out r = Running -> length (events r) = fuel) /\
  (forall k f tp,
     (forall j, (j < k)%nat -> continuing (fetch_nth server d j)) ->
     fetch_nth server d k = Some (f, 0, tp) ->
     (k < fuel)%nat ->
     length (events r) = S k /\
     out r = Returned (Some (concat_rows
                               (map (fun j => frame_of (fetch_nth server d j)) (seq 0 (S k)))))).
Proof.
  intros Hp r.
  destruct (query_all_contracts_spec server params d fuel h Hp)
    as (_ & n & Hev & Hn & Hcont & Hout).
  fold r in Hev, Hout.
  assert (Hlen : length (events r) = n) by (now rewrite Hev, length_map, length_seq).
  split; [|split; [|split]].
  - intros i e Hi. rewrite Hev in Hi. apply lookup_map_seq in Hi. destruct Hi as [_ ->].
    reflexivity.
  - intros i e f pr tp Hi He. rewrite Hev in Hi. apply lookup_map_seq in Hi.
    destruct Hi as [Hlt ->]. simpl in He. rewrite Hlen. clear Hlen. split.
    + intros ->.
      assert (Hlast : S i = n).
      { destruct (decide (S i < n)%nat) as [Hs|]; [|lia].
        destruct (continuing_not_zero _ f tp (Hcont i Hs) He). }
      split; [exact Hlast|]. subst n. replace (S i - 1)%nat with i in Hout by lia.
      destruct (out r) as [[df|]| |]; [eauto | | tauto |].
      * destruct Hout as [_ Hnone]. congruence.
      * destruct Hout as [_ Hall]. destruct (continuing_not_zero _ f tp (Hall i Hlt) He).
    + intros Hpr. destruct (decide (S i < n)%nat) as [Hs|Hs]; [now left|]. right.
      assert (Hlast : S i = n) by lia. split; [exact Hlast|]. subst n.
      replace (S i - 1)%nat with i in Hout by lia.
      destruct (out r) as [[df|]| |]; [ | | tauto | ].
      * destruct Hout as (_ & (f' & tp' & Hf') & _). congruence.
      * destruct Hout as [_ Hnone]. congruence.
      * destruct Hout as [-> _]. auto.
  - intros Hrun. rewrite Hlen. rewrite Hrun in Hout. exact (proj1 Hout).
  - intros k f tp Hbefore Hk Hfuel. rewrite Hlen. clear Hlen.
    assert (Hnk : n = S k).
    { destruct (decide (S k < n)%nat) as [Hs|Hs].
      { destruct (continuing_not_zero _ f tp (Hcont k Hs) Hk). }
      destruct (decide (n = S k)) as [|Hne]; [assumption|]. exfalso.
      assert (Hle : (n <= k)%nat) by lia.
      destruct (out r) as [[df|]| |]; [ | | tauto | ].
      - destruct Hout as (Hn1 & (f' & tp' & Hf') & _).
        apply (continuing_not_zero _ f' tp' (Hbefore (n - 1)%nat ltac:(lia)) Hf').
      - destruct Hout as (Hn1 & Hnone).
        apply (continuing_not_None _ (Hbefore (n - 1)%nat ltac:(lia)) Hnone).
      - destruct Hout as [-> _]. lia. }
    split; [exact Hnk|]. subst n. replace (S k - 1)%nat with k in Hout by lia.
    destruct (out r) as [[df|]| |]; [ | | tauto | ].
    + destruct Hout as (_ & _ & ->). reflexivity.
    + destruct Hout as [_ Hnone]. congruence.
    + destruct Hout as [_ Hall]. destruct (continuing_not_zero _ f tp (Hall k ltac:(lia)) Hk).
Qed.

Lemma pagination_stops_at_zero_remaining_witness :
  caller_store !! 1%positive = Some caller_params /\
  let r := query_all_contracts two_pages 5 caller_store 1%positive in
  length (events r) = 2%nat /\
  (forall i e, events r !! i = Some e ->
     ev_query e = <["tamanhoPagina" := VInt 50]>
                    (<["pagina" := VInt (Z.of_nat i + 1)]> caller_params)) /\
  (out r = Running -> length (events r) = 5%nat).
Proof.
  assert (Hp : caller_store !! 1%positive = Some caller_params) by reflexivity.
  split; [exact Hp|].
  destruct (pagination_stops_at_zero_remaining two_pages 5 caller_store 1%positive
              caller_params Hp) as (H1 & _ & H3 & _).
  split; [vm_compute; reflexivity|]. split; [exact H1 | exact H3].
Defined.

(** *** Failures *)

(** C5, as the specification states it, fails for a status that is neither
    2xx nor an error status: [raise_for_status] lets a 300 through, the body
    is read, and the call returns the frame of the page. *)
Lemma multiple_choices_is_fetched :
  (forall hist query, exists body,
     multiple_choices hist query = Response 300 (Some body)) /\
  ~ (200 <= 300 < 300) /\
  exists df,
    out (query_all_contracts multiple_choices 1 caller_store 1%positive)
      = Returned (Some df) /\
    len df = 1%nat.
Proof.
  split; [intros; eexists; reflexivity|]. split; [lia|].
  eexists. split; [vm_compute; reflexivity | reflexivity].
Qed.

Lemma finish_nonempty (l : list DataFrame) : l ≠ [] -> finish l = concat_rows l.
Proof. destruct l; [congruence | reflexivity]. Qed.

(** C5, amended: a page fails when no response comes (time-out, name
    resolution), when its status is an error status (4xx or 5xx), when its
    body is no JSON object or lacks [data]; [_fetch_page] then returns
    [None].  Every page of a run is fetched from the reply of the server to
    its request.  A run in which a page fails returns [None] right after that
    page; a run that returns a frame had no failed page and returns all its
    pages stacked; no exception leaves the call.  A server whose page
    [k + 1] is the first to fail makes the call return [None] after
    [k + 1] requests. *)
Theorem failed_page_aborts_the_fetch
    (server : endpoint) (fuel : nat) (h : gmap positive (gmap string pyval))
    (params : positive) (d : gmap string pyval) :
  h !! params = Some d ->
  let r := query_all_contracts server fuel h params in
  (forall reply,
     reply = NoResponse \/
     (exists s j, reply = Response s j /\ 400 <= s < 600) \/
     (exists s, reply = Response s None) \/
     (exists s b, reply = Response s (Some b) /\ body_data b = None) ->
     _fetch_page reply = None) /\
  (forall i e, events r !! i = Some e ->
     ev_result e = _fetch_page (server (map ev_query (take i (events r))) (ev_query e))) /\
  (forall i e, events r !! i = Some e -> ev_result e = None ->
     out r = Returned None /\ S i = length (events r)) /\
  (forall df, out r = Returned (Some df) ->
     Forall (fun e => ev_result e ≠ None) (events r) /\
     df = concat_rows (map (fun e => frame_of (ev_result e)) (events r))) /\
  (forall e, out r ≠ Escaped e) /\
  (forall k,
     (forall j, (j < k)%nat -> continuing (fetch_nth server d j)) ->
     fetch_nth server d k = None ->
     (k < fuel)%nat ->
     out r = Returned None /\ length (events r) = S k).
Proof.
  intros Hp r.
  destruct (query_all_contracts_spec server params d fuel h Hp)
    as (_ & n & Hev & Hn & Hcont & Hout).
  fold r in Hev, Hout.
  split; [|split; [|split; [|split; [|split]]]].
  - intros reply [-> | [(s & j & -> & Hs) | [(s & ->) | (s & b & -> & Hb)]]].
    + reflexivity.
    + unfold _fetch_page, _fetch_page_try, raise_for_status. simpl.
      replace (400 <=? s) with true by (symmetry; apply Z.leb_le; lia).
      replace (s <? 600) with true by (symmetry; apply Z.ltb_lt; lia).
      reflexivity.
    + unfold _fetch_page, _fetch_page_try, raise_for_status. simpl.
      now destruct ((400 <=? s) && (s <? 600)).
    + unfold _fetch_page, _fetch_page_try, raise_for_status. simpl.
      destruct ((400 <=? s) && (s <? 600)); [reflexivity|]. simpl. now rewrite Hb.
  - intros i e Hi. rewrite Hev in Hi |- *. apply lookup_map_seq in Hi.
    destruct Hi as [Hlt ->]. simpl. unfold fetch_nth. do 2 f_equal.
    rewrite firstn_map, take_seq, Nat.min_l by lia. symmetry. apply history_events.
  - intros i e Hi He. rewrite Hev in Hi. apply lookup_map_seq in Hi.
    destruct Hi as [Hlt ->]. simpl in He.
    assert (Hlen : length (events r) = n) by (now rewrite Hev, length_map, length_seq).
    rewrite Hlen. clear Hlen.
    assert (Hlast : S i = n).
    { destruct (decide (S i < n)%nat) as [Hs|]; [|lia].
      destruct (continuing_not_None _ (Hcont i Hs) He). }
    split; [|exact Hlast]. subst n. replace (S i - 1)%nat with i in Hout by lia.
    destruct (out r) as [[df|]| |]; [ | reflexivity | tauto | ].
    + destruct Hout as (_ & (f' & tp' & Hf') & _). congruence.
    + destruct Hout as [_ Hall]. destruct (continuing_not_None _ (Hall i Hlt) He).
  - intros df Hdf. rewrite Hdf in Hout. destruct Hout as (Hn1 & (f & tp & Hlast) & ->).
    rewrite Hev. split.
    + apply Forall_forall. intros e He. apply list_elem_of_In, in_map_iff in He.
      destruct He as (j & <- & Hj). apply in_seq in Hj. simpl.
      destruct (decide (S j < n)%nat) as [Hs|Hs].
      * apply continuing_not_None. now apply Hcont.
      * replace j with (n - 1)%nat by lia. congruence.
    + rewrite map_map. simpl. apply finish_nonempty.
      destruct n; [lia | discriminate].
  - intros e He. rewrite He in Hout. exact Hout.
  - intros k Hbefore Hk Hfuel.
    assert (Hlen : length (events r) = n) by (now rewrite Hev, length_map, length_seq).
    rewrite Hlen. clear Hlen.
    assert (Hnk : n = S k).
    { destruct (decide (S k < n)%nat) as [Hs|Hs].
      { destruct (continuing_not_None _ (Hcont k Hs) Hk). }
      destruct (decide (n = S k)) as [|Hne]; [assumption|]. exfalso.
      assert (Hle : (n <= k)%nat) by lia.
      destruct (out r) as [[df|]| |]; [ | | tauto | ].
      - destruct Hout as (Hn1 & (f' & tp' & Hf') & _).
        apply (continuing_not_zero _ f' tp' (Hbefore (n - 1)%nat ltac:(lia)) Hf').
      - destruct Hout as (Hn1 & Hnone).
        apply (continuing_not_None _ (Hbefore (n - 1)%nat ltac:(lia)) Hnone).
      - destruct Hout as [-> _]. lia. }
    split; [|exact Hnk]. subst n. replace (S k - 1)%nat with k in Hout by lia.
    destruct (out r) as [[df|]| |]; [ | reflexivity | tauto | ].
    + destruct Hout as (_ & (f' & tp' & Hf') & _). congruence.
    + destruct Hout as [_ Hall]. destruct (continuing_not_None _ (Hall k ltac:(lia)) Hk).
Qed.

Lemma failed_page_aborts_the_fetch_witness :
  caller_store !! 1%positive = Some caller_params /\
  let r := query_all_contracts second_page_down 5 caller_store 1%positive in
  (exists e, events r !! 1%nat = Some e /\ ev_result e = None) /\
  out r = Returned None /\
  length (events r) = 2%nat.
Proof.
  assert (Hp : caller_store !! 1%positive = Some caller_params) by reflexivity.
  split; [exact Hp|].
  destruct (failed_page_aborts_the_fetch second_page_down 5 caller_store 1%positive
              caller_params Hp) as (_ & _ & H3 & _).
  assert (He : exists e,
             events (query_all_contracts second_page_down 5 caller_store 1%positive) !! 1%nat
               = Some e /\ ev_result e = None)
    by (eexists; split; vm_compute; reflexivity).
  split; [exact He|]. destruct He as (e & He1 & He2).
  destruct (H3 1%nat e He1 He2) as [Hout Hlen]. split; [exact Hout | now rewrite <- Hlen].
Defined.

(** *** The caller's dictionary *)

(** C10: the call leaves the caller's dictionary, and every other object
    the store held before the call, as it found them; each request is the
    caller's items with [pagina] and [tamanhoPagina] added, written to a
    copy. *)
Theorem params_left_unchanged
    (server : endpoint) (fuel : nat) (h : gmap positive (gmap string pyval))
    (params : positive) (d : gmap string pyval) :
  h !! params = Some d ->
  let r := query_all_contracts server fuel h params in
  final_store r !! params = Some d /\
  (forall l, l ∈ dom h -> final_store r !! l = h !! l) /\
  (forall i e, events r !! i = Some e ->
     ev_query e = <["tamanhoPagina" := VInt 50]> (<["pagina" := VInt (Z.of_nat i + 1)]> d)).
Proof.
  intros Hp r.
  destruct (query_all_contracts_spec server params d fuel h Hp)
    as (Hfr & n & Hev & _).
  fold r in Hfr, Hev. split; [|split].
  - rewrite Hfr; [exact Hp|]. apply elem_of_dom. now exists d.
  - exact Hfr.
  - intros i e Hi. rewrite Hev in Hi. apply lookup_map_seq in Hi. destruct Hi as [_ ->].
    reflexivity.
Qed.

Lemma params_left_unchanged_witness :
  caller_store !! 1%positive = Some caller_params /\
  let r := query_all_contracts two_pages 5 caller_store 1%positive in
  length (events r) = 2%nat /\
  final_store r !! 1%positive = Some caller_params.
Proof.
  assert (Hp : caller_store !! 1%positive = Some caller_params) by reflexivity.
  split; [exact Hp|]. split; [vm_compute; reflexivity|].
  exact (proj1 (params_left_unchanged two_pages 5 caller_store 1%positive caller_params Hp)).
Defined.

End FetcherFacts.

(** ** The browsing tool *)

Module AppFacts.
Import Pandas App Samples Notions.

(** *** Splitting and trimming *)

Lemma split_nonempty (sep : char) (s : str) : split sep s ≠ [].
Proof.
  destruct s as [|c s]; simpl; [discriminate|].
  destruct (N.eqb c sep); [discriminate|]. destruct (split sep s); discriminate.
Qed.

(** The pieces, joined by the separator, give the text back. *)
Lemma join_split (sep : char) (s : str) : join [sep] (split sep s) = s.
Proof.
  induction s as [|c s IH]; [reflexivity|]. simpl.
  destruct (N.eqb c sep) eqn:E.
  - apply N.eqb_eq in E. subst c.
    pose proof (split_nonempty sep s) as Hne.
    destruct (split sep s) as [|piece pieces]; [congruence|].
    simpl in *. now rewrite IH.
  - pose proof (split_nonempty sep s) as Hne.
    destruct (split sep s) as [|piece pieces]; [congruence|].
    destruct pieces; simpl in *; now rewrite <- IH.
Qed.

(** No piece holds the separator, and a piece holds only characters of the
    text. *)
Lemma split_pieces (sep : char) (s piece : str) (c : char) :
  In piece (split sep s) -> In c piece -> c ≠ sep /\ In c s.
Proof.
  revert piece. induction s as [|c0 s IH]; simpl; intros piece Hp Hc.
  - destruct Hp as [<- | []]. destruct Hc.
  - destruct (N.eqb c0 sep) eqn:E.
    + destruct Hp as [<- | Hp]; [destruct Hc|].
      destruct (IH piece Hp Hc). auto.
    + apply N.eqb_neq in E. pose proof (split_nonempty sep s) as Hne.
      destruct (split sep s) as [|p0 ps]; [congruence|].
      destruct Hp as [<- | Hp].
      * destruct Hc as [<- | Hc]; [auto|].
        destruct (IH p0 (or_introl eq_refl) Hc). auto.
      * destruct (IH piece (or_intror Hp) Hc). auto.
Qed.

Lemma lstrip_spec (s : str) :
  exists l, s = l ++ lstrip s /\ forallb isspace l = true /\
            (forall c rest, lstrip s = c :: rest -> isspace c = false).
Proof.
  induction s as [|c s (l & Hs & Hl & Hhd)]; simpl.
  - exists []. repeat split. discriminate.
  - destruct (isspace c) eqn:E.
    + exists (c :: l). simpl. rewrite E, Hl. split; [now f_equal|]. split; [reflexivity|].
      exact Hhd.
    + exists []. repeat split. intros c' rest [= <- _]. exact E.
Qed.

Lemma forallb_rev {A} (f : A -> bool) (l : list A) : forallb f (rev l) = forallb f l.
Proof.
  induction l as [|x l IH]; simpl; [reflexivity|].
  rewrite forallb_app, IH. simpl. rewrite andb_true_r. apply andb_comm.
Qed.

(** [strip] takes a run of white space off each end, and all of it. *)
Lemma strip_spec (s : str) :
  exists l r,
    s = l ++ strip s ++ r /\
    forallb isspace l = true /\ forallb isspace r = true /\
    (forall c rest, strip s = c :: rest -> isspace c = false) /\
    (forall c front, strip s = front ++ [c] -> isspace c = false).
Proof.
  unfold strip, rstrip.
  destruct (lstrip_spec s) as (l & Hs & Hl & Hhd).
  destruct (lstrip_spec (rev (lstrip s))) as (r & Hr & Hrs & Hlast).
  exists l, (rev r). split; [|split; [exact Hl|split; [now rewrite forallb_rev|split]]].
  - rewrite <- rev_app_distr, <- Hr, rev_involutive. exact Hs.
  - intros c rest Hc.
    destruct (lstrip s) as [|c0 t] eqn:El; [discriminate|].
    assert (c = c0).
    { assert (Hrev : rev (c0 :: t) = r ++ rev (c :: rest)).
      { rewrite <- Hc, rev_involutive. exact Hr. }
      apply (f_equal (@rev char)) in Hrev. rewrite rev_involutive, rev_app_distr,
        rev_involutive in Hrev. simpl in Hrev. now injection Hrev. }
    subst c0. now apply (Hhd c t).
  - intros c front Hc. apply (f_equal (@rev char)) in Hc.
    rewrite rev_involutive, rev_app_distr in Hc. simpl in Hc. now apply (Hlast c (rev front)).
Qed.

Lemma lstrip_all_space (s : str) : forallb isspace s = true -> lstrip s = [].
Proof.
  induction s as [|c s IH]; simpl; [reflexivity|].
  destruct (isspace c); [exact IH | discriminate].
Qed.

Lemma strip_all_space (s : str) : forallb isspace s = true -> strip s = [].
Proof. intros H. unfold strip, rstrip. now rewrite (lstrip_all_space s H). Qed.

Lemma parse_keywords_tokens (text : str) :
  parse_keywords text = List.filter truthy (map strip (split semicolon text)).
Proof.
  unfold parse_keywords. destruct text as [|c text]; [reflexivity|].
  cbn [truthy negb]. induction (split semicolon (c :: text)) as [|t ts IH]; simpl; [reflexivity|].
  destruct (truthy (strip t)); simpl; now rewrite IH.
Qed.

Lemma parse_keywords_blank (text : str) :
  (forall c, In c text -> c = semicolon \/ isspace c = true) -> parse_keywords text = [].
Proof.
  intros H. rewrite parse_keywords_tokens.
  assert (Hp : forall piece, In piece (split semicolon text) -> strip piece = []).
  { intros piece Hp. apply strip_all_space, forallb_forall. intros c Hc.
    destruct (split_pieces _ _ _ _ Hp Hc) as [Hne Hin].
    destruct (H c Hin); [contradiction | assumption]. }
  induction (split semicolon text) as [|t ts IH]; simpl; [reflexivity|].
  rewrite (Hp t) by now left. simpl. apply IH. intros piece Hin. apply Hp. now right.
Qed.

(** *** Escaping and compiling *)

Lemma add_literals_cons (k alt : str) (alts : branches) :
  add_literals k (alt :: alts) = (k ++ alt) :: alts.
Proof. induction k as [|c k IH]; simpl; [reflexivity|]. now rewrite IH. Qed.

Lemma existsb_N_false (c : char) (l : list char) :
  existsb (N.eqb c) l = false <-> ~ In c l.
Proof.
  rewrite <- not_true_iff_false, existsb_exists. split.
  - intros H Hin. apply H. exists c. split; [exact Hin | apply N.eqb_refl].
  - intros H (x & Hin & E). apply N.eqb_eq in E. now subst.
Qed.

Lemma special_chars_escaped (c : char) : In c special_chars -> In c escaped_by_re_escape.
Proof.
  unfold special_chars, escaped_by_re_escape. simpl.
  intros H. repeat (destruct H as [<- | H]; [tauto|]). destruct H.
Qed.

Lemma escaped_not_alnum (c : char) : In c escaped_by_re_escape -> is_ascii_alnum c = false.
Proof.
  unfold escaped_by_re_escape. simpl.
  intros H. repeat (destruct H as [<- | H]; [reflexivity|]). destruct H.
Qed.

Lemma re_escape_cons (c : char) (k : str) :
  re_escape (c :: k) =
  (if existsb (N.eqb c) escaped_by_re_escape then [backslash; c] else [c]) ++ re_escape k.
Proof. reflexivity. Qed.

Lemma parse_alternatives_escaped (e : char) (rest : str) :
  is_ascii_alnum e = false ->
  parse_alternatives (backslash :: e :: rest) = add_literal e <$> parse_alternatives rest.
Proof. intros H. cbn [parse_alternatives]. rewrite N.eqb_refl. now rewrite H. Qed.

Lemma parse_alternatives_plain (c : char) (rest : str) :
  ~ In c escaped_by_re_escape ->
  parse_alternatives (c :: rest) = add_literal c <$> parse_alternatives rest.
Proof.
  intros E. cbn [parse_alternatives].
  assert (Hb : N.eqb c backslash = false).
  { apply N.eqb_neq. intros ->. apply E. unfold escaped_by_re_escape, backslash.
    simpl. tauto. }
  assert (Hbar : N.eqb c bar = false).
  { apply N.eqb_neq. intros ->. apply E. unfold escaped_by_re_escape, bar.
    simpl. tauto. }
  assert (Hs : existsb (N.eqb c) special_chars = false).
  { apply existsb_N_false. intros Hin. apply E. now apply special_chars_escaped. }
  now rewrite Hb, Hbar, Hs.
Qed.

Lemma parse_alternatives_bar (rest : str) :
  parse_alternatives (bar :: rest) = cons [] <$> parse_alternatives rest.
Proof. reflexivity. Qed.

(** An escaped keyword compiles to its own characters, as literals. *)
Lemma parse_alternatives_escape (k rest : str) :
  parse_alternatives (re_escape k ++ rest) = add_literals k <$> parse_alternatives rest.
Proof.
  induction k as [|c k IH].
  - simpl. now destruct (parse_alternatives rest).
  - rewrite re_escape_cons.
    destruct (existsb (N.eqb c) escaped_by_re_escape) eqn:E.
    + assert (Hin : In c escaped_by_re_escape).
      { apply existsb_exists in E. destruct E as (x & Hx & Ex).
        apply N.eqb_eq in Ex. now subst. }
      change (([backslash; c] ++ re_escape k) ++ rest)
        with (backslash :: c :: (re_escape k ++ rest)).
      rewrite (parse_alternatives_escaped c _ (escaped_not_alnum c Hin)), IH.
      now destruct (parse_alternatives rest).
    + apply existsb_N_false in E.
      change (([c] ++ re_escape k) ++ rest) with (c :: (re_escape k ++ rest)).
      rewrite (parse_alternatives_plain c _ E), IH. now destruct (parse_alternatives rest).
Qed.

(** The pattern built from the keywords compiles to one alternative per
    keyword, each the keyword itself. *)
Lemma parse_alternatives_keywords (keywords : list str) :
  keywords ≠ [] ->
  parse_alternatives (join [bar] (map re_escape keywords)) = Some keywords.
Proof.
  induction keywords as [|k ks IH]; [congruence|]. intros _.
  destruct ks as [|k' ks].
  - simpl. rewrite <- (app_nil_r (re_escape k)), parse_alternatives_escape. simpl.
    now rewrite add_literals_cons, app_nil_r.
  - change (join [bar] (map re_escape (k :: k' :: ks)))
      with (re_escape k ++ [bar] ++ join [bar] (map re_escape (k' :: ks))).
    rewrite parse_alternatives_escape.
    change ([bar] ++ ?x) with (bar :: x).
    rewrite parse_alternatives_bar, IH by discriminate. simpl. now rewrite add_literals_cons, app_nil_r.
Qed.

(** The pattern built from the keywords compiles to what the parser makes
    of the keywords as alternatives. *)
Lemma re_compile_keywords (keywords : list str) :
  keywords ≠ [] ->
  re_compile (join [bar] (map re_escape keywords)) = Some (_parse_sub keywords).
Proof.
  intros H. unfold re_compile. now rewrite parse_alternatives_keywords.
Qed.

(** *** Prefix and character set *)

Lemma shared_head_Some (items : branches) (c : char) :
  shared_head items = Some c -> items = map (cons c) (map (@tl char) items).
Proof.
  destruct items as [|[|d item] items]; simpl; try discriminate.
  destruct (forallb (fun item => match item with
                                 | e :: _ => N.eqb e d
                                 | [] => false
                                 end) items) eqn:E; [|discriminate].
  intros [= ->]. f_equal.
  induction items as [|[|e it] items IH]; simpl in *; [reflexivity | discriminate |].
  apply andb_true_iff in E. destruct E as [E1 E2]. apply N.eqb_eq in E1. subst e.
  now rewrite <- IH.
Qed.

Lemma common_prefix_spec (fuel : nat) (items rest : branches) (prefix : str) :
  common_prefix fuel items = (prefix, rest) -> items = map (app prefix) rest.
Proof.
  revert items rest prefix. induction fuel as [|fuel IH]; intros items rest prefix; simpl.
  - intros [= <- <-]. now rewrite map_id.
  - destruct (shared_head items) as [c|] eqn:Hc.
    + destruct (common_prefix fuel (map (@tl char) items)) as [p r] eqn:E.
      intros [= <- <-]. apply IH in E. apply shared_head_Some in Hc.
      rewrite Hc, E at 1. rewrite map_map. reflexivity.
    + intros [= <- <-]. now rewrite map_id.
Qed.

Lemma single_characters (rest : branches) :
  forallb (fun item => (length item =? 1)%nat) rest = true ->
  rest = map (fun m => [m]) (map (hd 0%N) rest).
Proof.
  induction rest as [|item rest IH]; simpl; [reflexivity|].
  intros H. apply andb_true_iff in H. destruct H as [H1 H2].
  rewrite <- IH by exact H2. f_equal.
  destruct item as [|m [|? ?]]; try discriminate. reflexivity.
Qed.

(** What [_parse_sub] returns: the branch of the alternatives, or a prefix
    and a set that spell the alternatives. *)
Lemma _parse_sub_cases (items : branches) :
  _parse_sub items = Branch items \/
  exists prefix set,
    _parse_sub items = Charset prefix set /\ items = map (fun m => prefix ++ [m]) set.
Proof.
  unfold _parse_sub. destruct items as [|item [|item' items]];
    [right; exists [], []; split; reflexivity | now left |].
  destruct (common_prefix _ _) as [prefix rest] eqn:E.
  destruct (forallb (fun item => (length item =? 1)%nat) rest) eqn:F; [|now left].
  right. exists prefix, (map (hd 0%N) rest). split; [reflexivity|].
  apply common_prefix_spec in E. rewrite E at 1.
  rewrite (single_characters rest F) at 1. now rewrite map_map.
Qed.

(** *** Searching *)

Section SearchFacts.

Variable fold : char -> char.

Lemma match_here_spec (alt text : str) :
  match_here fold alt text = true <->
  exists mid post, text = mid ++ post /\ map fold mid = map fold alt.
Proof.
  revert text. induction alt as [|c alt IH]; intros text; simpl.
  - split; [|reflexivity]. intros _. exists [], text. auto.
  - destruct text as [|x text].
    + split; [discriminate|]. intros (mid & post & Ht & Hm).
      destruct mid; [discriminate | discriminate].
    + rewrite andb_true_iff, N.eqb_eq, IH. split.
      * intros (Hc & mid & post & -> & Hm). exists (x :: mid), post. simpl.
        split; [reflexivity | congruence].
      * intros (mid & post & Ht & Hm). destruct mid as [|y mid]; [discriminate|].
        simpl in Ht, Hm. injection Ht as <- ->. injection Hm as Hy Hm.
        split; [congruence|]. eauto.
Qed.

Lemma branch_search_spec (p : branches) (text : str) :
  re_search fold (Branch p) text = true <-> exists k, In k p /\ ci_substring fold k text.
Proof.
  induction text as [|x text IH]; simpl.
  - rewrite orb_false_r, existsb_exists. split.
    + intros (k & Hk & Hm). apply match_here_spec in Hm. destruct Hm as (mid & post & Ht & Hm).
      exists k. split; [exact Hk|]. exists [], mid, post. auto.
    + intros (k & Hk & pre & mid & post & Ht & Hm). exists k. split; [exact Hk|].
      apply match_here_spec. destruct pre; [|discriminate]. exists mid, post. auto.
  - rewrite orb_true_iff, existsb_exists, IH. split.
    + intros [(k & Hk & Hm) | (k & Hk & pre & mid & post & -> & Hm)].
      * apply match_here_spec in Hm. destruct Hm as (mid & post & Ht & Hm).
        exists k. split; [exact Hk|]. exists [], mid, post. auto.
      * exists k. split; [exact Hk|]. exists (x :: pre), mid, post. auto.
    + intros (k & Hk & pre & mid & post & Ht & Hm). destruct pre as [|y pre].
      * left. exists k. split; [exact Hk|]. apply match_here_spec. exists mid, post. auto.
      * right. injection Ht as <- ->. exists k. split; [exact Hk|]. exists pre, mid, post. auto.
Qed.

Lemma existsb_andb {A} (b : bool) (f : A -> bool) (l : list A) :
  existsb (fun x => b && f x) l = b && existsb f l.
Proof.
  induction l as [|x l IH]; simpl; [now rewrite andb_false_r|].
  rewrite IH. now destruct b.
Qed.

Lemma existsb_of_map {A B} (f : B -> bool) (g : A -> B) (l : list A) :
  existsb f (map g l) = existsb (fun x => f (g x)) l.
Proof. induction l as [|x l IH]; simpl; [reflexivity | now rewrite IH]. Qed.

Lemma existsb_pointwise {A} (f g : A -> bool) (l : list A) :
  (forall x, In x l -> f x = g x) -> existsb f l = existsb g l.
Proof.
  induction l as [|x l IH]; simpl; [reflexivity|]. intros H.
  rewrite (H x) by now left. f_equal. apply IH. intros y Hy. apply H. now right.
Qed.

(** On plain characters a set finds what the alternatives it stands for
    find. *)
Lemma match_charset_plain (prefix : str) (set : list char) (text : str) :
  (forall m, In m set -> plain_case fold m) ->
  match_charset fold prefix set text
  = existsb (fun alt => match_here fold alt text) (map (fun m => prefix ++ [m]) set).
Proof.
  intros Hplain. rewrite existsb_of_map. revert text.
  induction prefix as [|c prefix IH]; intros [|d text]; simpl.
  - symmetry. clear. induction set; simpl; auto.
  - unfold in_charset. apply existsb_pointwise. intros m Hm.
    rewrite andb_true_r. destruct (65536 <=? m)%N eqn:E; [|reflexivity].
    destruct (Hplain m Hm) as [Hlt | ->]; [apply N.leb_le in E; lia | reflexivity].
  - symmetry. clear. induction set; simpl; auto.
  - rewrite IH. symmetry. apply existsb_andb.
Qed.

Lemma match_at_plain (keywords : list str) (text : str) :
  (forall k, In k keywords -> forall c, In c k -> plain_case fold c) ->
  match_at fold (_parse_sub keywords) text = match_at fold (Branch keywords) text.
Proof.
  intros Hplain.
  destruct (_parse_sub_cases keywords) as [-> | (prefix & set & -> & Hk)]; [reflexivity|].
  simpl. rewrite Hk at 1. apply match_charset_plain. intros m Hm.
  apply (Hplain (prefix ++ [m])).
  - rewrite Hk. apply in_map_iff. eauto.
  - apply in_app_iff. right. now left.
Qed.

(** Keywords of plain characters are found as they are written, letter
    case apart. *)
Lemma re_search_keywords (keywords : list str) (text : str) :
  (forall k, In k keywords -> forall c, In c k -> plain_case fold c) ->
  re_search fold (_parse_sub keywords) text = true <->
  exists k, In k keywords /\ ci_substring fold k text.
Proof.
  intros Hplain. rewrite <- branch_search_spec.
  assert (E : re_search fold (_parse_sub keywords) text = re_search fold (Branch keywords) text).
  { induction text as [|x text IH]; cbn [re_search]; rewrite (match_at_plain _ _ Hplain);
      [reflexivity | now rewrite IH]. }
  now rewrite E.
Qed.

Lemma str_accessor_text (s : Series) (i : nat) (text : str) :
  s_values s !! i = Some (Str text) -> str_accessor s = Some (Ok (s_values s)).
Proof.
  intros Hi. unfold str_accessor.
  assert (Hin : In (Str text)
                  (List.filter (fun c => match c with NaN | NaT => false | _ => true end)
                               (s_values s))).
  { apply filter_In. split; [|reflexivity]. apply list_elem_of_In.
    now apply (list_elem_of_lookup_2 _ i). }
  destruct (List.filter _ (s_values s)) as [|c present] eqn:E; [destruct Hin|].
  rewrite <- E in Hin |- *.
  assert (H1 : forallb (fun c => match c with Num _ => true | _ => false end)
                 (List.filter (fun c => match c with NaN | NaT => false | _ => true end)
                              (s_values s)) = false).
  { apply not_true_iff_false. intros H. rewrite forallb_forall in H.
    specialize (H _ Hin). discriminate. }
  assert (H2 : forallb (fun c => match c with Timestamp _ => true | _ => false end)
                 (List.filter (fun c => match c with NaN | NaT => false | _ => true end)
                              (s_values s)) = false).
  { apply not_true_iff_false. intros H. rewrite forallb_forall in H.
    specialize (H _ Hin). discriminate. }
  rewrite E in H1, H2. rewrite E. cbn [orb]. now rewrite H1, H2.
Qed.

Lemma str_accessor_no_text (s : Series) :
  numbers_only (s_values s) \/ instants_only (s_values s) ->
  str_accessor s = Some (Raise AttributeError).
Proof.
  unfold str_accessor.
  set (present := List.filter (fun c => match c with NaN | NaT => false | _ => true end)
                              (s_values s)).
  intros H.
  assert (Hne : present ≠ []).
  { destruct H as [[[n Hn] _] | [[t Ht] _]]; intros E.
    - assert (Hin : In (Num n) present) by (apply filter_In; auto). rewrite E in Hin.
      destruct Hin.
    - assert (Hin : In (Timestamp t) present) by (apply filter_In; auto). rewrite E in Hin.
      destruct Hin. }
  assert (Hb : forallb (fun c => match c with Num _ => true | _ => false end) present
               || forallb (fun c => match c with Timestamp _ => true | _ => false end) present
               = true).
  { apply orb_true_iff. destruct H as [[_ Hall] | [_ Hall]]; [left | right];
      apply forallb_forall; intros c Hc; apply filter_In in Hc; destruct Hc as [Hc Hp];
      rewrite Forall_forall in Hall; apply list_elem_of_In in Hc;
      destruct (Hall c Hc) as [[-> | ->] | [x ->]]; try discriminate; reflexivity. }
  destruct present as [|c present']; [congruence|]. now rewrite Hb.
Qed.

(** C6, amended: the input is cut at its semicolons (joined by semicolons
    the pieces give it back, and none holds one), a piece is trimmed of the
    white space at both ends, and the keywords are the trimmed pieces that
    are not empty.  With no keyword the frame passes as it is, which is the
    case of an input of semicolons and white space only.  With keywords,
    the pattern is parsed to the keywords taken literally.  On a description
    column that holds a text, and for keywords without a character beyond
    U+FFFF that case folding changes, the rows kept are exactly those whose
    description is a text in which some keyword occurs, letter case apart; a
    row whose description is missing is not kept.  On a description column
    of numbers only, or of instants only, the filter raises
    [AttributeError]. *)
Theorem keyword_filter_keeps_matching_rows (df : DataFrame) (keyword : str) :
  let keywords := parse_keywords keyword in
  (join [semicolon] (split semicolon keyword) = keyword /\
   forall piece, In piece (split semicolon keyword) -> ~ In semicolon piece) /\
  (forall token, exists l r,
     token = l ++ strip token ++ r /\
     forallb isspace l = true /\ forallb isspace r = true /\
     (forall c rest, strip token = c :: rest -> isspace c = false) /\
     (forall c front, strip token = front ++ [c] -> isspace c = false)) /\
  keywords = List.filter truthy (map strip (split semicolon keyword)) /\
  ((forall c, In c keyword -> c = semicolon \/ isspace c = true) -> keywords = []) /\
  (keywords = [] -> keyword_filter fold df keyword = Some (Ok df)) /\
  (keywords ≠ [] ->
     parse_alternatives (join [bar] (map re_escape keywords)) = Some keywords /\
     forall objetoCompra, getitem df "objetoCompra" = Ok objetoCompra ->
       ((exists i text, s_values objetoCompra !! i = Some (Str text)) ->
        (forall k, In k keywords -> forall c, In c k -> plain_case fold c) ->
        exists mask,
          keyword_filter fold df keyword = Some (Ok (boolean_index df mask)) /\
          length mask = length (s_values objetoCompra) /\
          forall i, mask !! i = Some true <->
                    exists text k, s_values objetoCompra !! i = Some (Str text) /\
                                   In k keywords /\ ci_substring fold k text) /\
       (numbers_only (s_values objetoCompra) \/ instants_only (s_values objetoCompra) ->
        keyword_filter fold df keyword = Some (Raise AttributeError))).
Proof.
  intros keywords. split.
  { split; [apply join_split|]. intros piece Hp Hc.
    now destruct (split_pieces _ _ _ _ Hp Hc). }
  split; [apply strip_spec|].
  split; [apply parse_keywords_tokens|].
  split; [apply parse_keywords_blank|]. split.
  - intros H. unfold keyword_filter. fold keywords. now rewrite H.
  - intros Hne. split; [now apply parse_alternatives_keywords|].
    intros col Hcol.
    assert (Hf : keyword_filter fold df keyword
                 = match str_contains fold (join [bar] (map re_escape keywords)) col with
                   | Some (Ok mask) => Some (Ok (boolean_index df mask))
                   | Some (Raise e) => Some (Raise e)
                   | None => None
                   end).
    { unfold keyword_filter. fold keywords.
      destruct keywords as [|k ks]; [congruence|]. cbn [truthy_list]. now rewrite Hcol. }
    rewrite Hf. unfold str_contains. split.
    + intros (i0 & text0 & Htext) Hplain.
      rewrite (str_accessor_text col i0 text0 Htext).
      rewrite (re_compile_keywords keywords Hne). simpl.
      eexists. split; [reflexivity|]. split; [apply length_map|].
      intros i.
      change (map ?f (s_values col)) with (f <$> s_values col).
      rewrite list_lookup_fmap. destruct (s_values col !! i) as [c|]; simpl.
      * split.
        -- intros [= H]. destruct c; try discriminate.
           apply (re_search_keywords keywords _ Hplain) in H.
           destruct H as (k0 & Hk0 & Hsub). eauto.
        -- intros (text & k0 & [= ->] & Hk0 & Hsub). f_equal.
           apply (re_search_keywords keywords _ Hplain). eauto.
      * split; [discriminate|]. intros (text & k0 & H & _). discriminate.
    + intros H. now rewrite (str_accessor_no_text col H).
Qed.

End SearchFacts.

(** C6, as the specification states it, fails for a keyword that is a
    capital letter beyond U+FFFF next to another keyword of one character:
    the two are compiled to a character set, in which the capital is stored
    as written while the text is folded before it is looked up.  The
    description of [deseret_notice] is the keyword U+10400 itself, and the
    row is not kept. *)
Lemma deseret_keyword_is_missed :
  parse_keywords [66560; 59; 122]%N = [[66560]; [122]]%N /\
  getitem deseret_notice "objetoCompra" = Ok (mkSeries [0] [Str [66560%N]]) /\
  ci_substring deseret_fold [66560%N] [66560%N] /\
  keyword_filter deseret_fold deseret_notice [66560; 59; 122]%N
  = Some (Ok (boolean_index deseret_notice [false])) /\
  len (boolean_index deseret_notice [false]) = 0%nat.
Proof.
  split; [vm_compute; reflexivity|]. split; [reflexivity|]. split.
  - exists [], [66560%N], []. split; reflexivity.
  - split; vm_compute; reflexivity.
Qed.

(** The example of the specification: "medicamento; insumo" against three
    notices, the first about "Medicamento hospitalar"; and descriptions
    that are numbers. *)
Lemma keyword_filter_keeps_matching_rows_witness :
  parse_keywords (cp "medicamento; insumo") = [cp "medicamento"; cp "insumo"] /\
  (exists objetoCompra, getitem notices "objetoCompra" = Ok objetoCompra) /\
  (exists mask,
     keyword_filter ascii_fold notices (cp "medicamento; insumo")
       = Some (Ok (boolean_index notices mask)) /\
     length mask = 3%nat /\
     index (boolean_index notices mask) = [0]) /\
  keyword_filter ascii_fold numbered_notices (cp "medicamento; insumo")
  = Some (Raise AttributeError).
Proof.
  assert (Hk : parse_keywords (cp "medicamento; insumo") = [cp "medicamento"; cp "insumo"])
    by (vm_compute; reflexivity).
  assert (Hne : parse_keywords (cp "medicamento; insumo") ≠ []) by (rewrite Hk; discriminate).
  assert (Hcol : exists objetoCompra, getitem notices "objetoCompra" = Ok objetoCompra)
    by (eexists; vm_compute; reflexivity).
  split; [exact Hk|]. split; [exact Hcol|]. destruct Hcol as [col Hcol]. split.
  - destruct (keyword_filter_keeps_matching_rows ascii_fold notices
                (cp "medicamento; insumo")) as (_ & _ & _ & _ & _ & H).
    destruct (H Hne) as [_ H']. destruct (H' col Hcol) as [H'' _].
    destruct H'' as (mask & Hf & Hlen & _).
    + exists O, (cp "Medicamento hospitalar"). revert Hcol. vm_compute.
      now intros [= <-].
    + rewrite Hk. intros k Hin c Hc. left.
      simpl in Hin. destruct Hin as [<- | [<- | []]]; vm_compute in Hc;
        repeat (destruct Hc as [<- | Hc]; [reflexivity|]); destruct Hc.
    + exists mask. split; [exact Hf|]. split.
      * rewrite Hlen. revert Hcol. vm_compute. now intros [= <-].
      * assert (Hc : exists out,
                   keyword_filter ascii_fold notices (cp "medicamento; insumo")
                   = Some (Ok out) /\ index out = [0])
          by (eexists; split; vm_compute; reflexivity).
        destruct Hc as (out & Hout & Hidx). rewrite Hf in Hout. now injection Hout as ->.
  - destruct (keyword_filter_keeps_matching_rows ascii_fold numbered_notices
                (cp "medicamento; insumo")) as (_ & _ & _ & _ & _ & H).
    destruct (H Hne) as [_ H'].
    apply (proj2 (H' (mkSeries [0; 1] [Num 1; Num 2]) eq_refl)). left. split.
    + exists 1. simpl. tauto.
    + simpl. repeat (apply List.Forall_cons; [right; eauto|]). apply List.Forall_nil.
Defined.

(** *** Column projection *)

Lemma existsb_label (c : string) (l : list string) :
  existsb (String.eqb c) l = true <-> In c l.
Proof.
  rewrite existsb_exists. split.
  - intros (x & Hx & E). apply String.eqb_eq in E. now subst.
  - intros H. exists c. split; [exact H | apply String.eqb_refl].
Qed.

Lemma display_columns_present (selected : list string) (df : DataFrame) (c : string) :
  In c (display_columns selected df) -> In c (columns df).
Proof.
  unfold display_columns.
  destruct (List.filter _ selected) as [|c0 l] eqn:E; [auto|].
  rewrite <- E. intros H. apply filter_In in H. now apply existsb_label.
Qed.

Lemma unique_column (d : list (string * list cell)) (c : string) :
  List.NoDup (map fst d) -> In c (map fst d) ->
  exists v, List.filter (fun kv => String.eqb c (fst kv)) d = [(c, v)] /\
            find_column c d = Some v.
Proof.
  induction d as [|[c' v'] d IH]; simpl; intros Hnd Hin; [destruct Hin|].
  apply List.NoDup_cons_iff in Hnd. destruct Hnd as [Hnotin Hnd].
  destruct (String.eqb c c') eqn:E.
  - apply String.eqb_eq in E. subst c'. exists v'. split; [|reflexivity]. f_equal.
    clear IH Hin Hnd. induction d as [|[c2 v2] d IH]; simpl; [reflexivity|].
    simpl in Hnotin. destruct (String.eqb c c2) eqn:E2.
    + apply String.eqb_eq in E2. subst. tauto.
    + apply IH. tauto.
  - apply String.eqb_neq in E. destruct Hin as [-> | Hin]; [congruence|]. now apply IH.
Qed.

Lemma getitem_list_unique (df : DataFrame) (labels : list string) :
  List.NoDup (columns df) ->
  (forall c, In c labels -> In c (columns df)) ->
  exists shown,
    getitem_list df labels = Ok shown /\
    index shown = index df /\
    columns shown = labels /\
    (forall c, In c labels -> find_column c (data shown) = find_column c (data df)).
Proof.
  intros Hnd Hin. unfold getitem_list.
  assert (Hnone : List.filter (fun c => (count_label c df =? 0)%nat) labels = []).
  { induction labels as [|c l IH]; simpl; [reflexivity|].
    destruct (count_label c df =? 0)%nat eqn:E.
    - apply Nat.eqb_eq, PandasFacts.count_label_0 in E.
      destruct (unique_column (data df) c Hnd (Hin c (or_introl eq_refl))) as (v & _ & Hv).
      congruence.
    - apply IH. intros c' Hc'. apply Hin. now right. }
  rewrite Hnone. eexists. split; [reflexivity|]. split; [reflexivity|].
  unfold columns at 1. simpl. clear Hnone.
  induction labels as [|c l IH]; simpl; [split; [reflexivity | intros c []]|].
  destruct (unique_column (data df) c Hnd (Hin c (or_introl eq_refl))) as (v & Hf & Hv).
  rewrite Hf. simpl. destruct IH as [IH1 IH2]; [intros c' Hc'; apply Hin; now right|].
  split; [now rewrite IH1|].
  intros c' [<- | Hc'].
  - now rewrite String.eqb_refl, Hv.
  - destruct (String.eqb c' c) eqn:E; [|now apply IH2].
    apply String.eqb_eq in E. subst c'. now rewrite Hv.
Qed.

(** C8: on a dataset whose column labels are distinct, the table shown has
    the rows of the dataset and, as columns, the requested labels that are
    columns of the dataset, in the order of the request; when there is none
    (an empty request, or only unknown labels) it has every column of the
    dataset.  Each column shown holds what the dataset holds under that
    label. *)
Theorem projection_follows_the_request (selected_columns : list string) (df : DataFrame) :
  List.NoDup (columns df) ->
  let requested :=
    List.filter (fun c => bool_decide (c ∈ columns df)) selected_columns in
  exists shown,
    df_display selected_columns df = Ok shown /\
    index shown = index df /\
    (requested ≠ [] -> columns shown = requested) /\
    (requested = [] -> columns shown = columns df) /\
    (forall c, In c (columns shown) -> find_column c (data shown) = find_column c (data df)).
Proof.
  intros Hnd requested.
  assert (Hreq : List.filter (fun col => existsb (String.eqb col) (columns df)) selected_columns
                 = requested).
  { unfold requested. apply filter_ext. intros c.
    destruct (existsb (String.eqb c) (columns df)) eqn:E.
    - apply existsb_label in E. symmetry. apply bool_decide_eq_true.
      now apply list_elem_of_In.
    - symmetry. apply bool_decide_eq_false.
      rewrite list_elem_of_In, <- existsb_label, E. discriminate. }
  destruct (getitem_list_unique df (display_columns selected_columns df) Hnd
              (display_columns_present selected_columns df))
    as (shown & Hs & Hidx & Hcols & Hcells).
  exists shown. split; [exact Hs|]. split; [exact Hidx|].
  unfold display_columns in Hcols. rewrite Hreq in Hcols.
  split; [|split].
  - intros Hne. rewrite Hcols. destruct requested; [congruence | reflexivity].
  - intros He. rewrite Hcols, He. reflexivity.
  - intros c Hc. apply Hcells. unfold display_columns. rewrite Hreq.
    now rewrite Hcols in Hc.
Qed.

Lemma projection_follows_the_request_witness :
  List.NoDup (columns notices) /\
  exists shown,
    df_display ["valor"; "poder"; "objetoCompra"] notices = Ok shown /\
    columns shown = ["valor"; "objetoCompra"].
Proof.
  assert (Hnd : List.NoDup (columns notices)).
  { unfold notices, columns. simpl. repeat constructor; simpl; intuition discriminate. }
  split; [exact Hnd|].
  destruct (projection_follows_the_request ["valor"; "poder"; "objetoCompra"] notices Hnd)
    as (shown & Hs & _ & Hreq & _).
  exists shown. split; [exact Hs|]. rewrite Hreq; [vm_compute; reflexivity|].
  vm_compute. discriminate.
Defined.

(** *** Export *)

Lemma illegal_spec (c : char) : illegal c = true <-> control_character c.
Proof.
  unfold illegal, illegal_char_re, control_character. simpl.
  rewrite !orb_true_iff, !andb_true_iff, !N.leb_le. lia.
Qed.

Lemma sub_illegal_spec (x : str) :
  sub_illegal x = filter (fun c => ~ control_character c) x.
Proof.
  unfold sub_illegal. induction x as [|c x IH]; [reflexivity|]. cbn [List.filter].
  rewrite (filter_cons (fun c0 : char => ~ control_character c0)).
  destruct (illegal c) eqn:E; cbn [negb].
  - apply illegal_spec in E. rewrite decide_False by tauto. exact IH.
  - rewrite decide_True; [now rewrite IH|]. rewrite <- illegal_spec, E. discriminate.
Qed.

Lemma row_at_applymap (df : DataFrame) (i : nat) :
  row_at (applymap _clean_value df) i = map _clean_value (row_at df i).
Proof.
  unfold row_at, applymap. simpl. rewrite !map_map. apply map_ext. intros [c v]. simpl.
  change NaN with (_clean_value NaN) at 1. apply map_nth.
Qed.

Lemma columns_applymap (f : cell -> cell) (df : DataFrame) :
  columns (applymap f df) = columns df.
Proof. unfold applymap, columns. simpl. now rewrite map_map. Qed.

(** C9: [_clean_value] takes the characters 0x00-0x08, 0x0B, 0x0C and
    0x0E-0x1F out of a text and leaves the others as they stand, and leaves a
    cell that is no text as it is.  The workbook [to_excel] writes has one
    sheet, named Biddings: a row of the column labels, then for every row of
    the table the cleaned cells of that row and nothing else (no row label).
    It is written whenever no column label holds one of those characters. *)
Theorem to_excel_cleans_and_writes_one_sheet (df : DataFrame) :
  (forall s, _clean_value (Str s) = Str (filter (fun c => ~ control_character c) s)) /\
  (forall x, (forall s, x ≠ Str s) -> _clean_value x = x) /\
  (forall wb, to_excel df = Ok wb ->
     wb = [mkSheet "Biddings"
             (map Header (columns df)
              :: map (fun i => map (fun x => Value (_clean_value x)) (row_at df i))
                     (seq 0 (len df)))]) /\
  (forallb legal_label (columns df) = true -> exists wb, to_excel df = Ok wb).
Proof.
  split; [|split; [|split]].
  - intros s. simpl. now rewrite sub_illegal_spec.
  - intros x Hx. destruct x; try reflexivity. now destruct (Hx s).
  - intros wb. unfold to_excel, DataFrame_to_excel.
    destruct (negb _); [discriminate|]. intros [= <-].
    rewrite columns_applymap. cbn [app]. do 3 f_equal.
    apply map_ext. intros i. now rewrite row_at_applymap, map_map.
  - intros H. unfold to_excel, DataFrame_to_excel.
    rewrite columns_applymap, H. simpl. eauto.
Qed.

Lemma to_excel_cleans_and_writes_one_sheet_witness :
  exists wb,
    to_excel with_control_characters = Ok wb /\
    wb = [mkSheet "Biddings"
            [ [Header "objetoCompra"; Header "valor"];
              [Value (Str (cp "papel")); Value (Num 1000)];
              [Value NaN; Value (Num 250)] ]].
Proof.
  assert (Hw : exists wb, to_excel with_control_characters = Ok wb)
    by (eexists; vm_compute; reflexivity).
  destruct Hw as [wb Hwb]. exists wb. split; [exact Hwb|].
  destruct (to_excel_cleans_and_writes_one_sheet with_control_characters) as (_ & _ & H & _).
  rewrite (H wb Hwb). vm_compute. reflexivity.
Defined.

End AppFacts.

(** ** More on the normalizer *)

Module ExtractMore.
Import Pandas Extract Samples Notions MoreNotions PandasFacts.

(** *** The label of the issuing power *)

Lemma poder_map_cell (c : cell) :
  poder_label c
    match c with
    | Str k => default NaN (snd <$> List.find (fun kv => str_eqb k (fst kv)) poder_map)
    | _ => NaN
    end.
Proof.
  destruct c as [| | n | k | t | items]; try (left; reflexivity).
  unfold poder_label, poder_map. cbn [List.find fst].
  destruct (str_eqb k (cp "E")); [reflexivity|].
  destruct (str_eqb k (cp "M")); [reflexivity|].
  destruct (str_eqb k (cp "N")); [reflexivity|]. now left.
Qed.

Lemma series_map_poder (s r : Series) :
  series_map poder_map s = Ok r ->
  s_index r = s_index s /\ Forall2 poder_label (s_values s) (s_values r).
Proof.
  unfold series_map. destruct (existsb is_dict (s_values s)); [discriminate|].
  intros [= <-]. split; [reflexivity|]. cbn [s_values].
  induction (s_values s) as [|c v IH]; cbn [map]; constructor; [|exact IH].
  apply poder_map_cell.
Qed.

Lemma na_value_null (v : list cell) : null (na_value v).
Proof. unfold na_value, null. destruct (is_datetime_column v); auto. Qed.

Lemma poder_label_null (code label : cell) : null code -> null label -> poder_label code label.
Proof. intros [-> | ->] H; exact H. Qed.

Lemma Forall2_nth_poder (v w : list cell) (i : nat) (d e : cell) :
  Forall2 poder_label v w -> null d -> null e -> poder_label (nth i v d) (nth i w e).
Proof.
  intros H Hd He. revert i. induction H as [|x y v w Hxy _ IH]; intros [|i]; simpl;
    auto using poder_label_null.
Qed.

Lemma reindex_cells_poder (old new : list Z) (v w : list cell) :
  Forall2 poder_label v w ->
  Forall2 poder_label (reindex_cells old new v) (reindex_cells old new w).
Proof.
  intros H. unfold reindex_cells. induction new as [|l new IH]; simpl; constructor; [|exact IH].
  destruct (index_of l old) as [i|].
  - apply Forall2_nth_poder; [exact H | apply na_value_null..].
  - apply poder_label_null; apply na_value_null.
Qed.

(** After [concat] every column of the left frame is found as it was, or
    every one is found laid out along the joined index. *)
Lemma concat_axis1_left_cases (a b r : DataFrame) :
  concat_axis1 a b = Ok r ->
  (index r = index a /\
   forall c v, find_column c (data a) = Some v -> find_column c (data r) = Some v) \/
  (index r = union_index (index a) (index b) /\
   has_dup (index a) = false /\ has_dup (index b) = false /\
   forall c v, find_column c (data a) = Some v ->
               find_column c (data r) = Some (reindex_cells (index a) (index r) v)).
Proof.
  unfold concat_axis1. intros H.
  destruct (index_eqb (index a) (index b)).
  - injection H as <-. left. split; [reflexivity|].
    intros c v Hv. simpl. now rewrite find_column_app, Hv.
  - destruct (has_dup (index a) || has_dup (index b)) eqn:Hd; [discriminate|].
    apply orb_false_elim in Hd. destruct Hd as [Ha Hb].
    injection H as <-. right. simpl. repeat split; auto.
    intros c v Hv. rewrite find_column_app.
    rewrite (find_column_map_cells
               (reindex_cells (index a) (union_index (index a) (index b)))).
    now rewrite Hv.
Qed.

(** X1: in every frame [process_data] returns, the column [poder] is, row
    for row, what [poder_map] makes of the column [poderId]: Estadual for E,
    Municipal for M, Nacional for N, a missing value for any other cell. *)
Theorem poder_is_the_label_of_poderId
    (parse : list cell -> cell -> option Z) (df out : DataFrame) :
  process_data parse df = Ok out ->
  exists codes labels,
    find_column "poderId" (data out) = Some codes /\
    find_column "poder" (data out) = Some labels /\
    Forall2 poder_label codes labels.
Proof.
  intros H. unfold process_data in H.
  step H d0 H0. step H d1 H1. step H d2 H2. step H d3 H3. step H d4 H4.
  step H d5 H5. step H d6 H6. step H valor Hvalor. step H d7 H7.
  step H flat1 Hflat1. step H r1 Hr1. step H d8 H8.
  step H poderId HpoderId. step H poder Hpoder. step H d9 H9.
  step H flat2 Hflat2. step H r2 Hr2. step H d10 H10.
  injection H as <-.
  apply getitem_Ok in HpoderId. destruct HpoderId as [Hidx Hcodes].
  apply series_map_poder in Hpoder. destruct Hpoder as [Hpi Hrel].
  assert (Hc9 : find_column "poderId" (data d9) = Some (s_values poderId)).
  { rewrite (find_column_setitem_ne _ _ _ _ _ H9); [exact Hcodes | discriminate]. }
  assert (Hl9 : find_column "poder" (data d9) = Some (s_values poder)).
  { apply (find_column_setitem_eq _ _ _ _ H9). congruence. }
  assert (Hcr : find_column "poderId" (data r2) = Some (s_values poderId)).
  { rewrite (find_column_drop_ne _ _ _ _ Hr2); [exact Hc9 | discriminate]. }
  assert (Hlr : find_column "poder" (data r2) = Some (s_values poder)).
  { rewrite (find_column_drop_ne _ _ _ _ Hr2); [exact Hl9 | discriminate]. }
  destruct (concat_axis1_left_cases _ _ _ H10) as [[_ Hsame] | (_ & _ & _ & Hre)].
  - exists (s_values poderId), (s_values poder). auto.
  - eexists _, _. split; [apply (Hre _ _ Hcr)|]. split; [apply (Hre _ _ Hlr)|].
    now apply reindex_cells_poder.
Qed.

Lemma poder_is_the_label_of_poderId_witness :
  exists out codes labels,
    process_data iso_parse repeated_notice = Ok out /\
    find_column "poderId" (data out) = Some codes /\
    find_column "poder" (data out) = Some labels /\
    codes = [Str (cp "E"); NaN; Str (cp "N")] /\
    Forall2 poder_label codes labels.
Proof.
  assert (Hrun : exists out, process_data iso_parse repeated_notice = Ok out)
    by (eexists; vm_compute; reflexivity).
  destruct Hrun as [out Hout].
  destruct (poder_is_the_label_of_poderId iso_parse repeated_notice out Hout)
    as (codes & labels & Hc & Hl & Hrel).
  exists out, codes, labels. repeat split; auto.
  revert Hout Hc. vm_compute. intros [= <-]. vm_compute. congruence.
Defined.

(** *** Frames stay rectangular *)

Lemma wf_boolean_index (df : DataFrame) (mask : list bool) :
  wf df -> wf (boolean_index df mask).
Proof.
  unfold wf, boolean_index. simpl. intros H. apply Forall_map.
  eapply Forall_impl; [exact H|]. intros [c v] Hv. simpl in *. now apply select_length.
Qed.

Lemma drop_duplicates_cases (df dedup : DataFrame) (subset : list string) :
  drop_duplicates df subset = Ok dedup ->
  dedup = df \/ exists mask, dedup = boolean_index df mask.
Proof.
  unfold drop_duplicates. destruct (len df =? 0)%nat; [intros [= <-]; now left|].
  destruct (List.filter _ subset); [|discriminate].
  destruct (existsb _ _); [discriminate|]. intros [= <-]. right. eauto.
Qed.

Lemma wf_drop_duplicates (df dedup : DataFrame) (subset : list string) :
  wf df -> drop_duplicates df subset = Ok dedup -> wf dedup.
Proof.
  intros Hwf H. destruct (drop_duplicates_cases _ _ _ H) as [-> | [mask ->]];
    [exact Hwf | now apply wf_boolean_index].
Qed.

Lemma find_column_length (df : DataFrame) (c : string) (v : list cell) :
  wf df -> find_column c (data df) = Some v -> length v = len df.
Proof.
  unfold wf, len. intros Hwf. induction Hwf as [|[c' v'] d Hv' _ IH]; simpl; [discriminate|].
  destruct (String.eqb c c'); [intros [= <-]; exact Hv' | exact IH].
Qed.

Lemma getitem_length (df : DataFrame) (c : string) (s : Series) :
  wf df -> getitem df c = Ok s -> length (s_values s) = length (s_index s).
Proof.
  intros Hwf H. apply getitem_Ok in H. destruct H as [Hi Hv].
  rewrite Hi. now apply (find_column_length df c).
Qed.

Lemma align_to_length (idx : list Z) (s : Series) (v : list cell) :
  length (s_values s) = length (s_index s) -> align_to idx s = Ok v -> length v = length idx.
Proof.
  unfold align_to, index_eqb. intros Hl. case_bool_decide as E.
  - intros [= <-]. now rewrite Hl, E.
  - destruct (has_dup (s_index s)); [discriminate|]. intros [= <-].
    unfold reindex_cells. apply length_map.
Qed.

Lemma wf_setitem (df df' : DataFrame) (c : string) (s : Series) :
  wf df -> length (s_values s) = length (s_index s) -> setitem df c s = Ok df' -> wf df'.
Proof.
  unfold setitem. intros Hwf Hl H. step H v Hv. injection H as <-.
  apply (align_to_length _ _ _ Hl) in Hv. unfold wf in *. simpl.
  destruct (count_label c df =? 0)%nat.
  - apply Forall_app. split; [exact Hwf|]. constructor; [exact Hv | constructor].
  - apply Forall_map. eapply Forall_impl; [exact Hwf|]. intros [c' v'] Hv'. simpl in *.
    now destruct (String.eqb c c').
Qed.

Lemma wf_coerce_date (parse : list cell -> cell -> option Z) (df df' : DataFrame)
    (c : string) :
  wf df -> coerce_date parse df c = Ok df' -> wf df'.
Proof.
  unfold coerce_date. intros Hwf H. step H s Hs.
  apply (wf_setitem _ _ _ _ Hwf) in H; [exact H|].
  unfold to_datetime. simpl. rewrite length_map. now apply (getitem_length df c).
Qed.

Lemma wf_drop (df df' : DataFrame) (c : string) : wf df -> drop df c = Ok df' -> wf df'.
Proof.
  unfold drop. destruct (count_label c df =? 0)%nat; [discriminate|].
  intros Hwf [= <-]. unfold wf in *. simpl.
  induction Hwf as [|[c' v'] d Hv' _ IH]; simpl; [constructor|].
  destruct (String.eqb c c'); simpl; [exact IH | constructor; assumption].
Qed.

Lemma wf_DataFrame_of_records (records : list pydict) : wf (DataFrame_of_records records).
Proof.
  unfold wf, DataFrame_of_records, RangeIndex. simpl. apply Forall_map.
  apply Forall_forall. intros k _. simpl. now rewrite !length_map, length_seq.
Qed.

Lemma wf_json_normalize_column (df flat : DataFrame) (c : string) :
  json_normalize_column df c = Ok flat -> wf flat.
Proof.
  unfold json_normalize_column. destruct (find_column c (data df)); [|discriminate].
  destruct (count_label c df =? 1)%nat; intros [= <-].
  - apply wf_DataFrame_of_records.
  - constructor.
Qed.

Lemma wf_concat_axis1 (a b r : DataFrame) :
  wf a -> wf b -> concat_axis1 a b = Ok r -> wf r.
Proof.
  unfold concat_axis1, index_eqb. intros Ha Hb. case_bool_decide as E.
  - intros [= <-]. unfold wf in *. simpl. apply Forall_app. split; [exact Ha|].
    now rewrite E.
  - destruct (has_dup (index a) || has_dup (index b)); [discriminate|].
    intros [= <-]. unfold wf. simpl. apply Forall_app.
    split; apply Forall_map, Forall_forall; intros kv _; simpl; apply length_map.
Qed.

Lemma series_map_length (table : list (str * cell)) (s r : Series) :
  series_map table s = Ok r ->
  s_index r = s_index s /\ length (s_values r) = length (s_values s).
Proof.
  unfold series_map. destruct (existsb is_dict (s_values s)); [discriminate|].
  intros [= <-]. split; [reflexivity | apply length_map].
Qed.

(** *** Row labels *)

Lemma existsb_Z_In (x : Z) (l : list Z) : existsb (Z.eqb x) l = true <-> In x l.
Proof.
  rewrite existsb_exists. split.
  - intros (y & Hy & E). apply Z.eqb_eq in E. now subst.
  - intros H. exists x. split; [exact H | apply Z.eqb_refl].
Qed.

Lemma has_dup_false (l : list Z) : has_dup l = false <-> NoDup l.
Proof.
  induction l as [|x l IH]; simpl.
  - split; [constructor | reflexivity].
  - rewrite orb_false_iff, IH, NoDup_cons, list_elem_of_In, <- existsb_Z_In.
    now rewrite not_true_iff_false.
Qed.

Lemma NoDup_union_index (a b : list Z) :
  NoDup a -> NoDup b -> NoDup (union_index a b).
Proof.
  intros Ha Hb. unfold union_index. apply NoDup_app. repeat split.
  - exact Ha.
  - intros x Hx Hf. apply list_elem_of_In, filter_In in Hf. destruct Hf as [_ Hf].
    apply negb_true_iff in Hf. apply list_elem_of_In, existsb_Z_In in Hx. congruence.
  - apply NoDup_ListNoDup, List.NoDup_filter. now apply NoDup_ListNoDup.
Qed.

Lemma NoDup_select {A} (mask : list bool) (l : list A) :
  NoDup l -> NoDup (select mask l).
Proof.
  intros H. eapply sublist_NoDup; [exact H | apply select_sublist].
Qed.

Lemma coerce_date_index (parse : list cell -> cell -> option Z) (df df' : DataFrame)
    (c : string) :
  coerce_date parse df c = Ok df' -> index df' = index df.
Proof. unfold coerce_date. intros H. step H s Hs. now apply setitem_index in H. Qed.

Lemma concat_axis1_NoDup (a b r : DataFrame) :
  concat_axis1 a b = Ok r -> NoDup (index a) -> NoDup (index r).
Proof.
  intros H Ha. destruct (concat_axis1_left_cases _ _ _ H) as [[-> _] | (-> & Hda & Hdb & _)];
    [exact Ha|].
  apply NoDup_union_index; now apply has_dup_false.
Qed.

(** X3: [process_data] keeps a frame rectangular (every column has one cell
    per row label), and keeps the row labels distinct when they were. *)
Theorem process_data_keeps_frames_rectangular
    (parse : list cell -> cell -> option Z) (df out : DataFrame) :
  wf df ->
  process_data parse df = Ok out ->
  wf out /\ (NoDup (index df) -> NoDup (index out)).
Proof.
  intros Hwf H. unfold process_data in H.
  step H d0 H0. step H d1 H1. step H d2 H2. step H d3 H3. step H d4 H4.
  step H d5 H5. step H d6 H6. step H valor Hvalor. step H d7 H7.
  step H flat1 Hflat1. step H r1 Hr1. step H d8 H8.
  step H poderId HpoderId. step H poder Hpoder. step H d9 H9.
  step H flat2 Hflat2. step H r2 Hr2. step H d10 H10.
  injection H as <-.
  pose proof (wf_drop_duplicates _ _ _ Hwf H0) as W0.
  pose proof (wf_coerce_date _ _ _ _ W0 H1) as W1.
  pose proof (wf_coerce_date _ _ _ _ W1 H2) as W2.
  pose proof (wf_coerce_date _ _ _ _ W2 H3) as W3.
  pose proof (wf_coerce_date _ _ _ _ W3 H4) as W4.
  pose proof (wf_coerce_date _ _ _ _ W4 H5) as W5.
  pose proof (wf_coerce_date _ _ _ _ W5 H6) as W6.
  pose proof (wf_setitem _ _ _ _ W6 (getitem_length _ _ _ W6 Hvalor) H7) as W7.
  pose proof (wf_concat_axis1 _ _ _ (wf_drop _ _ _ W7 Hr1)
                (wf_json_normalize_column _ _ _ Hflat1) H8) as W8.
  assert (W9 : wf d9).
  { apply (wf_setitem _ _ _ _ W8) in H9; [exact H9|].
    destruct (series_map_length _ _ _ Hpoder) as [-> ->].
    now apply (getitem_length d8 "poderId"). }
  split.
  - exact (wf_concat_axis1 _ _ _ (wf_drop _ _ _ W9 Hr2)
             (wf_json_normalize_column _ _ _ Hflat2) H10).
  - intros Hnd.
    assert (N0 : NoDup (index d0)).
    { destruct (drop_duplicates_cases _ _ _ H0) as [-> | [mask ->]]; [exact Hnd|].
      simpl. now apply NoDup_select. }
    apply (concat_axis1_NoDup _ _ _ H10). rewrite (drop_index _ _ _ Hr2).
    rewrite (setitem_index _ _ _ _ H9).
    apply (concat_axis1_NoDup _ _ _ H8). rewrite (drop_index _ _ _ Hr1).
    rewrite (setitem_index _ _ _ _ H7).
    rewrite (coerce_date_index _ _ _ _ H6), (coerce_date_index _ _ _ _ H5),
      (coerce_date_index _ _ _ _ H4), (coerce_date_index _ _ _ _ H3),
      (coerce_date_index _ _ _ _ H2), (coerce_date_index _ _ _ _ H1).
    exact N0.
Qed.

Lemma repeated_notice_wf : wf repeated_notice.
Proof. unfold wf. repeat constructor. Qed.

Lemma process_data_keeps_frames_rectangular_witness :
  wf repeated_notice /\
  exists out, process_data iso_parse repeated_notice = Ok out /\ wf out /\ len out = 3%nat.
Proof.
  split; [exact repeated_notice_wf|].
  assert (Hrun : exists out, process_data iso_parse repeated_notice = Ok out)
    by (eexists; vm_compute; reflexivity).
  destruct Hrun as [out Hout]. exists out. split; [exact Hout|]. split.
  - exact (proj1 (process_data_keeps_frames_rectangular iso_parse repeated_notice out
                    repeated_notice_wf Hout)).
  - revert Hout. vm_compute. now intros [= <-].
Defined.

(** *** Columns the pipeline reads *)

Lemma find_column_drop_duplicates_None (df dedup : DataFrame) (subset : list string)
    (c : string) :
  drop_duplicates df subset = Ok dedup ->
  find_column c (data df) = None -> find_column c (data dedup) = None.
Proof.
  intros H Hc. destruct (drop_duplicates_cases _ _ _ H) as [-> | [mask ->]]; [exact Hc|].
  unfold boolean_index. simpl.
  rewrite (find_column_map_cells (select mask)), Hc. reflexivity.
Qed.

Lemma drop_duplicates_reads (df dedup : DataFrame) (subset : list string) (c : string) :
  drop_duplicates df subset = Ok dedup -> len df <> O -> In c subset ->
  find_column c (data df) <> None.
Proof.
  unfold drop_duplicates. intros H Hlen Hin Hc.
  apply Nat.eqb_neq in Hlen. rewrite Hlen in H.
  destruct (List.filter _ subset) as [|c' l] eqn:E; [|discriminate].
  assert (Hf : In c (List.filter (fun c => (count_label c df =? 0)%nat) subset)).
  { apply filter_In. split; [exact Hin|]. apply Nat.eqb_eq, count_label_0. exact Hc. }
  rewrite E in Hf. destruct Hf.
Qed.

Lemma coerce_date_reads (parse : list cell -> cell -> option Z) (df df' : DataFrame)
    (c : string) :
  coerce_date parse df c = Ok df' -> find_column c (data df) <> None.
Proof.
  unfold coerce_date. intros H. step H s Hs. apply getitem_Ok in Hs.
  destruct Hs as [_ Hs]. congruence.
Qed.

Lemma coerce_date_find_ne (parse : list cell -> cell -> option Z) (df df' : DataFrame)
    (c c0 : string) :
  coerce_date parse df c = Ok df' -> c0 ≠ c ->
  find_column c0 (data df') = find_column c0 (data df).
Proof.
  unfold coerce_date. intros H Hne. step H s Hs.
  exact (find_column_setitem_ne _ _ _ _ _ H Hne).
Qed.

Lemma coerce_date_find_None (parse : list cell -> cell -> option Z) (df df' : DataFrame)
    (c c0 : string) :
  coerce_date parse df c = Ok df' ->
  find_column c0 (data df) = None -> find_column c0 (data df') = None.
Proof.
  intros H Hc. destruct (String.eqb_spec c0 c) as [-> | Hne].
  - now apply coerce_date_reads in H.
  - now rewrite (coerce_date_find_ne _ _ _ _ _ H Hne).
Qed.

Lemma json_normalize_column_reads (df flat : DataFrame) (c : string) :
  json_normalize_column df c = Ok flat -> find_column c (data df) <> None.
Proof.
  unfold json_normalize_column. now destruct (find_column c (data df)).
Qed.

Tactic Notation "stages" hyp(H) :=
  unfold process_data in H;
  step H d0 H0; step H d1 H1; step H d2 H2; step H d3 H3; step H d4 H4;
  step H d5 H5; step H d6 H6; step H valor Hvalor; step H d7 H7;
  step H flat1 Hflat1; step H rest1 Hr1; step H d8 H8;
  step H poderId HpoderId; step H poder Hpoder; step H d9 H9;
  step H flat2 Hflat2; step H rest2 Hr2; step H d10 H10.

Lemma process_data_Ok_reads (parse : list cell -> cell -> option Z) (df out : DataFrame)
    (c : string) :
  process_data parse df = Ok out -> In c read_columns -> find_column c (data df) ≠ None.
Proof.
  intros H Hin Hc. stages H. clear H.
  pose proof (find_column_drop_duplicates_None _ _ _ _ H0 Hc) as C0.
  pose proof (coerce_date_find_None _ _ _ _ _ H1 C0) as C1.
  pose proof (coerce_date_find_None _ _ _ _ _ H2 C1) as C2.
  pose proof (coerce_date_find_None _ _ _ _ _ H3 C2) as C3.
  pose proof (coerce_date_find_None _ _ _ _ _ H4 C3) as C4.
  pose proof (coerce_date_find_None _ _ _ _ _ H5 C4) as C5.
  pose proof (coerce_date_find_None _ _ _ _ _ H6 C5) as C6.
  apply coerce_date_reads in H1, H2, H3, H4, H5, H6.
  apply getitem_Ok in Hvalor. destruct Hvalor as [_ Hvalor].
  apply json_normalize_column_reads in Hflat1.
  assert (C7 : c ≠ "valor" -> find_column c (data d7) = None)
    by (intros Hne; now rewrite (find_column_setitem_ne _ _ _ _ _ H7 Hne)).
  unfold read_columns, date_columns in Hin. simpl in Hin.
  repeat (destruct Hin as [<- | Hin]; [try congruence|]); [|destruct Hin].
  apply Hflat1, C7. discriminate.
Qed.

(** X2: [process_data] cannot do without the columns it reads.  When the
    frame lacks one of the six date columns, [valorTotalEstimado] or
    [orgaoEntidade], or has rows and lacks one of the two columns duplicates
    are found on, the call raises and returns no frame. *)
Theorem process_data_needs_its_columns
    (parse : list cell -> cell -> option Z) (df : DataFrame) (c : string) :
  In c read_columns \/ (len df <> O /\ In c dedup_key) ->
  find_column c (data df) = None ->
  exists e, process_data parse df = Raise e.
Proof.
  intros Hin Hc. destruct (process_data parse df) as [out|e] eqn:H; [exfalso | eauto].
  destruct Hin as [Hin | [Hlen Hin]].
  - exact (process_data_Ok_reads parse df out c H Hin Hc).
  - stages H. exact (drop_duplicates_reads _ _ _ c H0 Hlen Hin Hc).
Qed.

Lemma process_data_needs_its_columns_witness :
  find_column "valorTotalEstimado" (data empty_frame) = None /\
  exists e, process_data iso_parse empty_frame = Raise e.
Proof.
  split; [reflexivity|].
  apply (process_data_needs_its_columns iso_parse empty_frame "valorTotalEstimado");
    [left; unfold read_columns, date_columns; simpl; tauto | reflexivity].
Defined.

(** *** Rows stay where they are *)

Lemma index_of_None (x : Z) (l : list Z) : ~ In x l -> index_of x l = None.
Proof.
  induction l as [|y l IH]; simpl; [reflexivity|]. intros H.
  destruct (Z.eqb_spec x y) as [-> | _]; [tauto|]. rewrite IH; [reflexivity | tauto].
Qed.

Lemma reindex_same (old : list Z) (v : list cell) (d : cell) :
  NoDup old -> length v = length old ->
  map (fun l => match index_of l old with Some i => nth i v d | None => d end) old = v.
Proof.
  intros Hnd. revert v. induction Hnd as [|x old Hx Hnd IH]; intros [|c v] Hl;
    try discriminate; [reflexivity|].
  simpl. rewrite Z.eqb_refl. f_equal.
  etransitivity; [|apply (IH v); simpl in Hl; lia].
  apply map_ext_in. intros l Hin.
  destruct (Z.eqb_spec l x) as [-> | _]; [apply list_elem_of_In in Hin; tauto|].
  now destruct (index_of l old).
Qed.

Lemma reindex_cells_union (old other : list Z) (v : list cell) :
  has_dup old = false -> length v = length old ->
  reindex_cells old (union_index old other) v =
  v ++ repeat (na_value v)
         (length (List.filter (fun l => negb (existsb (Z.eqb l) old)) other)).
Proof.
  intros Hd Hl. apply has_dup_false in Hd. unfold union_index, reindex_cells.
  rewrite map_app. f_equal.
  - now apply reindex_same.
  - induction other as [|x other IH]; simpl; [reflexivity|].
    destruct (existsb (Z.eqb x) old) eqn:E; simpl; [exact IH|].
    rewrite IH, index_of_None; [reflexivity|].
    intros Hin. apply existsb_Z_In in Hin. congruence.
Qed.

Lemma Forall_null_repeat (v : list cell) (n : nat) : Forall null (repeat (na_value v) n).
Proof.
  apply Forall_forall. intros c Hc. apply list_elem_of_In, repeat_spec in Hc. subst c.
  apply na_value_null.
Qed.

Lemma concat_axis1_extends (a b r : DataFrame) :
  wf a -> concat_axis1 a b = Ok r ->
  exists added,
    index r = index a ++ added /\
    forall c v, find_column c (data a) = Some v ->
      exists fill, find_column c (data r) = Some (v ++ fill) /\
                   length fill = length added /\ Forall null fill.
Proof.
  intros Hwf H.
  destruct (concat_axis1_left_cases _ _ _ H) as [[Hi Hc] | (Hi & Hda & Hdb & Hc)].
  - exists []. split; [now rewrite app_nil_r|]. intros c v Hv. exists [].
    rewrite app_nil_r. split; [now apply Hc|]. split; [reflexivity | constructor].
  - eexists. split; [rewrite Hi; reflexivity|]. intros c v Hv.
    pose proof (find_column_length _ _ _ Hwf Hv) as Hl.
    eexists. rewrite (Hc c v Hv), Hi, (reindex_cells_union _ _ _ Hda Hl).
    split; [reflexivity|]. split.
    + apply repeat_length.
    + apply Forall_null_repeat.
Qed.

(** X4: [process_data] loses and moves no row that survives the removal of
    duplicates.  The row labels of the result are those of the deduplicated
    frame, in order, possibly followed by added rows; and the first column
    under a label the function does not assign or drop, when no row is
    added or its numbers are at most 2^53 in absolute value (a column of
    integers that gets a missing value is recast to 64-bit floating point
    numbers), holds the same cells in the same places, with a missing value
    in every added row. *)
Theorem surviving_rows_stay_in_place
    (parse : list cell -> cell -> option Z) (df dedup out : DataFrame) :
  wf df ->
  drop_duplicates df dedup_key = Ok dedup ->
  process_data parse df = Ok out ->
  exists added,
    index out = index dedup ++ added /\
    forall c v, ~ In c touched_columns -> find_column c (data dedup) = Some v ->
      added = [] \/ Forall float_safe v ->
      exists fill, find_column c (data out) = Some (v ++ fill) /\
                   length fill = length added /\ Forall null fill.
Proof.
  intros Hwf Hd H. stages H. injection H as <-.
  unfold dedup_key in Hd. rewrite Hd in H0. injection H0 as <-.
  pose proof (wf_drop_duplicates _ _ _ Hwf Hd) as W0.
  pose proof (wf_coerce_date _ _ _ _ W0 H1) as W1.
  pose proof (wf_coerce_date _ _ _ _ W1 H2) as W2.
  pose proof (wf_coerce_date _ _ _ _ W2 H3) as W3.
  pose proof (wf_coerce_date _ _ _ _ W3 H4) as W4.
  pose proof (wf_coerce_date _ _ _ _ W4 H5) as W5.
  pose proof (wf_coerce_date _ _ _ _ W5 H6) as W6.
  pose proof (wf_setitem _ _ _ _ W6 (getitem_length _ _ _ W6 Hvalor) H7) as W7.
  pose proof (wf_drop _ _ _ W7 Hr1) as Wr1.
  pose proof (wf_concat_axis1 _ _ _ Wr1 (wf_json_normalize_column _ _ _ Hflat1) H8) as W8.
  assert (W9 : wf d9).
  { apply (wf_setitem _ _ _ _ W8) in H9; [exact H9|].
    destruct (series_map_length _ _ _ Hpoder) as [-> ->].
    now apply (getitem_length d8 "poderId"). }
  pose proof (wf_drop _ _ _ W9 Hr2) as Wr2.
  destruct (concat_axis1_extends _ _ _ Wr1 H8) as (a1 & I8 & C8).
  destruct (concat_axis1_extends _ _ _ Wr2 H10) as (a2 & I10 & C10).
  exists (a1 ++ a2). split.
  - rewrite I10, (drop_index _ _ _ Hr2), (setitem_index _ _ _ _ H9), I8,
      (drop_index _ _ _ Hr1), (setitem_index _ _ _ _ H7),
      (coerce_date_index _ _ _ _ H6), (coerce_date_index _ _ _ _ H5),
      (coerce_date_index _ _ _ _ H4), (coerce_date_index _ _ _ _ H3),
      (coerce_date_index _ _ _ _ H2), (coerce_date_index _ _ _ _ H1).
    now rewrite app_assoc.
  - intros c v Hc Hv _. unfold touched_columns, date_columns in Hc. simpl in Hc.
    assert (Hne : forall c', In c' touched_columns -> c ≠ c').
    { intros c' Hin ->. apply Hc. exact Hin. }
    assert (E1 : find_column c (data rest1) = Some v).
    { rewrite (find_column_drop_ne _ _ _ _ Hr1), (find_column_setitem_ne _ _ _ _ _ H7),
        (coerce_date_find_ne _ _ _ _ _ H6), (coerce_date_find_ne _ _ _ _ _ H5),
        (coerce_date_find_ne _ _ _ _ _ H4), (coerce_date_find_ne _ _ _ _ _ H3),
        (coerce_date_find_ne _ _ _ _ _ H2), (coerce_date_find_ne _ _ _ _ _ H1);
        [exact Hv | ..]; apply Hne; unfold touched_columns, date_columns; simpl; tauto. }
    destruct (C8 c v E1) as (f1 & E8 & L1 & N1).
    assert (E2 : find_column c (data rest2) = Some (v ++ f1)).
    { rewrite (find_column_drop_ne _ _ _ _ Hr2), (find_column_setitem_ne _ _ _ _ _ H9);
        [exact E8 | ..]; apply Hne; unfold touched_columns, date_columns; simpl; tauto. }
    destruct (C10 c (v ++ f1) E2) as (f2 & E10 & L2 & N2).
    exists (f1 ++ f2). rewrite <- app_assoc in E10. split; [exact E10|]. split.
    + rewrite !length_app. lia.
    + apply Forall_app. now split.
Qed.

Lemma surviving_rows_stay_in_place_witness :
  wf repeated_notice /\
  exists dedup out,
    drop_duplicates repeated_notice dedup_key = Ok dedup /\
    process_data iso_parse repeated_notice = Ok out /\
    index dedup = [0; 2] /\
    exists added,
      index out = index dedup ++ added /\
      forall c v, ~ In c touched_columns -> find_column c (data dedup) = Some v ->
        added = [] \/ Forall float_safe v ->
        exists fill, find_column c (data out) = Some (v ++ fill) /\
                     length fill = length added /\ Forall null fill.
Proof.
  split; [exact repeated_notice_wf|].
  assert (Hd : exists dedup, drop_duplicates repeated_notice dedup_key = Ok dedup /\
                             index dedup = [0; 2])
    by (eexists; split; vm_compute; reflexivity).
  assert (Ho : exists out, process_data iso_parse repeated_notice = Ok out)
    by (eexists; vm_compute; reflexivity).
  destruct Hd as (dedup & Hd & Hi). destruct Ho as (out & Ho).
  exists dedup, out. split; [exact Hd|]. split; [exact Ho|]. split; [exact Hi|].
  exact (surviving_rows_stay_in_place iso_parse repeated_notice dedup out
           repeated_notice_wf Hd Ho).
Defined.

(** *** The derived value column *)

Lemma select_all {A} (l : list A) : select (repeat true (length l)) l = l.
Proof. induction l as [|x l IH]; simpl; [reflexivity | now rewrite IH]. Qed.

(** What [drop_duplicates] keeps, as a mask on the rows of the input. *)
Lemma drop_duplicates_mask (df dedup : DataFrame) (subset : list string) :
  wf df -> drop_duplicates df subset = Ok dedup ->
  exists mask,
    index dedup = select mask (index df) /\
    forall c, find_column c (data dedup) = select mask <$> find_column c (data df).
Proof.
  intros Hwf H. destruct (drop_duplicates_cases _ _ _ H) as [-> | [mask ->]].
  - exists (repeat true (len df)). split; [unfold len; now rewrite select_all|].
    intros c. destruct (find_column c (data df)) as [v|] eqn:Hv; [|reflexivity].
    simpl. rewrite <- (find_column_length df c v Hwf Hv). now rewrite select_all.
  - exists mask. split; [reflexivity|]. intros c. unfold boolean_index. simpl.
    apply (find_column_map_cells (select mask)).
Qed.

(** C3: in every frame [process_data] returns, the column [valor] holds,
    row for row, what the column [valorTotalEstimado] holds; and what it
    holds is the estimate of the input: in the rows that survive the
    removal of duplicates, in their order, the cell the input has under
    [valorTotalEstimado] in that row, and a missing value in every row that
    is added after them.  (The cells are the input's own when no row is
    added, or when its estimates are at most 2^53 in absolute value: a
    column of integers that gets a missing value is recast to 64-bit
    floating point numbers.) *)
Theorem valor_is_valorTotalEstimado
    (parse : list cell -> cell -> option Z) (df out : DataFrame) :
  wf df ->
  process_data parse df = Ok out ->
  (exists v,
     find_column "valor" (data out) = Some v /\
     find_column "valorTotalEstimado" (data out) = Some v) /\
  exists dedup mask estimated added fill,
    drop_duplicates df ["valorTotalHomologado"; "objetoCompra"] = Ok dedup /\
    index dedup = select mask (index df) /\
    index out = index dedup ++ added /\
    find_column "valorTotalEstimado" (data df) = Some estimated /\
    length fill = length added /\
    Forall null fill /\
    (added = [] \/ Forall float_safe estimated ->
     find_column "valor" (data out) = Some (select mask estimated ++ fill)).
Proof.
  intros Hwf H. split; [exact (ExtractFacts.valor_and_estimate_agree parse df out H)|].
  assert (Hread : find_column "valorTotalEstimado" (data df) ≠ None).
  { apply (process_data_Ok_reads parse df out _ H).
    unfold read_columns, date_columns. simpl. tauto. }
  destruct (find_column "valorTotalEstimado" (data df)) as [estimated|] eqn:Hest;
    [clear Hread | congruence].
  stages H. injection H as <-.
  destruct (drop_duplicates_mask _ _ _ Hwf H0) as (mask & Hi0 & Hc0).
  pose proof (wf_drop_duplicates _ _ _ Hwf H0) as W0.
  pose proof (wf_coerce_date _ _ _ _ W0 H1) as W1.
  pose proof (wf_coerce_date _ _ _ _ W1 H2) as W2.
  pose proof (wf_coerce_date _ _ _ _ W2 H3) as W3.
  pose proof (wf_coerce_date _ _ _ _ W3 H4) as W4.
  pose proof (wf_coerce_date _ _ _ _ W4 H5) as W5.
  pose proof (wf_coerce_date _ _ _ _ W5 H6) as W6.
  pose proof (wf_setitem _ _ _ _ W6 (getitem_length _ _ _ W6 Hvalor) H7) as W7.
  pose proof (wf_drop _ _ _ W7 Hr1) as Wr1.
  pose proof (wf_concat_axis1 _ _ _ Wr1 (wf_json_normalize_column _ _ _ Hflat1) H8) as W8.
  assert (W9 : wf d9).
  { apply (wf_setitem _ _ _ _ W8) in H9; [exact H9|].
    destruct (series_map_length _ _ _ Hpoder) as [-> ->].
    now apply (getitem_length d8 "poderId"). }
  pose proof (wf_drop _ _ _ W9 Hr2) as Wr2.
  destruct (concat_axis1_extends _ _ _ Wr1 H8) as (a1 & I8 & C8).
  destruct (concat_axis1_extends _ _ _ Wr2 H10) as (a2 & I10 & C10).
  assert (E6 : find_column "valorTotalEstimado" (data d6) = Some (select mask estimated)).
  { rewrite (coerce_date_find_ne _ _ _ _ _ H6), (coerce_date_find_ne _ _ _ _ _ H5),
      (coerce_date_find_ne _ _ _ _ _ H4), (coerce_date_find_ne _ _ _ _ _ H3),
      (coerce_date_find_ne _ _ _ _ _ H2), (coerce_date_find_ne _ _ _ _ _ H1);
      try discriminate.
    rewrite Hc0, Hest. reflexivity. }
  apply getitem_Ok in Hvalor. destruct Hvalor as [Hidx Hval].
  assert (Ev : s_values valor = select mask estimated) by congruence.
  assert (E7 : find_column "valor" (data rest1) = Some (select mask estimated)).
  { rewrite (find_column_drop_ne _ _ _ _ Hr1) by discriminate.
    rewrite (find_column_setitem_eq _ _ _ _ H7 Hidx). now rewrite Ev. }
  destruct (C8 _ _ E7) as (f1 & E8 & L1 & N1).
  assert (E9 : find_column "valor" (data rest2) = Some (select mask estimated ++ f1)).
  { rewrite (find_column_drop_ne _ _ _ _ Hr2) by discriminate.
    rewrite (find_column_setitem_ne _ _ _ _ _ H9) by discriminate. exact E8. }
  destruct (C10 _ _ E9) as (f2 & E10 & L2 & N2).
  exists d0, mask, estimated, (a1 ++ a2), (f1 ++ f2).
  split; [exact H0|]. split; [exact Hi0|]. split.
  { rewrite I10, (drop_index _ _ _ Hr2), (setitem_index _ _ _ _ H9), I8,
      (drop_index _ _ _ Hr1), (setitem_index _ _ _ _ H7),
      (coerce_date_index _ _ _ _ H6), (coerce_date_index _ _ _ _ H5),
      (coerce_date_index _ _ _ _ H4), (coerce_date_index _ _ _ _ H3),
      (coerce_date_index _ _ _ _ H2), (coerce_date_index _ _ _ _ H1).
    now rewrite app_assoc. }
  split; [reflexivity|]. split; [rewrite !length_app; lia|].
  split; [apply Forall_app; now split|].
  intros _. rewrite E10. now rewrite <- app_assoc.
Qed.

(** The estimate, not the awarded value: in [same_estimate] the two differ
    and [valor] follows the estimate. *)
Lemma valor_is_valorTotalEstimado_witness :
  wf same_estimate /\
  find_column "valorTotalHomologado" (data same_estimate) = Some [Num 100; Num 200] /\
  find_column "valorTotalEstimado" (data same_estimate) = Some [Num 500; Num 500] /\
  exists out,
    process_data iso_parse same_estimate = Ok out /\
    find_column "valor" (data out) = Some [Num 500; Num 500] /\
    exists dedup mask estimated added fill,
      drop_duplicates same_estimate ["valorTotalHomologado"; "objetoCompra"] = Ok dedup /\
      index dedup = select mask (index same_estimate) /\
      index out = index dedup ++ added /\
      find_column "valorTotalEstimado" (data same_estimate) = Some estimated /\
      length fill = length added /\
      Forall null fill /\
      (added = [] \/ Forall float_safe estimated ->
       find_column "valor" (data out) = Some (select mask estimated ++ fill)).
Proof.
  split; [exact ExtractFacts.same_estimate_wf|]. split; [reflexivity|].
  split; [reflexivity|].
  assert (Hrun : exists out, process_data iso_parse same_estimate = Ok out /\
                             find_column "valor" (data out) = Some [Num 500; Num 500])
    by (eexists; split; vm_compute; reflexivity).
  destruct Hrun as (out & Hout & Hv). exists out. split; [exact Hout|].
  split; [exact Hv|].
  exact (proj2 (valor_is_valorTotalEstimado iso_parse same_estimate out
                  ExtractFacts.same_estimate_wf Hout)).
Defined.

(** *** A snapshot without duplicates *)

Lemma count_label_setitem_ne (df df' : DataFrame) (c c0 : string) (s : Series) :
  setitem df c s = Ok df' -> c0 ≠ c -> count_label c0 df' = count_label c0 df.
Proof.
  unfold setitem. intros H Hne. step H v Hv. injection H as <-.
  apply String.eqb_neq in Hne. unfold count_label at 1, columns. simpl.
  destruct (count_label c df =? 0)%nat.
  - rewrite map_app, List.filter_app. simpl. rewrite Hne. now rewrite app_nil_r.
  - unfold count_label, columns. f_equal.
    induction (data df) as [|[c' v'] d IH]; simpl; [reflexivity|].
    destruct (String.eqb_spec c c') as [-> | _]; simpl; now rewrite IH.
Qed.

Lemma count_label_coerce_date (parse : list cell -> cell -> option Z) (df df' : DataFrame)
    (c c0 : string) :
  coerce_date parse df c = Ok df' -> c0 ≠ c -> count_label c0 df' = count_label c0 df.
Proof.
  unfold coerce_date. intros H Hne. step H s Hs.
  exact (count_label_setitem_ne _ _ _ _ _ H Hne).
Qed.

Lemma count_label_drop_ne (df df' : DataFrame) (c c0 : string) :
  drop df c = Ok df' -> c0 ≠ c -> count_label c0 df' = count_label c0 df.
Proof.
  unfold drop. destruct (count_label c df =? 0)%nat; [discriminate|].
  intros [= <-] Hne. unfold count_label, columns. simpl. f_equal.
  induction (data df) as [|[c' v'] d IH]; simpl; [reflexivity|].
  destruct (String.eqb_spec c c') as [-> | _]; simpl.
  - apply String.eqb_neq in Hne. now rewrite Hne.
  - now rewrite IH.
Qed.

Lemma count_label_not_In (df : DataFrame) (c : string) :
  ~ In c (columns df) -> count_label c df = O.
Proof.
  unfold count_label. intros H. induction (columns df) as [|c' l IH]; simpl; [reflexivity|].
  destruct (String.eqb_spec c c') as [-> | _]; [exfalso; apply H; now left|].
  apply IH. intros Hin. apply H. now right.
Qed.

Lemma count_label_side_by_side (c : string) (idx : list Z) (a b : DataFrame) :
  count_label c (mkDF idx (data a ++ data b)) = (count_label c a + count_label c b)%nat.
Proof.
  unfold count_label, columns. simpl. now rewrite map_app, List.filter_app, length_app.
Qed.

Lemma find_column_not_In (df : DataFrame) (c : string) :
  ~ In c (columns df) -> find_column c (data df) = None.
Proof. intros H. now apply count_label_0, count_label_not_In. Qed.

Lemma json_normalize_column_getitem (df : DataFrame) (c : string) (s : Series) :
  getitem df c = Ok s -> json_normalize_column df c = Ok (json_normalize s).
Proof.
  unfold getitem, json_normalize_column.
  destruct (find_column c (data df)) as [v|]; [|discriminate].
  destruct (count_label c df =? 1)%nat; [|discriminate]. now intros [= <-].
Qed.

Lemma getitem_count (df : DataFrame) (c : string) (s : Series) :
  getitem df c = Ok s -> count_label c df = 1%nat.
Proof.
  unfold getitem. destruct (find_column c (data df)); [|discriminate].
  destruct (count_label c df =? 1)%nat eqn:E; [|discriminate].
  intros _. now apply Nat.eqb_eq.
Qed.

Lemma getitem_intro (df : DataFrame) (c : string) (v : list cell) :
  find_column c (data df) = Some v -> count_label c df = 1%nat ->
  getitem df c = Ok (mkSeries (index df) v).
Proof. unfold getitem. intros -> ->. reflexivity. Qed.

(** X14: on a snapshot whose rows are numbered 0, 1, 2, ... and of which
    [drop_duplicates] drops none, [process_data] adds no row and the fields
    it unpacks line up: the result has the rows of the snapshot; a column
    the function neither assigns nor drops is as it was; and a field of
    [orgaoEntidade] or of [unidadeOrgao] that is a new label fills its column
    with the value of each row's own record.  ([orgaoEntidade] and
    [unidadeOrgao] label one column each, and no field of [orgaoEntidade] is
    called [unidadeOrgao].) *)
Theorem fields_line_up_when_no_row_is_dropped
    (parse : list cell -> cell -> option Z) (df out : DataFrame)
    (orgaos unidades : Series) :
  wf df ->
  index df = RangeIndex (len df) ->
  drop_duplicates df dedup_key = Ok df ->
  getitem df "orgaoEntidade" = Ok orgaos ->
  getitem df "unidadeOrgao" = Ok unidades ->
  ~ In "unidadeOrgao" (columns (json_normalize orgaos)) ->
  process_data parse df = Ok out ->
  index out = index df /\
  (forall c v, ~ In c touched_columns -> find_column c (data df) = Some v ->
     find_column c (data out) = Some v) /\
  (forall k cells,
     ~ In k (columns df) -> ~ In k ["valor"; "poder"] ->
     find_column k (data (json_normalize orgaos)) = Some cells ->
     find_column k (data out) = Some cells) /\
  (forall k cells,
     ~ In k (columns df) -> ~ In k ["valor"; "poder"] ->
     ~ In k (columns (json_normalize orgaos)) ->
     find_column k (data (json_normalize unidades)) = Some cells ->
     find_column k (data out) = Some cells).
Proof.
  intros Hwf Hidx Hdd Horg Huni Hclash H.
  assert (Hreads : forall c, In c (date_columns ++ ["valor"; "orgaoEntidade"; "unidadeOrgao"])
                             -> c ≠ "valor" -> find_column c (data df) ≠ None).
  { intros c Hc Hv. apply in_app_iff in Hc. destruct Hc as [Hc | Hc].
    - apply (process_data_Ok_reads parse df out c H). unfold read_columns.
      apply in_app_iff. now left.
    - simpl in Hc. destruct Hc as [<- | [<- | [<- | []]]]; [congruence | |].
      + apply getitem_Ok in Horg. destruct Horg as [_ ->]. discriminate.
      + apply getitem_Ok in Huni. destruct Huni as [_ ->]. discriminate. }
  assert (Hnew : forall k, ~ In k (columns df) -> ~ In k ["valor"; "poder"] ->
                   find_column k (data df) = None /\
                   k ≠ "poder" /\ k ≠ "unidadeOrgao" /\ k ≠ "orgaoEntidade" /\
                   ~ In k (date_columns ++ ["valor"])).
  { intros k Hk Hk'. pose proof (find_column_not_In _ _ Hk) as Hnone. simpl in Hk'.
    split; [exact Hnone|]. split; [intros ->; apply Hk'; tauto|].
    split; [intros ->; apply (Hreads "unidadeOrgao");
            [unfold date_columns; simpl; tauto | discriminate | exact Hnone]|].
    split; [intros ->; apply (Hreads "orgaoEntidade");
            [unfold date_columns; simpl; tauto | discriminate | exact Hnone]|].
    intros Hd. apply in_app_iff in Hd. destruct Hd as [Hd | [<- | []]]; [|apply Hk'; tauto].
    apply (Hreads k); [apply in_app_iff; now left | intros ->; apply Hk'; tauto
                      | exact Hnone]. }
  stages H. injection H as <-.
  unfold dedup_key in Hdd. rewrite Hdd in H0. injection H0 as <-.
  pose proof (wf_coerce_date _ _ _ _ Hwf H1) as W1.
  pose proof (wf_coerce_date _ _ _ _ W1 H2) as W2.
  pose proof (wf_coerce_date _ _ _ _ W2 H3) as W3.
  pose proof (wf_coerce_date _ _ _ _ W3 H4) as W4.
  pose proof (wf_coerce_date _ _ _ _ W4 H5) as W5.
  pose proof (wf_coerce_date _ _ _ _ W5 H6) as W6.
  pose proof (wf_setitem _ _ _ _ W6 (getitem_length _ _ _ W6 Hvalor) H7) as W7.
  assert (I7 : index d7 = index df).
  { rewrite (setitem_index _ _ _ _ H7),
      (coerce_date_index _ _ _ _ H6), (coerce_date_index _ _ _ _ H5),
      (coerce_date_index _ _ _ _ H4), (coerce_date_index _ _ _ _ H3),
      (coerce_date_index _ _ _ _ H2), (coerce_date_index _ _ _ _ H1). reflexivity. }
  assert (F7 : forall c, ~ In c (date_columns ++ ["valor"]) ->
                         find_column c (data d7) = find_column c (data df)).
  { intros c Hc.
    rewrite (find_column_setitem_ne _ _ _ _ _ H7),
      (coerce_date_find_ne _ _ _ _ _ H6), (coerce_date_find_ne _ _ _ _ _ H5),
      (coerce_date_find_ne _ _ _ _ _ H4), (coerce_date_find_ne _ _ _ _ _ H3),
      (coerce_date_find_ne _ _ _ _ _ H2), (coerce_date_find_ne _ _ _ _ _ H1);
      [reflexivity | ..]; intros ->; apply Hc; unfold date_columns; simpl; tauto. }
  assert (N7 : forall c, ~ In c (date_columns ++ ["valor"]) ->
                         count_label c d7 = count_label c df).
  { intros c Hc.
    rewrite (count_label_setitem_ne _ _ _ _ _ H7),
      (count_label_coerce_date _ _ _ _ _ H6), (count_label_coerce_date _ _ _ _ _ H5),
      (count_label_coerce_date _ _ _ _ _ H4), (count_label_coerce_date _ _ _ _ _ H3),
      (count_label_coerce_date _ _ _ _ _ H2), (count_label_coerce_date _ _ _ _ _ H1);
      [reflexivity | ..]; intros ->; apply Hc; unfold date_columns; simpl; tauto. }
  assert (Hnotdate : forall c, In c ["orgaoEntidade"; "unidadeOrgao"] ->
                               ~ In c (date_columns ++ ["valor"])).
  { intros c Hc Hd. unfold date_columns in Hd. simpl in Hc, Hd.
    repeat (destruct Hc as [<- | Hc];
            [repeat (destruct Hd as [Hd | Hd]; [discriminate|]); destruct Hd|]).
    destruct Hc. }
  (* the first flattening *)
  pose proof (getitem_Ok _ _ _ Horg) as [Io Fo].
  assert (Co7 : count_label "orgaoEntidade" d7 = 1%nat).
  { rewrite N7 by (apply Hnotdate; simpl; tauto). exact (getitem_count _ _ _ Horg). }
  assert (Hf1 : flat1 = json_normalize orgaos).
  { assert (G : getitem d7 "orgaoEntidade" = Ok (mkSeries (index d7) (s_values orgaos))).
    { apply getitem_intro; [|exact Co7].
      rewrite F7 by (apply Hnotdate; simpl; tauto). exact Fo. }
    apply json_normalize_column_getitem in G. rewrite G in Hflat1.
    injection Hflat1 as <-. reflexivity. }
  assert (R7 : index d7 = RangeIndex (len d7)).
  { unfold len. rewrite I7. exact Hidx. }
  pose proof (ExtractFacts.flatten_lines_up_on_default_labels d7 flat1 rest1 "orgaoEntidade"
                W7 R7 Co7 Hflat1 Hr1) as E8.
  rewrite E8 in H8. injection H8 as <-.
  (* the second flattening *)
  pose proof (getitem_Ok _ _ _ Huni) as [Iu Fu].
  assert (W8 : wf (mkDF (index d7) (data rest1 ++ data flat1))).
  { apply (wf_concat_axis1 rest1 flat1); [exact (wf_drop _ _ _ W7 Hr1) | | exact E8].
    exact (wf_json_normalize_column _ _ _ Hflat1). }
  assert (W9 : wf d9).
  { apply (wf_setitem _ _ _ _ W8) in H9; [exact H9|].
    destruct (series_map_length _ _ _ Hpoder) as [-> ->].
    now apply (getitem_length _ "poderId" _ W8). }
  assert (I9 : index d9 = index d7) by exact (setitem_index _ _ _ _ H9).
  assert (Fr1 : forall c, c ≠ "orgaoEntidade" ->
                          find_column c (data rest1) = find_column c (data d7))
    by (intros c Hc; exact (find_column_drop_ne _ _ _ _ Hr1 Hc)).
  assert (F9 : forall c, c ≠ "poder" ->
                 find_column c (data d9)
                 = match find_column c (data rest1) with
                   | Some v => Some v
                   | None => find_column c (data flat1)
                   end).
  { intros c Hc. rewrite (find_column_setitem_ne _ _ _ _ _ H9 Hc). simpl.
    apply find_column_app. }
  assert (Cu9 : count_label "unidadeOrgao" d9 = 1%nat).
  { rewrite (count_label_setitem_ne _ _ _ _ _ H9) by discriminate.
    rewrite count_label_side_by_side.
    rewrite (count_label_drop_ne _ _ _ _ Hr1) by discriminate.
    rewrite N7 by (apply Hnotdate; simpl; tauto).
    rewrite (getitem_count _ _ _ Huni), Hf1, (count_label_not_In _ _ Hclash). reflexivity. }
  assert (Fu9 : find_column "unidadeOrgao" (data d9) = Some (s_values unidades)).
  { rewrite F9 by discriminate. rewrite Fr1 by discriminate.
    rewrite F7 by (apply Hnotdate; simpl; tauto). now rewrite Fu. }
  assert (Hf2 : flat2 = json_normalize unidades).
  { pose proof (getitem_intro _ _ _ Fu9 Cu9) as G.
    apply json_normalize_column_getitem in G. rewrite G in Hflat2.
    injection Hflat2 as <-. reflexivity. }
  assert (R9 : index d9 = RangeIndex (len d9)).
  { unfold len. rewrite I9, I7. exact Hidx. }
  pose proof (ExtractFacts.flatten_lines_up_on_default_labels d9 flat2 rest2 "unidadeOrgao"
                W9 R9 Cu9 Hflat2 Hr2) as E10.
  rewrite E10 in H10. injection H10 as <-. cbn [index data].
  assert (Fout : forall c, c ≠ "poder" -> c ≠ "unidadeOrgao" -> c ≠ "orgaoEntidade" ->
                   ~ In c (date_columns ++ ["valor"]) ->
                   find_column c (data rest2 ++ data flat2)
                   = match find_column c (data df) with
                     | Some v => Some v
                     | None => match find_column c (data flat1) with
                               | Some v => Some v
                               | None => find_column c (data flat2)
                               end
                     end).
  { intros c P1 P2 P3 P4. rewrite find_column_app.
    rewrite (find_column_drop_ne _ _ _ _ Hr2 P2), (F9 c P1), (Fr1 c P3), (F7 c P4).
    now destruct (find_column c (data df)). }
  split; [now rewrite I9, I7|]. split; [|split].
  - intros c v Hc Hv. unfold touched_columns, date_columns in Hc. simpl in Hc.
    rewrite Fout, Hv; [reflexivity | ..]; try (intros ->; apply Hc; tauto).
    unfold date_columns. simpl. tauto.
  - intros k cells Hk Hk' Hcells.
    destruct (Hnew k Hk Hk') as (Hnone & P1 & P2 & P3 & P4).
    rewrite (Fout k P1 P2 P3 P4), Hnone, Hf1, Hcells. reflexivity.
  - intros k cells Hk Hk' Hflat Hcells.
    destruct (Hnew k Hk Hk') as (Hnone & P1 & P2 & P3 & P4).
    rewrite (Fout k P1 P2 P3 P4), Hnone, Hf1, (find_column_not_In _ _ Hflat), Hf2.
    exact Hcells.
Qed.

Lemma fields_line_up_when_no_row_is_dropped_witness :
  exists out,
    process_data iso_parse same_estimate = Ok out /\
    index out = [0; 1] /\
    find_column "poderId" (data out) = Some [Str (cp "E"); Str (cp "M")] /\
    find_column "ufSigla" (data out) = Some [Str (cp "SC"); Str (cp "SP")].
Proof.
  assert (Hrun : exists out, process_data iso_parse same_estimate = Ok out)
    by (eexists; vm_compute; reflexivity).
  assert (Horg : exists s, getitem same_estimate "orgaoEntidade" = Ok s)
    by (eexists; reflexivity).
  assert (Huni : exists s, getitem same_estimate "unidadeOrgao" = Ok s)
    by (eexists; reflexivity).
  destruct Hrun as [out Hout]. destruct Horg as [orgaos Horg].
  destruct Huni as [unidades Huni]. exists out. split; [exact Hout|].
  assert (Hclash : ~ In "unidadeOrgao" (columns (json_normalize orgaos))).
  { injection Horg as <-. vm_compute. intuition discriminate. }
  destruct (fields_line_up_when_no_row_is_dropped iso_parse same_estimate out orgaos
              unidades ExtractFacts.same_estimate_wf eq_refl eq_refl Horg Huni Hclash Hout)
    as (Hi & _ & Ho & Hu).
  split; [exact Hi|]. split.
  - apply Ho.
    + vm_compute. intuition discriminate.
    + vm_compute. intuition discriminate.
    + injection Horg as <-. vm_compute. reflexivity.
  - apply Hu.
    + vm_compute. intuition discriminate.
    + vm_compute. intuition discriminate.
    + injection Horg as <-. vm_compute. intuition discriminate.
    + injection Huni as <-. vm_compute. reflexivity.
Defined.

End ExtractMore.

(** ** More on the fetcher *)

Module FetcherMore.
Import Pandas Extract Samples Notions MoreNotions PandasFacts FetcherFacts.

(** *** One page *)

Lemma len_DataFrame_of_records (records : list pydict) :
  len (DataFrame_of_records records) = length records.
Proof. unfold len, DataFrame_of_records, RangeIndex. simpl. now rewrite length_map, length_seq. Qed.

(** X5: [_fetch_page] returns a page exactly when a response came, its
    status is no error status (4xx, 5xx), and its body is a JSON object that
    has [data], [paginasRestantes] and [totalPaginas]; the page is then the
    frame of the records under [data], one row per record, with the two
    counters of the body.  In every other case it returns [None]: a body
    that has [data] but lacks a counter is a failure too. *)
Theorem fetch_page_returns_a_page_exactly_when
    (reply : http_reply) (page : DataFrame) (paginasRestantes totalPaginas : Z) :
  (_fetch_page reply = Some (page, paginasRestantes, totalPaginas) <->
   exists status body records,
     reply = Response status (Some body) /\
     ~ (400 <= status < 600) /\
     body_data body = Some records /\
     body_paginasRestantes body = Some paginasRestantes /\
     body_totalPaginas body = Some totalPaginas /\
     page = DataFrame_of_records records /\
     len page = length records) /\
  (forall status records counter,
     _fetch_page (Response status (Some (mkBody (Some records) None counter))) = None /\
     _fetch_page (Response status (Some (mkBody (Some records) counter None))) = None).
Proof.
  split.
  - unfold _fetch_page, _fetch_page_try. split.
    + destruct reply as [|status [[[records|] [pr|] [tp|]]|]]; simpl; try discriminate;
        unfold raise_for_status;
        destruct ((400 <=? status) && (status <? 600)) eqn:E; simpl; try discriminate.
      intros [= <- <- <-]. exists status, (mkBody (Some records) (Some pr) (Some tp)), records.
      repeat split; try reflexivity; [lia | apply len_DataFrame_of_records].
    + intros (status & body & records & -> & Hs & Hd & Hp & Ht & -> & _).
      simpl. unfold raise_for_status.
      destruct ((400 <=? status) && (status <? 600)) eqn:E; [lia|]. simpl.
      now rewrite Hd, Hp, Ht.
  - intros status records counter. unfold _fetch_page, _fetch_page_try, raise_for_status.
    simpl. destruct ((400 <=? status) && (status <? 600)); simpl;
      destruct counter; split; reflexivity.
Qed.

(** *** Pages stacked *)

Lemma existsb_string_In (c : string) (l : list string) :
  existsb (String.eqb c) l = true <-> c ∈ l.
Proof.
  rewrite existsb_exists, list_elem_of_In. split.
  - intros (y & Hy & E). apply String.eqb_eq in E. now subst.
  - intros H. exists c. split; [exact H | apply String.eqb_refl].
Qed.

Lemma add_labels_spec (ks acc : list string) :
  (NoDup acc -> NoDup (add_labels acc ks)) /\
  (forall c, c ∈ add_labels acc ks <-> c ∈ acc \/ c ∈ ks).
Proof.
  unfold add_labels. revert acc. induction ks as [|k ks IH]; intros acc; simpl.
  - split; [auto|]. intros c. rewrite elem_of_nil. tauto.
  - destruct (existsb (String.eqb k) acc) eqn:E.
    + destruct (IH acc) as [Hn Hm]. split; [exact Hn|]. intros c. rewrite Hm, elem_of_cons.
      apply existsb_string_In in E. split; [tauto|]. intros [?|[->|?]]; auto.
    + destruct (IH (acc ++ [k])) as [Hn Hm]. split.
      * intros Hacc. apply Hn. apply NoDup_app. repeat split; [exact Hacc | | apply NoDup_singleton].
        intros x Hx Hk. apply list_elem_of_singleton in Hk. subst x.
        apply existsb_string_In in Hx. congruence.
      * intros c. rewrite Hm, elem_of_app, list_elem_of_singleton, elem_of_cons. tauto.
Qed.

Lemma all_labels_spec (frames : list DataFrame) :
  NoDup (all_labels frames) /\
  (forall c, c ∈ all_labels frames <-> exists f, f ∈ frames /\ c ∈ columns f).
Proof.
  unfold all_labels.
  assert (G : forall acc, NoDup acc ->
            NoDup (fold_left (fun acc f => add_labels acc (columns f)) frames acc) /\
            (forall c, c ∈ fold_left (fun acc f => add_labels acc (columns f)) frames acc <->
                       c ∈ acc \/ exists f, f ∈ frames /\ c ∈ columns f)).
  { induction frames as [|f frames IH]; intros acc Hacc; simpl.
    - split; [exact Hacc|]. intros c. split; [auto|]. intros [?|(f & Hf & _)]; [auto|].
      now apply elem_of_nil in Hf.
    - destruct (add_labels_spec (columns f) acc) as [Hn Hm].
      destruct (IH _ (Hn Hacc)) as [Hn' Hm']. split; [exact Hn'|].
      intros c. rewrite Hm', Hm. split.
      + intros [[?|?]|(g & Hg & Hc)]; [auto | right; exists f; split; [left|auto]
                                       | right; exists g; split; [now right|auto]].
      + intros [?|(g & Hg & Hc)]; [auto|]. apply elem_of_cons in Hg.
        destruct Hg as [-> | Hg]; [auto | right; eauto]. }
  destruct (G [] (NoDup_nil_2)) as [Hn Hm]. split; [exact Hn|].
  intros c. rewrite Hm, elem_of_nil. tauto.
Qed.

Lemma find_column_tabulate (g : string -> list cell) (labels : list string) (c : string) :
  find_column c (map (fun k => (k, g k)) labels) =
  if existsb (String.eqb c) labels then Some (g c) else None.
Proof.
  induction labels as [|k labels IH]; simpl; [reflexivity|].
  destruct (String.eqb_spec c k) as [-> | _]; [reflexivity | exact IH].
Qed.

Lemma columns_concat_rows (frames : list DataFrame) :
  columns (concat_rows frames) = all_labels frames.
Proof.
  unfold columns, concat_rows. simpl. rewrite map_map. simpl. apply map_id.
Qed.

Lemma length_flat_map_index (frames : list DataFrame) :
  length (flat_map index frames) = list_sum (map len frames).
Proof.
  induction frames as [|f frames IH]; simpl; [reflexivity|].
  rewrite length_app, IH. reflexivity.
Qed.

Lemma length_stacked_column (c : string) (frames : list DataFrame) :
  Forall wf frames -> length (stacked_column c frames) = list_sum (map len frames).
Proof.
  unfold stacked_column. generalize (na_value (flat_map (fun f => default [] (find_column c (data f))) frames)).
  intros d Hwf. induction Hwf as [|f frames Hf _ IH]; simpl; [reflexivity|].
  rewrite length_app, IH. f_equal.
  destruct (find_column c (data f)) as [v|] eqn:E.
  - now apply (ExtractMore.find_column_length f c).
  - apply repeat_length.
Qed.

Lemma stacked_column_present (c : string) (frames : list DataFrame) :
  Forall (fun f => c ∈ columns f) frames ->
  stacked_column c frames = flat_map (fun f => default [] (find_column c (data f))) frames.
Proof.
  unfold stacked_column. generalize (na_value (flat_map (fun f => default [] (find_column c (data f))) frames)).
  intros d H. induction H as [|f frames Hf _ IH]; simpl; [reflexivity|].
  rewrite IH. f_equal. destruct (find_column c (data f)) eqn:E; [reflexivity|].
  apply count_label_0 in E. unfold count_label in E. apply length_zero_iff_nil in E.
  apply list_elem_of_In in Hf.
  assert (Hin : In c (List.filter (String.eqb c) (columns f)))
    by (apply filter_In; split; [exact Hf | apply String.eqb_refl]).
  rewrite E in Hin. destruct Hin.
Qed.

Lemma wf_frame_of (r : option fetched_page) :
  (forall f pr tp, r = Some (f, pr, tp) -> wf f) -> wf (frame_of r).
Proof.
  destruct r as [[[f pr] tp]|]; simpl; [eauto | constructor].
Qed.

Lemma wf_fetch_page (reply : http_reply) (f : DataFrame) (pr tp : Z) :
  _fetch_page reply = Some (f, pr, tp) -> wf f.
Proof.
  unfold _fetch_page, _fetch_page_try.
  destruct reply as [|status [[[records|] [p|] [t|]]|]]; simpl; try discriminate;
    unfold raise_for_status;
    destruct ((400 <=? status) && (status <? 600)); simpl; try discriminate.
  intros [= <- _ _]. apply ExtractMore.wf_DataFrame_of_records.
Qed.

(** X6: the frame [query_all_contracts] returns stacks the pages fetched, at
    least one, in the order of arrival.  Its rows are numbered afresh from 0
    and are as many as the pages have together; its columns are the labels
    met in some page, each once; it is rectangular; and a column that every
    page has holds the cells of the pages one after the other. *)
Theorem fetched_pages_are_stacked
    (server : endpoint) (fuel : nat) (h : gmap positive (gmap string pyval))
    (params : positive) (d : gmap string pyval) (df : DataFrame) :
  h !! params = Some d ->
  out (query_all_contracts server fuel h params) = Returned (Some df) ->
  let pages :=
    map (fun e => frame_of (ev_result e))
        (events (query_all_contracts server fuel h params)) in
  pages ≠ [] /\
  index df = RangeIndex (list_sum (map len pages)) /\
  wf df /\
  NoDup (columns df) /\
  (forall c, c ∈ columns df <-> exists p, p ∈ pages /\ c ∈ columns p) /\
  (forall c, Forall (fun p => c ∈ columns p) pages ->
     find_column c (data df) =
     Some (flat_map (fun p => default [] (find_column c (data p))) pages)).
Proof.
  intros Hp Hout pages.
  destruct (query_all_contracts_spec server params d fuel h Hp) as (_ & n & Hev & _ & _ & Hspec).
  rewrite Hout in Hspec. destruct Hspec as (Hn & _ & Hdf).
  assert (Hpages : pages = map (fun j => frame_of (fetch_nth server d j)) (seq 0 n)).
  { unfold pages. rewrite Hev, map_map. reflexivity. }
  rewrite <- Hpages in Hdf.
  assert (Hne : pages ≠ []).
  { rewrite Hpages. destruct n; [lia|]. discriminate. }
  rewrite (finish_nonempty _ Hne) in Hdf. subst df.
  assert (Hwf : Forall wf pages).
  { rewrite Hpages. apply Forall_map, Forall_forall. intros j _. simpl.
    apply wf_frame_of. intros f pr tp Hf. exact (wf_fetch_page _ _ _ _ Hf). }
  destruct (all_labels_spec pages) as [Hnd Hmem].
  split; [exact Hne|]. split; [simpl; now rewrite length_flat_map_index|].
  split; [|split; [|split]].
  - unfold wf, concat_rows. simpl. apply Forall_map, Forall_forall. intros c _. simpl.
    unfold RangeIndex. rewrite length_map, length_seq, length_flat_map_index.
    now apply length_stacked_column.
  - now rewrite columns_concat_rows.
  - intros c. rewrite columns_concat_rows. apply Hmem.
  - intros c Hall. unfold concat_rows. simpl. rewrite find_column_tabulate.
    destruct (existsb (String.eqb c) (all_labels pages)) eqn:E.
    + now rewrite stacked_column_present.
    + exfalso. destruct pages as [|p ps]; [congruence|].
      apply Forall_cons in Hall. destruct Hall as [Hc _].
      assert (Hin : c ∈ all_labels (p :: ps)) by (apply Hmem; exists p; split; [left | exact Hc]).
      apply existsb_string_In in Hin. congruence.
Qed.

Lemma fetched_pages_are_stacked_witness :
  caller_store !! 1%positive = Some caller_params /\
  exists df,
    out (query_all_contracts two_pages 5 caller_store 1%positive) = Returned (Some df) /\
    index df = [0; 1].
Proof.
  split; [reflexivity|].
  assert (Hrun : exists df, out (query_all_contracts two_pages 5 caller_store 1%positive)
                            = Returned (Some df)).
  { eexists. vm_compute. reflexivity. }
  destruct Hrun as [df Hdf]. exists df. split; [exact Hdf|].
  destruct (fetched_pages_are_stacked two_pages 5 caller_store 1%positive caller_params df
              eq_refl Hdf) as (_ & Hi & _).
  rewrite Hi. vm_compute. reflexivity.
Defined.

End FetcherMore.

(** ** The files of the script *)

Module ScriptFacts.
Import Py Pandas PandasMore Extract Script Panel Samples MoreSamples Notions MoreNotions.

Lemma save_to_csv_cases (cwd : string) (fs : gmap (string * string) file)
    (df : option DataFrame) (filename : string) :
  (exists frame, df = Some frame /\ empty frame = false /\
                 save_to_csv cwd fs df filename
                 = <[(cwd, filename) :=
                       CsvFile (columns frame) (map (row_at frame) (seq 0 (len frame)))]> fs) \/
  ((df = None \/ exists frame, df = Some frame /\ empty frame = true) /\
   save_to_csv cwd fs df filename = fs).
Proof.
  destruct df as [frame|]; simpl; [|right; auto].
  destruct (empty frame) eqn:E; simpl; [right; eauto | left; eauto].
Qed.

Lemma save_to_pickle_cases (cwd : string) (fs : gmap (string * string) file)
    (df : option DataFrame) (filename : string) :
  (exists frame, df = Some frame /\ empty frame = false /\
                 save_to_pickle cwd fs df filename
                 = <[(cwd, filename) := PickleFile (Some frame)]> fs) \/
  ((df = None \/ exists frame, df = Some frame /\ empty frame = true) /\
   save_to_pickle cwd fs df filename = fs).
Proof.
  destruct df as [frame|]; simpl; [|right; auto].
  destruct (empty frame) eqn:E; simpl; [right; eauto | left; eauto].
Qed.

(** X7: [save_to_pickle] and [save_to_csv] write a frame that has rows and
    columns, and nothing else: for [None] and for a frame without rows or
    without columns the files stay as they are, a file of that name
    included.  A pickle that was written reads back as the frame saved; the
    CSV holds the column labels and one record per row, without the row
    labels.  No other file is touched. *)
Theorem saves_write_frames_with_data_only
    (cwd : string) (fs : gmap (string * string) file) (df : option DataFrame)
    (filename : string) :
  (forall frame, df = Some frame -> empty frame = false ->
     read_pickle (save_to_pickle cwd fs df filename) cwd filename = inr (Some frame) /\
     save_to_csv cwd fs df filename !! (cwd, filename)
     = Some (CsvFile (columns frame) (map (row_at frame) (seq 0 (len frame))))) /\
  (df = None \/ (exists frame, df = Some frame /\ empty frame = true) ->
     save_to_pickle cwd fs df filename = fs /\ save_to_csv cwd fs df filename = fs) /\
  (forall directory name, (directory, name) ≠ (cwd, filename) ->
     save_to_pickle cwd fs df filename !! (directory, name) = fs !! (directory, name) /\
     save_to_csv cwd fs df filename !! (directory, name) = fs !! (directory, name)).
Proof.
  split; [|split].
  - intros frame -> E. simpl. rewrite E. simpl. unfold read_pickle, to_pickle, to_csv.
    now rewrite !lookup_insert_eq.
  - intros [-> | (frame & -> & E)]; simpl; [auto|]. now rewrite E.
  - intros directory name Hne.
    destruct (save_to_pickle_cases cwd fs df filename) as [(f & _ & _ & ->) | [_ ->]];
      destruct (save_to_csv_cases cwd fs df filename) as [(g & _ & _ & ->) | [_ ->]];
      rewrite ?lookup_insert_ne by congruence; auto.
Qed.

Lemma saves_write_frames_with_data_only_witness :
  empty notices = false /\
  read_pickle (save_to_pickle "/srv" stale_workdir (Some notices) "contracts_clean.pkl")
              "/srv" "contracts_clean.pkl" = inr (Some notices) /\
  save_to_pickle "/srv" stale_workdir (Some no_rows) "contracts_clean.pkl" = stale_workdir.
Proof.
  split; [reflexivity|]. split.
  - apply (saves_write_frames_with_data_only "/srv" stale_workdir (Some notices)
             "contracts_clean.pkl"); reflexivity.
  - apply (saves_write_frames_with_data_only "/srv" stale_workdir (Some no_rows)
             "contracts_clean.pkl").
    right. exists no_rows. split; reflexivity.
Defined.

(** X8: [main], as it stands ([full_load] is [False]), sends no request
    and reads the raw snapshot [contracts.pkl] of the working directory.
    It changes no file but [contracts_clean.csv] and [contracts_clean.pkl]
    there, so the snapshot stays as it was.  Either it writes both, from the
    same processed frame, which has rows and columns, and completes; or it
    leaves every file as it found it, which is what happens whenever it
    fails. *)
Theorem main_writes_both_clean_files_or_none
    (parse : list cell -> cell -> option Z) (server : endpoint) (fuel : nat)
    (cwd : string) (fs : gmap (string * string) file) :
  let r := main parse server fuel cwd fs in
  requests r = [] /\
  (forall directory name,
     (directory, name) ≠ (cwd, "contracts_clean.csv") ->
     (directory, name) ≠ (cwd, "contracts_clean.pkl") ->
     files_after r !! (directory, name) = fs !! (directory, name)) /\
  ((exists raw out,
      fs !! (cwd, "contracts.pkl") = Some (PickleFile (Some raw)) /\
      process_data parse raw = Ok out /\
      empty out = false /\
      ended r = Completed /\
      files_after r !! (cwd, "contracts_clean.pkl") = Some (PickleFile (Some out)) /\
      files_after r !! (cwd, "contracts_clean.csv")
      = Some (CsvFile (columns out) (map (row_at out) (seq 0 (len out))))) \/
   files_after r = fs) /\
  (forall e, ended r = Failed e -> files_after r = fs) /\
  ended r ≠ Unfinished.
Proof.
  unfold main. simpl. unfold read_pickle.
  destruct (fs !! (cwd, "contracts.pkl")) as [[header records|[raw|]]|] eqn:Hraw; simpl;
    try (repeat split; auto; discriminate).
  destruct (process_data parse raw) as [out|e] eqn:Hout; simpl;
    [|repeat split; auto; discriminate].
  destruct (empty out) eqn:E; simpl; [repeat split; auto; discriminate|].
  unfold to_pickle, to_csv. split; [reflexivity|]. split; [|split; [|split]].
  - intros directory name H1 H2. now rewrite !lookup_insert_ne by congruence.
  - left. exists raw, out. split; [reflexivity|]. split; [exact Hout|].
    split; [exact E|]. split; [reflexivity|]. split.
    + now rewrite lookup_insert_eq.
    + rewrite lookup_insert_ne by discriminate. now rewrite lookup_insert_eq.
  - discriminate.
  - discriminate.
Qed.

(** X9: the tool shows what the script produced.  When [main] ran in the
    directory of [app.py] on a snapshot that [process_data] turns into a
    frame with rows and columns, the first [load_data] returns that frame.
    When the processed frame has no rows or no columns nothing was saved, and
    [load_data] finds what was there before the run. *)
Theorem load_data_reads_what_main_saved
    (parse : list cell -> cell -> option Z) (server : endpoint) (fuel : nat)
    (dir : string) (fs : gmap (string * string) file) (raw out : DataFrame) :
  fs !! (dir, "contracts.pkl") = Some (PickleFile (Some raw)) ->
  process_data parse raw = Ok out ->
  let r := main parse server fuel dir fs in
  (empty out = false ->
     load_data dir (files_after r) None = inr (Some out, Some (Some out))) /\
  (empty out = true ->
     load_data dir (files_after r) None = load_data dir fs None).
Proof.
  intros Hraw Hout r.
  assert (Hm : r = clean_and_save parse dir fs [] (Some raw)).
  { unfold r, main, read_pickle. simpl. now rewrite Hraw. }
  rewrite Hm. unfold clean_and_save. rewrite Hout. simpl.
  split; intros E; rewrite E; simpl; [|reflexivity].
  unfold load_data, read_pickle, to_pickle. now rewrite lookup_insert_eq.
Qed.

Lemma load_data_reads_what_main_saved_witness :
  exists out,
    process_data iso_parse repeated_notice = Ok out /\
    empty out = false /\
    load_data "/srv" (files_after (main iso_parse two_pages 0 "/srv" workdir)) None
    = inr (Some out, Some (Some out)).
Proof.
  assert (Hrun : exists out, process_data iso_parse repeated_notice = Ok out /\
                             empty out = false)
    by (eexists; split; vm_compute; reflexivity).
  destruct Hrun as (out & Hout & E). exists out. split; [exact Hout|]. split; [exact E|].
  apply (load_data_reads_what_main_saved iso_parse two_pages 0 "/srv" workdir
           repeated_notice out); [reflexivity | exact Hout | exact E].
Defined.

End ScriptFacts.

(** ** The search of the browsing tool *)

Module PanelFacts.
Import Py Pandas PandasMore Extract Script App Panel Samples MoreSamples Notions MoreNotions.
Import PandasFacts AppFacts.

(** *** Rows picked by position *)

Lemma select_map_filter {A B} (q : A -> bool) (f : A -> B) (l : list A) :
  select (map q l) (map f l) = map f (List.filter q l).
Proof.
  induction l as [|x l IH]; simpl; [reflexivity|].
  destruct (q x); simpl; now rewrite IH.
Qed.

Lemma boolean_index_rows_at (df : DataFrame) (positions : list nat) (q : nat -> bool) :
  boolean_index (rows_at df positions) (map q positions)
  = rows_at df (List.filter q positions).
Proof.
  unfold boolean_index, rows_at. simpl. rewrite select_map_filter. f_equal.
  rewrite map_map. apply map_ext. intros [c v]. simpl. now rewrite select_map_filter.
Qed.

Lemma map_nth_seq {A} (l : list A) (d : A) :
  map (fun i => nth i l d) (seq 0 (length l)) = l.
Proof.
  induction l as [|x l IH]; simpl; [reflexivity|].
  f_equal. rewrite <- seq_shift, map_map. exact IH.
Qed.

Lemma rows_at_all (df : DataFrame) : wf df -> rows_at df (seq 0 (len df)) = df.
Proof.
  destruct df as [idx d]. unfold wf, rows_at, len. simpl. intros Hwf.
  rewrite map_nth_seq. f_equal.
  induction Hwf as [|[c v] d Hv _ IH]; simpl; [reflexivity|].
  simpl in Hv. rewrite <- Hv at 1. now rewrite map_nth_seq, IH.
Qed.

Lemma find_column_rows_at (df : DataFrame) (positions : list nat) (c : string) :
  find_column c (data (rows_at df positions))
  = (fun v => map (fun i => nth i v NaN) positions) <$> find_column c (data df).
Proof.
  unfold rows_at. simpl.
  exact (find_column_map_cells (fun v => map (fun i => nth i v NaN) positions) c (data df)).
Qed.

Lemma columns_rows_at (df : DataFrame) (positions : list nat) :
  columns (rows_at df positions) = columns df.
Proof.
  unfold columns, rows_at. simpl. rewrite map_map. reflexivity.
Qed.

Lemma len_rows_at (df : DataFrame) (positions : list nat) :
  len (rows_at df positions) = length positions.
Proof. unfold len, rows_at. simpl. apply length_map. Qed.

Lemma column_rows_at (df : DataFrame) (positions : list nat) (c : string) (s : Series) :
  column (rows_at df positions) c = Some (Ok s) ->
  s_values s = map (cell_of df c) positions.
Proof.
  unfold column, cell_of. rewrite find_column_rows_at.
  destruct (find_column c (data df)) as [v|]; simpl; [|discriminate].
  destruct (count_label c (rows_at df positions) =? 1)%nat; [|discriminate].
  now intros [= <-].
Qed.

Lemma column_reads (df : DataFrame) (positions : list nat) (c : string) (s : Series) :
  column (rows_at df positions) c = Some (Ok s) -> find_column c (data df) ≠ None.
Proof.
  unfold column. rewrite find_column_rows_at.
  destruct (find_column c (data df)); simpl; [discriminate | discriminate].
Qed.

Lemma filter_filter_andb {A} (f g : A -> bool) (l : list A) :
  List.filter g (List.filter f l) = List.filter (fun x => f x && g x) l.
Proof.
  induction l as [|x l IH]; simpl; [reflexivity|].
  destruct (f x); simpl; [destruct (g x)|]; now rewrite IH.
Qed.

Lemma filter_all {A} (l : list A) : List.filter (fun _ => true) l = l.
Proof. induction l as [|x l IH]; simpl; [reflexivity | now rewrite IH]. Qed.

(** *** One criterion at a time *)

Lemma isin_filter_rows (df out : DataFrame) (positions : list nat) (c : string)
    (choices : list cell) :
  isin_filter (rows_at df positions) c choices = Some (Ok out) ->
  out = rows_at df (List.filter (fun i => chosen choices (cell_of df c i)) positions) /\
  (choices ≠ [] -> find_column c (data df) ≠ None).
Proof.
  unfold isin_filter. destruct choices as [|x choices]; simpl truthy_cells; cbv iota.
  - intros [= <-]. simpl. now rewrite filter_all.
  - unfold and_then. destruct (column (rows_at df positions) c) as [[s|e]|] eqn:Hs;
      try discriminate.
    pose proof (column_reads _ _ _ _ Hs) as Hr.
    apply column_rows_at in Hs. unfold isin. rewrite Hs.
    destruct (_ || _); [discriminate|]. intros [= <-]. split; [|auto].
    rewrite map_map. apply boolean_index_rows_at.
Qed.

Lemma min_value_filter_rows (df out : DataFrame) (positions : list nat) (floor : Z) :
  min_value_filter (rows_at df positions) floor = Some (Ok out) ->
  out = rows_at df (List.filter (fun i => at_least floor (cell_of df "valor" i)) positions).
Proof.
  unfold min_value_filter, at_least. destruct (floor =? 0) eqn:E; simpl.
  - intros [= <-]. now rewrite filter_all.
  - unfold and_then. destruct (column (rows_at df positions) "valor") as [[s|e]|] eqn:Hs;
      try discriminate.
    apply column_rows_at in Hs. unfold ge. rewrite Hs.
    destruct (_ && _); [|discriminate]. intros [= <-].
    rewrite map_map. apply boolean_index_rows_at.
Qed.

Lemma keyword_filter_rows (fold : char -> char) (df out : DataFrame)
    (positions : list nat) (keyword : str) :
  keyword_filter fold (rows_at df positions) keyword = Some (Ok out) ->
  out = rows_at df
          (List.filter (fun i => mentions fold (parse_keywords keyword)
                                   (cell_of df "objetoCompra" i)) positions) /\
  (parse_keywords keyword ≠ [] -> find_column "objetoCompra" (data df) ≠ None).
Proof.
  unfold keyword_filter, mentions.
  destruct (parse_keywords keyword) as [|k ks] eqn:Hk; simpl truthy_list; cbv iota.
  - intros [= <-]. now rewrite filter_all.
  - destruct (getitem (rows_at df positions) "objetoCompra") as [s|e] eqn:Hs;
      [|destruct e; discriminate].
    apply getitem_Ok in Hs. destruct Hs as [_ Hs].
    unfold str_contains, str_accessor.
    destruct (List.filter _ (s_values s)) as [|c present]; [discriminate|].
    destruct (_ || _); [discriminate|].
    rewrite re_compile_keywords by discriminate. simpl.
    intros [= <-].
    rewrite find_column_rows_at in Hs.
    destruct (find_column "objetoCompra" (data df)) as [v|] eqn:Hv; simpl in Hs;
      [|discriminate].
    split; [|discriminate].
    assert (Hs' : s_values s = map (cell_of df "objetoCompra") positions).
    { unfold cell_of. rewrite Hv. now injection Hs as <-. }
    rewrite Hs', map_map. apply boolean_index_rows_at.
Qed.

Lemma valor_sum_rows (df : DataFrame) (positions : list nat) (t : Z) :
  valor_sum (rows_at df positions) = Some (Ok t) ->
  t = total (map (cell_of df "valor") positions).
Proof.
  unfold valor_sum, and_then.
  destruct (column (rows_at df positions) "valor") as [[s|e]|] eqn:Hs; try discriminate.
  apply column_rows_at in Hs. unfold Series_sum. rewrite Hs.
  destruct (_ && _); [|discriminate]. now intros [= <-].
Qed.

Lemma getitem_list_index (df shown : DataFrame) (labels : list string) :
  getitem_list df labels = Ok shown -> index shown = index df.
Proof.
  unfold getitem_list. destruct (List.filter _ labels); [|discriminate].
  now intros [= <-].
Qed.

(** The rows the search is left with, before the columns are chosen. *)
Lemma buscar_stages (fold : char -> char) (df_full : DataFrame) (st : session)
    (keyword : str) (pg : page) :
  wf df_full ->
  buscar fold df_full st keyword = Some (Ok pg) ->
  exists df,
    df = rows_at df_full
           (List.filter (passes fold df_full st keyword) (seq 0 (len df_full))) /\
    df_display (default [] (selected_columns st)) df = Ok (table pg) /\
    num_rows pg = len df /\
    valor_sum df = Some (Ok (total_valor pg)) /\
    (if negb (empty df) then exists wb, to_excel (table pg) = Ok wb /\ excel_data pg = Some wb
     else excel_data pg = None) /\
    (default [] (status_filter st) ≠ [] ->
       find_column "situacaoCompraNome" (data df_full) ≠ None) /\
    (default [] (uf_filter st) ≠ [] -> find_column "ufSigla" (data df_full) ≠ None) /\
    (default [] (city_filter st) ≠ [] ->
       find_column "municipioNome" (data df_full) ≠ None) /\
    (default [] (type_filter st) ≠ [] ->
       find_column "modalidadeNome" (data df_full) ≠ None) /\
    (parse_keywords keyword ≠ [] -> find_column "objetoCompra" (data df_full) ≠ None).
Proof.
  intros Hwf H. unfold buscar in H.
  rewrite <- (rows_at_all df_full Hwf) in H at 1.
  unfold and_then at 1 in H.
  destruct (isin_filter _ "situacaoCompraNome" _) as [[d1|?]|] eqn:H1; try discriminate.
  apply isin_filter_rows in H1. destruct H1 as [-> R1].
  unfold and_then at 1 in H.
  destruct (isin_filter _ "ufSigla" _) as [[d2|?]|] eqn:H2; try discriminate.
  apply isin_filter_rows in H2. destruct H2 as [-> R2].
  unfold and_then at 1 in H.
  destruct (isin_filter _ "municipioNome" _) as [[d3|?]|] eqn:H3; try discriminate.
  apply isin_filter_rows in H3. destruct H3 as [-> R3].
  unfold and_then at 1 in H.
  destruct (isin_filter _ "modalidadeNome" _) as [[d4|?]|] eqn:H4; try discriminate.
  apply isin_filter_rows in H4. destruct H4 as [-> R4].
  unfold and_then at 1 in H.
  destruct (min_value_filter _ _) as [[d5|?]|] eqn:H5; try discriminate.
  apply min_value_filter_rows in H5. subst d5.
  unfold and_then at 1 in H.
  destruct (keyword_filter fold _ keyword) as [[d6|?]|] eqn:H6; try discriminate.
  apply keyword_filter_rows in H6. destruct H6 as [H6 R6].
  exists d6. split.
  { rewrite H6. f_equal. rewrite !filter_filter_andb. apply filter_ext. intros i.
    unfold passes. now rewrite !andb_assoc. }
  clear H6.
  unfold and_then at 1 in H.
  destruct (df_display _ d6) as [shown|?] eqn:Hshown; [|discriminate].
  unfold and_then at 1 in H.
  destruct (valor_sum d6) as [[t|?]|] eqn:Ht; try discriminate.
  destruct (negb (empty d6)).
  - unfold and_then in H. destruct (to_excel shown) as [wb|?] eqn:Hwb; [|discriminate].
    injection H as <-. simpl. repeat split; eauto.
  - injection H as <-. simpl. repeat split; eauto.
Qed.

Lemma empty_rows_at (df : DataFrame) (positions : list nat) :
  empty (rows_at df positions) = true <-> positions = [] \/ columns df = [].
Proof.
  unfold empty. rewrite len_rows_at, columns_rows_at, orb_true_iff, !Nat.eqb_eq.
  now rewrite !length_zero_iff_nil.
Qed.

(** X10: what Buscar shows, when it shows a page.  A row of the dataset
    is kept when it meets every criterion that is set: its status, state,
    town and kind are among the choices made for them, its [valor] is a
    number not below the floor, and its description is a text that the
    pattern compiled from the keywords finds; a criterion with no choice, a
    floor of 0 and an empty keyword list let every row pass.  For keywords
    without a character beyond U+FFFF that case folding changes, the
    pattern finds a text exactly when a keyword occurs in it, letter case
    apart.  The table shows the kept rows in the order of the dataset, with
    the columns of the column picker; the two figures are their number and
    the total of their [valor], which is exact as the numbers add up, in
    absolute value, to 2^53 at most; and the workbook for download is that
    table, offered unless no row is kept or the dataset has no column. *)
Theorem search_shows_the_rows_that_pass
    (fold : char -> char) (df_full : DataFrame) (st : session) (keyword : str)
    (pg : page) :
  wf df_full ->
  buscar fold df_full st keyword = Some (Ok pg) ->
  let kept := List.filter (passes fold df_full st keyword) (seq 0 (len df_full)) in
  df_display (default [] (selected_columns st)) (rows_at df_full kept) = Ok (table pg) /\
  index (table pg) = map (fun i => nth i (index df_full) 0) kept /\
  num_rows pg = length kept /\
  total_valor pg = total (map (cell_of df_full "valor") kept) /\
  (excel_data pg = None <-> kept = [] \/ columns df_full = []) /\
  (forall wb, excel_data pg = Some wb -> to_excel (table pg) = Ok wb) /\
  ((forall k, In k (parse_keywords keyword) -> forall c, In c k -> plain_case fold c) ->
   forall text,
     mentions fold (parse_keywords keyword) (Str text) = true <->
     parse_keywords keyword = [] \/
     exists k, In k (parse_keywords keyword) /\ ci_substring fold k text).
Proof.
  intros Hwf H kept.
  assert (Hm : (forall k, In k (parse_keywords keyword) ->
                          forall c, In c k -> plain_case fold c) ->
               forall text,
                 mentions fold (parse_keywords keyword) (Str text) = true <->
                 parse_keywords keyword = [] \/
                 exists k, In k (parse_keywords keyword) /\ ci_substring fold k text).
  { intros Hplain text. unfold mentions.
    destruct (parse_keywords keyword) as [|k ks] eqn:E; [tauto|].
    rewrite (re_search_keywords fold (k :: ks) text Hplain).
    split; [auto | intros [? | ?]; [discriminate | assumption]]. }
  destruct (buscar_stages fold df_full st keyword pg Hwf H)
    as (df & Hdf & Hshown & Hn & Ht & Hx & _).
  fold kept in Hdf. subst df.
  split; [exact Hshown|]. split.
  { unfold df_display in Hshown. now rewrite (getitem_list_index _ _ _ Hshown). }
  split; [now rewrite Hn, len_rows_at|].
  split; [now apply valor_sum_rows|].
  destruct (empty (rows_at df_full kept)) eqn:E; simpl in Hx.
  - apply empty_rows_at in E. split; [tauto|]. split; [|exact Hm].
    intros wb Hwb. congruence.
  - destruct Hx as (wb & Hwb & Hx). split; [|split; [|exact Hm]].
    + split; [congruence|]. intros Hk. apply empty_rows_at in Hk. congruence.
    + intros wb' Hwb'. congruence.
Qed.

Lemma catalogue_wf : wf catalogue.
Proof. unfold wf. repeat constructor. Qed.

Lemma search_shows_the_rows_that_pass_witness :
  wf catalogue /\
  exists pg,
    buscar ascii_fold catalogue chosen_session (cp "medicamento") = Some (Ok pg) /\
    index (table pg) = [0] /\ num_rows pg = 1%nat /\ total_valor pg = 1000.
Proof.
  split; [exact catalogue_wf|].
  assert (Hrun : exists pg, buscar ascii_fold catalogue chosen_session (cp "medicamento")
                            = Some (Ok pg))
    by (eexists; vm_compute; reflexivity).
  destruct Hrun as [pg Hpg]. exists pg. split; [exact Hpg|].
  destruct (search_shows_the_rows_that_pass ascii_fold catalogue chosen_session
              (cp "medicamento") pg catalogue_wf Hpg) as (_ & Hi & Hn & Ht & _).
  rewrite Hi, Hn, Ht. vm_compute. auto.
Defined.

(** X11: Buscar shows no page when the dataset lacks a column it reads:
    [valor], which the total needs whatever the criteria; [objetoCompra] when
    a keyword is given; and the column of a filter for which a choice was
    made. *)
Theorem search_needs_the_columns_it_reads
    (fold : char -> char) (df_full : DataFrame) (st : session) (keyword : str) :
  wf df_full ->
  find_column "valor" (data df_full) = None \/
  (parse_keywords keyword ≠ [] /\ find_column "objetoCompra" (data df_full) = None) \/
  (default [] (status_filter st) ≠ [] /\
   find_column "situacaoCompraNome" (data df_full) = None) \/
  (default [] (uf_filter st) ≠ [] /\ find_column "ufSigla" (data df_full) = None) \/
  (default [] (city_filter st) ≠ [] /\ find_column "municipioNome" (data df_full) = None) \/
  (default [] (type_filter st) ≠ [] /\ find_column "modalidadeNome" (data df_full) = None) ->
  forall pg, buscar fold df_full st keyword ≠ Some (Ok pg).
Proof.
  intros Hwf Hmiss pg H.
  destruct (buscar_stages fold df_full st keyword pg Hwf H)
    as (df & -> & _ & _ & Ht & _ & R1 & R2 & R3 & R4 & R6).
  destruct Hmiss as [Hv | [[Hk Hc] | [[Hk Hc] | [[Hk Hc] | [[Hk Hc] | [Hk Hc]]]]]];
    try (now (apply R1 in Hk || apply R2 in Hk || apply R3 in Hk || apply R4 in Hk
              || apply R6 in Hk)).
  unfold valor_sum, and_then in Ht.
  destruct (column _ "valor") as [[s|e]|] eqn:Hs; try discriminate.
  now apply column_reads in Hs.
Qed.

Lemma search_needs_the_columns_it_reads_witness :
  wf notices /\
  forall pg, buscar ascii_fold notices chosen_session (cp "papel") ≠ Some (Ok pg).
Proof.
  split; [unfold wf; repeat constructor|].
  apply (search_needs_the_columns_it_reads ascii_fold notices chosen_session (cp "papel")).
  - unfold wf. repeat constructor.
  - right. right. left. split; [discriminate | reflexivity].
Defined.

(** *** The column picker *)

Lemma firstn_In {A} (n : nat) (l : list A) (x : A) : In x (firstn n l) -> In x l.
Proof.
  revert l. induction n as [|n IH]; intros [|y l]; simpl; try tauto.
  intros [-> | H]; [auto | right; now apply IH].
Qed.

(** X12: the defaults of the column picker are columns of the dataset, so
    the picker is never given a default outside its options.  They are the
    session's columns that the dataset has, in the session's order; when it
    has none of them, its first five columns; and there is a default
    whenever the dataset has a column. *)
Theorem default_cols_are_columns (selected : list string) (df_full : DataFrame) :
  let kept := List.filter (fun c => bool_decide (c ∈ columns df_full)) selected in
  (forall c, In c (default_cols selected df_full) -> In c (columns df_full)) /\
  (kept ≠ [] -> default_cols selected df_full = kept) /\
  (kept = [] -> default_cols selected df_full = firstn 5 (columns df_full)) /\
  (columns df_full ≠ [] -> default_cols selected df_full ≠ []).
Proof.
  intros kept.
  assert (Hk : List.filter (fun col => existsb (String.eqb col) (columns df_full)) selected
               = kept).
  { apply filter_ext. intros c. apply eq_true_iff_eq.
    now rewrite existsb_label, bool_decide_eq_true, list_elem_of_In. }
  unfold default_cols. rewrite Hk.
  assert (Hin : forall c, In c kept -> In c (columns df_full)).
  { intros c Hc. apply filter_In in Hc. destruct Hc as [_ Hc].
    apply bool_decide_eq_true in Hc. now apply list_elem_of_In. }
  destruct kept as [|k kept'] eqn:E; simpl.
  - destruct (columns df_full) as [|a cols] eqn:Hcols; simpl.
    + repeat split; auto; try contradiction.
    + split; [intros c [-> | Hc]; [now left | right; now apply (firstn_In 4 cols)]|].
      repeat split; auto; try discriminate; try contradiction.
  - split; [exact Hin|]. split; [reflexivity|]. split; discriminate.
Qed.

(** *** Keywords *)

Lemma lstrip_fixed (s : str) :
  (forall c rest, s = c :: rest -> isspace c = false) -> lstrip s = s.
Proof.
  destruct s as [|c s]; simpl; [reflexivity|]. intros H.
  now rewrite (H c s eq_refl).
Qed.

Lemma strip_fixed (s : str) :
  (forall c rest, s = c :: rest -> isspace c = false) ->
  (forall c front, s = front ++ [c] -> isspace c = false) ->
  strip s = s.
Proof.
  intros Hfirst Hlast. unfold strip, rstrip. rewrite (lstrip_fixed s Hfirst).
  rewrite lstrip_fixed; [apply rev_involutive|].
  intros c rest Hrev. apply (Hlast c (rev rest)).
  rewrite <- (rev_involutive s), Hrev. reflexivity.
Qed.

Lemma strip_strip (s : str) : strip (strip s) = strip s.
Proof.
  destruct (strip_spec s) as (l & r & _ & _ & _ & Hfirst & Hlast).
  now apply strip_fixed.
Qed.

Lemma split_no_separator (sep : char) (s : str) : ~ In sep s -> split sep s = [s].
Proof.
  induction s as [|c s IH]; simpl; [reflexivity|]. intros H.
  destruct (N.eqb_spec c sep) as [-> | _]; [tauto|].
  rewrite IH by tauto. reflexivity.
Qed.

Lemma split_app_separator (sep : char) (k rest : str) :
  ~ In sep k -> split sep (k ++ sep :: rest) = k :: split sep rest.
Proof.
  induction k as [|c k IH]; simpl; intros H.
  - now rewrite N.eqb_refl.
  - destruct (N.eqb_spec c sep) as [-> | _]; [tauto|].
    rewrite IH by tauto. reflexivity.
Qed.

Lemma split_join (sep : char) (ks : list str) :
  ks ≠ [] -> (forall k, In k ks -> ~ In sep k) -> split sep (join [sep] ks) = ks.
Proof.
  induction ks as [|k ks IH]; [congruence|]. intros _ H.
  destruct ks as [|k' ks].
  - simpl. apply split_no_separator. apply H. now left.
  - change (join [sep] (k :: k' :: ks)) with (k ++ sep :: join [sep] (k' :: ks)).
    rewrite split_app_separator by (apply H; now left).
    f_equal. apply IH; [discriminate|]. intros x Hx. apply H. now right.
Qed.

Lemma filter_id {A} (f : A -> bool) (l : list A) :
  (forall x, In x l -> f x = true) -> List.filter f l = l.
Proof.
  induction l as [|x l IH]; simpl; [reflexivity|]. intros H.
  rewrite (H x) by now left. f_equal. apply IH. intros y Hy. apply H. now right.
Qed.

Lemma map_id_on {A} (f : A -> A) (l : list A) :
  (forall x, In x l -> f x = x) -> map f l = l.
Proof.
  induction l as [|x l IH]; simpl; [reflexivity|]. intros H.
  rewrite (H x) by now left. f_equal. apply IH. intros y Hy. apply H. now right.
Qed.

Lemma keyword_clean (text k : str) :
  In k (parse_keywords text) ->
  k ≠ [] /\ ~ In semicolon k /\ strip k = k /\
  (forall c, In c k -> In c text).
Proof.
  rewrite parse_keywords_tokens. intros H. apply filter_In in H. destruct H as [H Ht].
  apply in_map_iff in H. destruct H as (piece & <- & Hp).
  destruct (strip_spec piece) as (l & r & Hpiece & _).
  assert (Hsub : forall c, In c (strip piece) -> In c piece).
  { intros c Hc. rewrite Hpiece. rewrite !in_app_iff. tauto. }
  split; [intros E; rewrite E in Ht; discriminate|].
  split; [|split].
  - intros Hs. apply Hsub in Hs.
    destruct (split_pieces semicolon text piece semicolon Hp Hs) as [Hne _]. congruence.
  - apply strip_strip.
  - intros c Hc. apply Hsub in Hc.
    exact (proj2 (split_pieces semicolon text piece c Hp Hc)).
Qed.

(** X13: a keyword [parse_keywords] returns is never empty, holds no
    semicolon, has no white space at either end, and is made of characters
    of the input.  Parsing is stable: the keywords joined by semicolons parse
    to the same keywords. *)
Theorem keywords_are_trimmed_and_parse_back (text : str) :
  (forall k, In k (parse_keywords text) ->
     k ≠ [] /\ ~ In semicolon k /\ strip k = k /\
     (forall c rest, k = c :: rest -> isspace c = false) /\
     (forall c front, k = front ++ [c] -> isspace c = false) /\
     (forall c, In c k -> In c text)) /\
  parse_keywords (join [semicolon] (parse_keywords text)) = parse_keywords text.
Proof.
  split.
  - intros k Hk. destruct (keyword_clean text k Hk) as (Hne & Hsemi & Hstrip & Hin).
    destruct (strip_spec k) as (l & r & _ & _ & _ & Hfirst & Hlast).
    rewrite Hstrip in Hfirst, Hlast. auto 10.
  - destruct (parse_keywords text) as [|k ks] eqn:E; [reflexivity|].
    rewrite <- E. rewrite (parse_keywords_tokens (join _ _)).
    rewrite split_join.
    + rewrite map_id_on by (intros x Hx; now apply (keyword_clean text x)).
      apply filter_id. intros x Hx. destruct (keyword_clean text x Hx) as [Hne _].
      now destruct x.
    + rewrite E. discriminate.
    + intros x Hx. now apply (keyword_clean text x).
Qed.

(** *** The choices of a filter *)

Lemma str_ltb_irrefl (a : str) : str_ltb a a = false.
Proof.
  induction a as [|x a IH]; simpl; [reflexivity|].
  now rewrite N.ltb_irrefl, N.eqb_refl, IH.
Qed.

Lemma str_ltb_trans (a b c : str) :
  str_ltb a b = true -> str_ltb b c = true -> str_ltb a c = true.
Proof.
  revert b c. induction a as [|x a IH]; intros [|y b] [|z c]; simpl; try congruence.
  rewrite !orb_true_iff, !andb_true_iff, !N.ltb_lt, !N.eqb_eq.
  intros [H1 | [-> H1]] [H2 | [-> H2]]; [left; lia | now left | now left |].
  right. split; [reflexivity | now apply (IH b c)].
Qed.

Lemma str_ltb_total (a b : str) : str_ltb a b = false -> a ≠ b -> str_ltb b a = true.
Proof.
  revert b. induction a as [|x a IH]; intros [|y b]; simpl; try congruence.
  rewrite orb_false_iff, andb_false_iff, orb_true_iff, andb_true_iff.
  rewrite !N.ltb_ge, N.ltb_lt, N.eqb_neq, N.eqb_eq. intros [H1 H2] Hne.
  destruct (N.eq_dec x y) as [-> | Hxy]; [|left; lia].
  right. split; [reflexivity|]. destruct H2 as [H2 | H2]; [congruence|].
  apply IH; [exact H2 | congruence].
Qed.

Lemma insort_In (x y : str) (l : list str) : In y (insort x l) <-> y = x \/ In y l.
Proof.
  induction l as [|z l IH]; simpl; [intuition|].
  destruct (str_ltb x z); simpl; [intuition|]. rewrite IH. intuition.
Qed.

Lemma ascending_insort (x : str) (l : list str) :
  ascending l -> ~ In x l -> ascending (insort x l).
Proof.
  induction l as [|y l IH]; simpl.
  - intros _ _. split; [constructor | exact I].
  - intros [Hy Hl] Hx. destruct (str_ltb x y) eqn:E; simpl.
    + split; [|split; assumption]. constructor; [exact E|].
      eapply Forall_impl; [exact Hy|]. intros z Hz. simpl in Hz.
      now apply (str_ltb_trans x y z).
    + assert (Hyx : str_ltb y x = true) by (apply str_ltb_total; [exact E | intuition]).
      split; [|apply IH; [exact Hl | intuition]].
      apply Forall_forall. intros z Hz. apply list_elem_of_In, insort_In in Hz.
      destruct Hz as [-> | Hz]; [exact Hyx|].
      rewrite Forall_forall in Hy. apply Hy. now apply list_elem_of_In.
Qed.

Lemma sorted_spec (values : list str) :
  List.NoDup values ->
  ascending (sorted values) /\ (forall x, In x (sorted values) <-> In x values).
Proof.
  unfold sorted.
  assert (G : forall acc, ascending acc -> List.NoDup values ->
            (forall x, In x values -> ~ In x acc) ->
            ascending (fold_left (fun acc x => insort x acc) values acc) /\
            (forall x, In x (fold_left (fun acc x => insort x acc) values acc)
                       <-> In x values \/ In x acc)).
  { induction values as [|v values IH]; intros acc Hacc Hnd Hfresh; simpl.
    - split; [exact Hacc | intuition].
    - apply List.NoDup_cons_iff in Hnd. destruct Hnd as [Hv Hnd].
      destruct (IH (insort v acc)) as [Ha Hm].
      + apply ascending_insort; [exact Hacc|]. apply Hfresh. now left.
      + exact Hnd.
      + intros x Hx Hin. apply insort_In in Hin. destruct Hin as [-> | Hin];
          [contradiction|]. apply (Hfresh x); [now right | exact Hin].
      + split; [exact Ha|]. intros x. rewrite Hm, insort_In. intuition. }
  intros Hnd. destruct (G [] I Hnd) as [Ha Hm]; [intros x _ []|].
  split; [exact Ha|]. intros x. rewrite Hm. simpl. tauto.
Qed.

Lemma unique_spec (v : list cell) :
  List.NoDup (unique v) /\ (forall c, In c (unique v) <-> In c v).
Proof.
  induction v as [|c v [IHn IHm]]; simpl; [split; [constructor | tauto]|].
  split.
  - constructor; [|now apply List.NoDup_filter].
    intros Hin. apply filter_In in Hin. destruct Hin as [_ Hin].
    apply negb_true_iff in Hin.
    assert (cell_eqb c c = true) by now apply cell_eqb_eq. congruence.
  - intros x. rewrite filter_In, IHm, negb_true_iff. split; [tauto|].
    intros [-> | Hx]; [now left|].
    destruct (cell_eqb x c) eqn:E; [left; symmetry; now apply cell_eqb_eq | tauto].
Qed.

Lemma texts_Some (v : list cell) (l : list str) : texts v = Some l -> v = map Str l.
Proof.
  revert l. induction v as [|c v IH]; simpl; intros l; [now intros [= <-]|].
  destruct c; try discriminate.
  destruct (texts v) as [l'|]; simpl; [|discriminate].
  intros [= <-]. simpl. now rewrite (IH l' eq_refl).
Qed.

Lemma NoDup_map_Str (l : list str) : List.NoDup (map Str l) -> List.NoDup l.
Proof.
  induction l as [|x l IH]; simpl; [constructor|].
  intros H. apply List.NoDup_cons_iff in H. destruct H as [Hx Hl].
  constructor; [|now apply IH]. intros Hin. apply Hx. now apply in_map.
Qed.

(** X15: the choices a filter offers for a column of texts are the distinct
    texts of the column and nothing else (a missing value is no choice), in
    the order of Python strings, each one strictly above the one before.
    There is none when the dataset lacks the column: the page then fails
    with [KeyError]. *)
Theorem filter_options_are_the_distinct_texts (df_full : DataFrame) (c : string) :
  (forall options, filter_options df_full c = Some (Ok options) ->
     exists v,
       find_column c (data df_full) = Some v /\
       (forall x, In x options <-> In (Str x) v) /\
       ascending options) /\
  (find_column c (data df_full) = None ->
     filter_options df_full c = Some (Raise (KeyError c))).
Proof.
  unfold filter_options, column. split.
  - intros options. destruct (find_column c (data df_full)) as [v|]; [|discriminate].
    destruct (count_label c df_full =? 1)%nat; [|discriminate]. simpl.
    destruct (texts (unique (dropna v))) as [values|] eqn:Ht; [|discriminate].
    intros [= <-]. exists v. split; [reflexivity|].
    apply texts_Some in Ht.
    destruct (unique_spec (dropna v)) as [Hnd Hm]. rewrite Ht in Hnd.
    apply NoDup_map_Str in Hnd. destruct (sorted_spec values Hnd) as [Ha Hs].
    split; [|exact Ha]. intros x. rewrite Hs.
    assert (Hx : In (Str x) (map Str values) <-> In x values).
    { rewrite in_map_iff. split; [intros (y & [= ->] & Hy); exact Hy | eauto]. }
    rewrite <- Hx, <- Ht, Hm. unfold dropna. rewrite filter_In. tauto.
  - now intros ->.
Qed.

Lemma filter_options_are_the_distinct_texts_witness :
  filter_options catalogue "municipioNome" = Some (Ok [cp "Lages"; cp "Santos"]) /\
  exists v,
    find_column "municipioNome" (data catalogue) = Some v /\
    (forall x, In x [cp "Lages"; cp "Santos"] <-> In (Str x) v) /\
    ascending [cp "Lages"; cp "Santos"].
Proof.
  assert (H : filter_options catalogue "municipioNome" = Some (Ok [cp "Lages"; cp "Santos"]))
    by (vm_compute; reflexivity).
  split; [exact H|].
  exact (proj1 (filter_options_are_the_distinct_texts catalogue "municipioNome") _ H).
Defined.

(** *** The login gate *)

Lemma script_run_spec (logged_in : bool) (a : attempt) :
  (fst (script_run logged_in a) = true <-> logged_in = true \/ valid_login a) /\
  (snd (script_run logged_in a) = MainInterface <-> fst (script_run logged_in a) = true).
Proof.
  unfold script_run, login_page, valid_login, str_eqb.
  destruct logged_in; simpl; [intuition|].
  destruct (submitted a); simpl; [|intuition congruence].
  repeat case_bool_decide; simpl; intuition congruence.
Qed.

Lemma session_pages_spec (runs : list attempt) (logged_in : bool) (i : nat) :
  session_pages logged_in runs !! i = Some MainInterface <->
  (i < length runs)%nat /\
  (logged_in = true \/ exists j a, (j <= i)%nat /\ runs !! j = Some a /\ valid_login a).
Proof.
  revert logged_in i. induction runs as [|a runs IH]; intros logged_in i; simpl.
  - rewrite lookup_nil. split; [discriminate | intros [? _]; lia].
  - destruct (script_run_spec logged_in a) as [Hst Hpg].
    destruct (script_run logged_in a) as [st pg] eqn:E. simpl in Hst, Hpg.
    destruct i as [|i]; simpl.
    + split.
      * intros [= ->]. split; [lia|]. destruct (proj1 Hst (proj1 Hpg eq_refl)) as [? | Hv];
          [now left | right; exists O, a; auto].
      * intros [_ H]. f_equal. apply Hpg, Hst.
        destruct H as [? | (j & b & Hj & Hb & Hv)]; [now left|].
        right. destruct j; [|lia]. simpl in Hb. now injection Hb as <-.
    + rewrite IH. split; intros [Hi H]; (split; [lia|]).
      * destruct H as [H | (j & b & Hj & Hb & Hv)].
        -- apply Hst in H. destruct H as [? | Hv]; [now left | right; exists O, a].
           repeat split; [lia | exact (proj1 Hv) | exact (proj1 (proj2 Hv))
                         | exact (proj2 (proj2 Hv))].
        -- right. exists (S j), b. repeat split; [lia | exact Hb | apply Hv ..].
      * destruct H as [H | (j & b & Hj & Hb & Hv)].
        -- left. apply Hst. now left.
        -- destruct j as [|j]; simpl in Hb.
           ++ injection Hb as <-. left. apply Hst. now right.
           ++ right. exists j, b. repeat split; [lia | exact Hb | apply Hv ..].
Qed.

(** X16: in a session, which starts logged out, a run of the script shows
    the main interface exactly when Entrar was pressed in that run or an
    earlier one with the user name Renato and the password 12345678, letter
    for letter; every other run shows the login form.  Once in, the session
    stays in. *)
Theorem main_interface_only_after_login (runs : list attempt) (i : nat) :
  (session_pages false runs !! i = Some MainInterface <->
   (i < length runs)%nat /\
   exists j a, (j <= i)%nat /\ runs !! j = Some a /\ valid_login a) /\
  (forall k, (i <= k)%nat -> (k < length runs)%nat ->
     session_pages false runs !! i = Some MainInterface ->
     session_pages false runs !! k = Some MainInterface).
Proof.
  split.
  - rewrite session_pages_spec. intuition discriminate.
  - intros k Hik Hk. rewrite !session_pages_spec.
    intros [_ [? | (j & a & Hj & Ha & Hv)]]; [discriminate|].
    split; [exact Hk|]. right. exists j, a. repeat split; [lia | exact Ha | apply Hv ..].
Qed.

End PanelFacts.
